(** * Glow host runtime: HostManager and quantization::clip

    A shallow embedding of
      - lib/Runtime/HostManager/HostManager.cpp  (network registry, admission
        control, reference counting, shutdown), and
      - include/glow/Quantization/Base/Base.h    (quantization::clip),
    followed by the properties proved about them.

    Conventions.
      - The two request counters and the refcounts are 64-bit unsigned
        atomics: integers in Z with the wrap-around written out.
      - [networks_] is a finite map from names to entries; [devices_], whose
        keys are 0..n-1, is a list indexed by device id.
      - The Partitioner, the Provisioner, the DeviceManagers and the graph
        optimizer live outside these sources: their answers are read from a
        record of functions, and every call made to them, to the Executor or
        to a caller's callback is appended to a trace.
      - The Executor is modelled from the specification (section 4.3).
      - Concurrent runNetwork calls interleave at the granularity of the
        atomic counter operations and of the critical sections of
        [networkLock_].

    Layout: definitions first (module [Quantization], then [Runtime] with the
    data model, the operations and the interleaving semantics, then
    [Scenario] with concrete hosts), theorems afterwards. *)

From stdpp Require Import gmap strings list fin_maps pretty.
From Stdlib Require Import Ascii.

Local Open Scope Z_scope.

(* ===================================================================== *)
(** * Part I: definitions                                                 *)
(* ===================================================================== *)

(** ** quantization::clip (Base.h, lines 152-159) *)

Module Quantization.

(** A C++ integer type: its width in bits and its signedness. *)
Record IntTy := { ty_bits : Z; ty_signed : bool }.

Definition int8_t   := {| ty_bits := 8;  ty_signed := true  |}.
Definition int16_t  := {| ty_bits := 16; ty_signed := true  |}.
Definition int32_t  := {| ty_bits := 32; ty_signed := true  |}.
Definition int64_t  := {| ty_bits := 64; ty_signed := true  |}.
Definition uint8_t  := {| ty_bits := 8;  ty_signed := false |}.
Definition uint16_t := {| ty_bits := 16; ty_signed := false |}.
Definition uint32_t := {| ty_bits := 32; ty_signed := false |}.
Definition uint64_t := {| ty_bits := 64; ty_signed := false |}.

(** sizeof, in bits. *)
Definition sizeof (t : IntTy) : Z := ty_bits t.

(** std::numeric_limits<T>::min() and ::max(). *)
Definition numeric_limits_min (t : IntTy) : Z :=
  if ty_signed t then - 2 ^ (ty_bits t - 1) else 0.

Definition numeric_limits_max (t : IntTy) : Z :=
  if ty_signed t then 2 ^ (ty_bits t - 1) - 1 else 2 ^ ty_bits t - 1.

(** The values a variable of type [t] can hold. *)
Definition representable (t : IntTy) (z : Z) : Prop :=
  numeric_limits_min t <= z <= numeric_limits_max t.

(** Implicit integral conversion to [t]: reduction modulo 2^bits, read
    back in two's complement when [t] is signed. *)
Definition convert (t : IntTy) (z : Z) : Z :=
  if ty_signed t
  then (z + 2 ^ (ty_bits t - 1)) mod 2 ^ ty_bits t - 2 ^ (ty_bits t - 1)
  else z mod 2 ^ ty_bits t.

(** std::min<T>(a, b) is [(b < a) ? b : a]; std::max<T>(a, b) is
    [(a < b) ? b : a].  Both arguments are first converted to [T]. *)
Definition std_min (t : IntTy) (a b : Z) : Z :=
  let a' := convert t a in
  let b' := convert t b in
  if b' <? a' then b' else a'.

Definition std_max (t : IntTy) (a b : Z) : Z :=
  let a' := convert t a in
  let b' := convert t b in
  if a' <? b' then b' else a'.

(** static_assert(sizeof(SrcTy) >= sizeof(DestTy), "Invalid types") *)
Definition static_assert_ok (SrcTy DestTy : IntTy) : Prop :=
  sizeof DestTy <= sizeof SrcTy.

(** [clip<SrcTy, DestTy>(in)]:
      auto mx = std::numeric_limits<DestTy>::max();
      auto mn = std::numeric_limits<DestTy>::min();
      return std::max<SrcTy>(mn, std::min<SrcTy>(mx, in));
    The returned SrcTy value is converted to the return type DestTy. *)
Definition clip (SrcTy DestTy : IntTy) (input : Z) : Z :=
  let mx := numeric_limits_max DestTy in
  let mn := numeric_limits_min DestTy in
  convert DestTy (std_max SrcTy mn (std_min SrcTy mx input)).

(** Every value of [DestTy] is also a value of [SrcTy]. *)
Definition range_included (SrcTy DestTy : IntTy) : Prop :=
  numeric_limits_min SrcTy <= numeric_limits_min DestTy /\
  numeric_limits_max DestTy <= numeric_limits_max SrcTy.

End Quantization.

(** ** The host runtime (HostManager.cpp) *)

Module Runtime.

(** *** Machine integers

    The request counters and the per-network reference count are
    [size_t]-sized atomics (line 299 reads one into a [size_t]; their
    declarations are in HostManager.h); they wrap around modulo 2^64. *)

Definition size_t_bits : Z := 64.
Definition size_t_modulus : Z := 2 ^ size_t_bits.
Definition wrap (z : Z) : Z := z mod size_t_modulus.
(** [x++] / [x--] on such a counter. *)
Definition incr (z : Z) : Z := wrap (z + 1).
Definition decr (z : Z) : Z := wrap (z - 1).

Abbreviation RunIdentifierTy := Z.
Abbreviation DeviceIDTy := nat.

(** *** Errors (llvm::Error carrying a GlowErr) *)

Inductive ErrorCode :=
| UNKNOWN
| RUNTIME_ERROR
| RUNTIME_NET_BUSY
| RUNTIME_NET_NOT_FOUND
| RUNTIME_REQUEST_REFUSED
| OTHER_CODE (n : nat).   (* codes only raised by the collaborators *)

Inductive Error :=
| Success
| Failure (code : ErrorCode) (msg : string).

Definition is_success (e : Error) : bool :=
  match e with Success => true | Failure _ _ => false end.

(** OneErrOnly: [set] keeps the first error it is given, [get] returns it. *)
Definition OneErrOnly := Error.
Definition OneErrOnly_set (held : OneErrOnly) (e : Error) : OneErrOnly :=
  match held with Success => e | Failure _ _ => held end.

(** *** Data model *)

(** A DAGNode, with the two members this file reads. *)
Record DAGNode := { name : string; deviceIDs : list DeviceIDTy }.

(** DAG: [root] is a unique_ptr (None is the null pointer). *)
Record DAG := { root : option DAGNode; nodes : list DAGNode }.

Abbreviation DAGListTy := (list DAG).

Record GlowFunction := { getName : string }.

(** A Module: its functions, and whether its constants still carry their
    payload (cleared by [strip]). *)
Record GlowModule := { getFunctions : list GlowFunction; hasPayload : bool }.

Definition strip (m : GlowModule) : GlowModule :=
  {| getFunctions := getFunctions m; hasPayload := false |}.

(** NetworkData: [module] is a shared_ptr (None is the null pointer). *)
Record NetworkData :=
  { dag : DAG; module : option GlowModule; refcount : Z }.

(** A default-constructed NetworkData, as created by [networks_[key]]
    for a missing key. *)
Definition NetworkData_default : NetworkData :=
  {| dag := {| root := None; nodes := [] |}; module := None; refcount := 0 |}.

Record HostConfig := { executorThreads : Z; maxActiveRequests : Z }.

Record DeviceConfig := { backendName : string; configName : string }.

Record DeviceManager := { getDeviceConfig : DeviceConfig }.

Record DeviceInfo :=
  { availableMemory : Z;
    infoBackendName : string;
    nonSupportedNodes : string;
    supportedNodes : string }.

Inductive QuantizationMode := QuantNone | Quantize | Profile.

Record CompilationContext :=
  { quantMode : QuantizationMode;
    backendSpecificOpts : list (string * string) }.

(** The per-request carrier handed back to the callback; opaque here. *)
Abbreviation ExecutionContext := nat.

(** A caller's callback (ResultCBTy) is identified by a token. *)
Abbreviation ResultCBTy := nat.

(** The completion lambda built at lines 315-329: it captures the
    caller's callback and the network name. *)
Record Completion := { captured_callback : ResultCBTy; captured_name : string }.

(** One call of [executor_->run(root, context, runID, cb)]. *)
Record ScheduledRun :=
  { run_root : option DAGNode;
    run_context : ExecutionContext;
    run_id : RunIdentifierTy;
    run_cb : Completion }.

#[global] Instance DAGNode_eq_dec : EqDecision DAGNode.
Proof. solve_decision. Defined.

#[global] Instance Completion_eq_dec : EqDecision Completion.
Proof. solve_decision. Defined.

#[global] Instance ScheduledRun_eq_dec : EqDecision ScheduledRun.
Proof. solve_decision. Defined.

(** Modelled from the spec: the Executor (ThreadPoolExecutor, not among
    the sources).  Section 4.3: [run] is non-blocking and the completion
    callback of every run is invoked exactly once; [shutdown] blocks until
    the in-flight work has drained.  The model keeps the runs that were
    accepted and whose completion callback has not been invoked yet.  What
    [run] does after [shutdown] is not specified; the flag is only
    recorded. *)
Record ThreadPoolExecutor :=
  { exec_threads : Z;
    pending : list ScheduledRun;
    shuttingDown : bool }.

(** The Provisioner is a collaborator; only the device list it was built
    on is visible here. *)
Record Provisioner := { prov_devices : list DeviceManager }.

(** What a caller's callback is passed, and what it can observe of the two
    counters at the moment it is invoked. *)
Record CallbackCall :=
  { cb_token : ResultCBTy;
    cb_runID : RunIdentifierTy;
    cb_err : Error;
    cb_context : ExecutionContext;
    seen_active : Z;
    seen_refcount : option Z }.

(** Calls that leave the HostManager, in the order they are made. *)
Inductive Event :=
| EvCallback (c : CallbackCall)
| EvExecutorRun (r : ScheduledRun)
| EvExecutorShutdown
| EvEvictNetwork (device : DeviceIDTy) (function : string)
| EvRemoveFunction (function : string)
| EvDeviceInit (device : DeviceIDTy) (config : DeviceConfig)
| EvDeviceStop (device : DeviceIDTy)
| EvProvision (nodeList : DAGListTy).

(** The members of HostManager.  [devices_] has keys 0..n-1 (see [init],
    lines 73-86) and is kept as a list indexed by device id.  [trace_] is
    not a member: it logs the outgoing calls. *)
Record HostManager := mkHostManager
  { config_ : HostConfig;
    networks_ : gmap string NetworkData;
    devices_ : list DeviceManager;
    provisioner_ : Provisioner;
    executor_ : ThreadPoolExecutor;
    activeRequestCount_ : Z;
    totalRequestCount_ : Z;
    trace_ : list Event }.

Definition with_networks (f : gmap string NetworkData -> gmap string NetworkData)
    (hm : HostManager) : HostManager :=
  mkHostManager (config_ hm) (f (networks_ hm)) (devices_ hm)
    (provisioner_ hm) (executor_ hm) (activeRequestCount_ hm)
    (totalRequestCount_ hm) (trace_ hm).

Definition with_devices (d : list DeviceManager) (hm : HostManager) : HostManager :=
  mkHostManager (config_ hm) (networks_ hm) d
    (provisioner_ hm) (executor_ hm) (activeRequestCount_ hm)
    (totalRequestCount_ hm) (trace_ hm).

Definition with_provisioner (p : Provisioner) (hm : HostManager) : HostManager :=
  mkHostManager (config_ hm) (networks_ hm) (devices_ hm)
    p (executor_ hm) (activeRequestCount_ hm)
    (totalRequestCount_ hm) (trace_ hm).

Definition with_executor (e : ThreadPoolExecutor) (hm : HostManager) : HostManager :=
  mkHostManager (config_ hm) (networks_ hm) (devices_ hm)
    (provisioner_ hm) e (activeRequestCount_ hm)
    (totalRequestCount_ hm) (trace_ hm).

Definition with_active (a : Z) (hm : HostManager) : HostManager :=
  mkHostManager (config_ hm) (networks_ hm) (devices_ hm)
    (provisioner_ hm) (executor_ hm) a
    (totalRequestCount_ hm) (trace_ hm).

Definition with_total (t : Z) (hm : HostManager) : HostManager :=
  mkHostManager (config_ hm) (networks_ hm) (devices_ hm)
    (provisioner_ hm) (executor_ hm) (activeRequestCount_ hm)
    t (trace_ hm).

(** Append outgoing calls to the trace. *)
Definition emit (evs : list Event) (hm : HostManager) : HostManager :=
  mkHostManager (config_ hm) (networks_ hm) (devices_ hm)
    (provisioner_ hm) (executor_ hm) (activeRequestCount_ hm)
    (totalRequestCount_ hm) (trace_ hm ++ evs).

(** *** Collaborators

    The Partitioner, the Provisioner, the DeviceManagers, the graph
    optimizer and the command line are not among the sources: what they
    answer is read from an environment. *)

Inductive Expected (A : Type) :=
| Value (a : A)
| Unexpected (code : ErrorCode) (msg : string).
Arguments Value {A} a.
Arguments Unexpected {A} code msg.

Record Collaborators :=
  { loadBackendSpecificOptionsOpt : string;
    deserializeStrStrMapFromYaml : string -> list (string * string);
    profilingBackend : string;
    dev_getAvailableMemory : DeviceIDTy -> DeviceManager -> Z;
    dev_getBackendName : DeviceIDTy -> DeviceManager -> string;
    dev_getParamByName : DeviceIDTy -> DeviceManager -> string -> string;
    dev_init : DeviceIDTy -> DeviceConfig -> Error;
    dev_stop : DeviceIDTy -> Error;
    dev_evictNetwork : DeviceIDTy -> string -> Error;
    optimizeFunctionBeforeLowering : GlowFunction -> CompilationContext -> Error;
    partition : GlowModule -> list DeviceInfo -> bool -> CompilationContext ->
                Expected DAGListTy;
    provision : Provisioner -> DAGListTy -> GlowModule -> CompilationContext ->
                Error;
    (** the error an execution ends with, handed to the completion callback *)
    run_result : ScheduledRun -> Error }.

(** *** Registry lookups (lines 63-69, 216-219) *)

Definition getNetworkDAG (network : string) (hm : HostManager) : Expected DAG :=
  match networks_ hm !! network with
  | None => Unexpected RUNTIME_ERROR "Network not found."
  | Some nd => Value (dag nd)
  end.

Definition networkAdded (networkName : string) (hm : HostManager) : bool :=
  bool_decide (is_Some (networks_ hm !! networkName)).

(** *** addNetwork (lines 95-174) *)

(** Lines 100-108: the first function of the module whose name is already
    registered. *)
Fixpoint first_registered (functions : list GlowFunction)
    (networks : gmap string NetworkData) : option string :=
  match functions with
  | [] => None
  | F :: rest =>
      match networks !! getName F with
      | Some _ => Some (getName F)
      | None => first_registered rest networks
      end
  end.

(** Lines 110-118. *)
Definition load_backend_options (env : Collaborators)
    (cctx : CompilationContext) : CompilationContext :=
  if bool_decide (loadBackendSpecificOptionsOpt env = "") then cctx
  else {| quantMode := quantMode cctx;
          backendSpecificOpts :=
            deserializeStrStrMapFromYaml env (loadBackendSpecificOptionsOpt env) |}.

(** Lines 120-128. *)
Definition collect_device_info (env : Collaborators)
    (devices : list DeviceManager) : list DeviceInfo :=
  imap (fun i d =>
          {| availableMemory := dev_getAvailableMemory env i d;
             infoBackendName := dev_getBackendName env i d;
             nonSupportedNodes := dev_getParamByName env i d "nonSupportedNodes";
             supportedNodes := dev_getParamByName env i d "supportedNodes" |})
       devices.

(** Lines 131-133. *)
Fixpoint optimize_all (env : Collaborators) (functions : list GlowFunction)
    (cctx : CompilationContext) : Error :=
  match functions with
  | [] => Success
  | F :: rest =>
      match optimizeFunctionBeforeLowering env F cctx with
      | Success => optimize_all env rest cctx
      | Failure c m => Failure c m
      end
  end.

(** Lines 148-154: devices [i], [i+1], ... ([todo] of them) are replaced by
    profiling devices; the loop stops at the first failing [init]. *)
Fixpoint recreate_devices (env : Collaborators) (i : nat) (todo : nat)
    (hm : HostManager) : Error * HostManager :=
  match todo with
  | O => (Success, hm)
  | S k =>
      let name :=
        match devices_ hm !! i with
        | Some d => configName (getDeviceConfig d)
        | None => ""
        end in
      let config := {| backendName := profilingBackend env; configName := name |} in
      let hm1 :=
        emit [EvDeviceInit i config]
          (with_devices (<[i := {| getDeviceConfig := config |}]> (devices_ hm)) hm) in
      match dev_init env i config with
      | Success => recreate_devices env (S i) k hm1
      | Failure c m => (Failure c m, hm1)
      end
  end.

(** Lines 138-157. *)
Definition enter_profiling (env : Collaborators) (cctx : CompilationContext)
    (hm : HostManager) : Error * HostManager :=
  match quantMode cctx with
  | Profile =>
      if bool_decide (size (networks_ hm) = 0%nat) then
        match recreate_devices env 0 (length (devices_ hm)) hm with
        | (Success, hm1) =>
            (Success,
             with_executor
               {| exec_threads := executorThreads (config_ hm1);
                  pending := []; shuttingDown := false |}
               (with_provisioner {| prov_devices := devices_ hm1 |} hm1))
        | (Failure c m, hm1) => (Failure c m, hm1)
        end
      else
        (Failure UNKNOWN
           ("For quantization profiling flow, there can't be other " +:+
            "registered networks before this one"), hm)
  | _ => (Success, hm)
  end.

(** The key used at line 168, [(node.root)->name].  The source dereferences
    the root unconditionally; a null root is outside the Partitioner's
    contract and is given the empty name here. *)
Definition root_name (node : DAG) : string :=
  match root node with Some n => name n | None => "" end.

(** Lines 168-170: [networks_[key]] creates a default entry when the key
    is missing and otherwise keeps the entry (and its refcount). *)
Definition install (sharedModule : GlowModule)
    (networks : gmap string NetworkData) (node : DAG) : gmap string NetworkData :=
  let networkData := default NetworkData_default (networks !! root_name node) in
  <[root_name node :=
      {| dag := node; module := Some sharedModule;
         refcount := refcount networkData |}]> networks.

(** What lines 98-157 hand over to the provisioning step. *)
Inductive Prepared :=
| Rejected (err : Error) (hm : HostManager)
| Ready (nodeList : DAGListTy) (cctx : CompilationContext) (hm : HostManager).

(** Lines 98-157. *)
Definition addNetwork_prepare (env : Collaborators) (module : GlowModule)
    (cctx : CompilationContext) (saturateHost : bool) (hm : HostManager)
    : Prepared :=
  match first_registered (getFunctions module) (networks_ hm) with
  | Some name =>
      Rejected
        (Failure RUNTIME_ERROR
           ("Failed to add network: already have a function called " +:+ name))
        hm
  | None =>
      let cctx1 := load_backend_options env cctx in
      let deviceInfo := collect_device_info env (devices_ hm) in
      match optimize_all env (getFunctions module) cctx1 with
      | Failure c m => Rejected (Failure c m) hm
      | Success =>
          match partition env module deviceInfo saturateHost cctx1 with
          | Unexpected c m => Rejected (Failure c m) hm
          | Value nodeList =>
              match enter_profiling env cctx1 hm with
              | (Failure c m, hm1) => Rejected (Failure c m) hm1
              | (Success, hm1) => Ready nodeList cctx1 hm1
              end
          end
      end
  end.

(** Lines 159-173. *)
Definition addNetwork_commit (env : Collaborators) (module : GlowModule)
    (cctx : CompilationContext) (nodeList : DAGListTy) (hm : HostManager)
    : Error * HostManager :=
  let hm1 := emit [EvProvision nodeList] hm in
  match provision env (provisioner_ hm) nodeList module cctx with
  | Failure c m => (Failure c m, hm1)
  | Success =>
      let sharedModule := strip module in
      (Success,
       with_networks (fun nets => foldl (install sharedModule) nets nodeList) hm1)
  end.

Definition addNetwork (env : Collaborators) (module : GlowModule)
    (cctx : CompilationContext) (saturateHost : bool) (hm : HostManager)
    : Error * HostManager :=
  match addNetwork_prepare env module cctx saturateHost hm with
  | Rejected err hm1 => (err, hm1)
  | Ready nodeList cctx1 hm1 => addNetwork_commit env module cctx1 nodeList hm1
  end.

(** *** removeNetwork (lines 176-214) *)

(** Lines 195-207 for one device, then for every device of one node, then
    line 209. *)
Definition evict_from (env : Collaborators) (function : string)
    (acc : OneErrOnly * list Event) (device : DeviceIDTy)
    : OneErrOnly * list Event :=
  (OneErrOnly_set acc.1 (dev_evictNetwork env device function),
   acc.2 ++ [EvEvictNetwork device function]).

Definition evict_node (env : Collaborators) (acc : OneErrOnly * list Event)
    (node : DAGNode) : OneErrOnly * list Event :=
  let acc1 := foldl (evict_from env (name node)) acc (deviceIDs node) in
  (acc1.1, acc1.2 ++ [EvRemoveFunction (name node)]).

Definition removeNetwork (env : Collaborators) (networkName : string)
    (hm : HostManager) : Error * HostManager :=
  match networks_ hm !! networkName with
  | None => (Success, hm)
  | Some networkData =>
      if bool_decide (refcount networkData <> 0) then
        (Failure RUNTIME_NET_BUSY
           ("Cannot remove the network " +:+ networkName +:+
            ", as there are still outstanding runs"), hm)
      else
        let done := foldl (evict_node env) (Success, []) (nodes (dag networkData)) in
        (done.1, with_networks (delete networkName) (emit done.2 hm))
  end.

(** *** runNetwork (lines 270-331), one atomic action at a time *)

(** Invoking a caller's callback. *)
Definition invoke (callback : ResultCBTy) (runID : RunIdentifierTy)
    (err : Error) (context : ExecutionContext) (networkName : string)
    (hm : HostManager) : HostManager :=
  emit [EvCallback
          {| cb_token := callback; cb_runID := runID; cb_err := err;
             cb_context := context;
             seen_active := activeRequestCount_ hm;
             seen_refcount := refcount <$> (networks_ hm !! networkName) |}]
       hm.

(** Line 278: [totalRequestCount_++]. *)
Definition next_run_id (hm : HostManager) : RunIdentifierTy * HostManager :=
  (totalRequestCount_ hm, with_total (incr (totalRequestCount_ hm)) hm).

Definition retain_entry (nd : NetworkData) : NetworkData :=
  {| dag := dag nd; module := module nd; refcount := incr (refcount nd) |}.

Definition release_entry (nd : NetworkData) : NetworkData :=
  {| dag := dag nd; module := module nd; refcount := decr (refcount nd) |}.

(** Lines 281-288, under the registry lock: find the entry and, if it is
    there, [refcount++]. *)
Definition retain (networkName : string) (hm : HostManager)
    : bool * HostManager :=
  match networks_ hm !! networkName with
  | Some nd => (true, with_networks (<[networkName := retain_entry nd]>) hm)
  | None => (false, hm)
  end.

(** Line 302 ([network->refcount--]) and lines 319-323 (find the entry and,
    if it is still there, [refcount--]). *)
Definition release (networkName : string) (hm : HostManager) : HostManager :=
  with_networks (alter release_entry networkName) hm.

(** Line 299: [activeRequestCount_++], returning the previous value. *)
Definition enter (hm : HostManager) : Z * HostManager :=
  (activeRequestCount_ hm, with_active (incr (activeRequestCount_ hm)) hm).

(** Lines 301 and 328: [activeRequestCount_--]. *)
Definition leave (hm : HostManager) : HostManager :=
  with_active (decr (activeRequestCount_ hm)) hm.

Definition not_found_error (networkName : string) : Error :=
  Failure RUNTIME_NET_NOT_FOUND ("Function " +:+ networkName +:+ " not found").

Definition refused_error (activeRequestCount maxActive : Z) : Error :=
  Failure RUNTIME_REQUEST_REFUSED
    ("The number of allowed requests has been exceeded. active requests: " +:+
     pretty activeRequestCount +:+ " allowed requests: " +:+ pretty maxActive).

(** [executor_->run(...)]: the run is accepted. *)
Definition executor_run (r : ScheduledRun) (hm : HostManager) : HostManager :=
  emit [EvExecutorRun r]
    (with_executor
       {| exec_threads := exec_threads (executor_ hm);
          pending := pending (executor_ hm) ++ [r];
          shuttingDown := shuttingDown (executor_ hm) |} hm).

(** Lines 313-329: [networks_[networkName]] creates a default entry when the
    key is missing; the run is handed to the Executor with the completion
    lambda. *)
Definition schedule (networkName : string) (context : ExecutionContext)
    (currentRun : RunIdentifierTy) (callback : ResultCBTy) (hm : HostManager)
    : ScheduledRun * HostManager :=
  let hm1 :=
    match networks_ hm !! networkName with
    | Some _ => hm
    | None => with_networks (<[networkName := NetworkData_default]>) hm
    end in
  let r :=
    {| run_root :=
         match networks_ hm1 !! networkName with
         | Some nd => root (dag nd)
         | None => None
         end;
       run_context := context;
       run_id := currentRun;
       run_cb := {| captured_callback := callback;
                    captured_name := networkName |} |} in
  (r, executor_run r hm1).

(** The body of the completion lambda, lines 318-328, in its three parts. *)
Definition completion_release (c : Completion) (hm : HostManager) : HostManager :=
  release (captured_name c) hm.

Definition completion_notify (c : Completion) (runID : RunIdentifierTy)
    (err : Error) (context : ExecutionContext) (hm : HostManager) : HostManager :=
  invoke (captured_callback c) runID err context (captured_name c) hm.

Definition completion_leave (hm : HostManager) : HostManager := leave hm.

Definition completion (c : Completion) (runID : RunIdentifierTy) (err : Error)
    (context : ExecutionContext) (hm : HostManager) : HostManager :=
  completion_leave (completion_notify c runID err context (completion_release c hm)).

(** runNetwork as the calling thread executes it, up to its return. *)
Definition runNetwork (networkName : string) (context : ExecutionContext)
    (callback : ResultCBTy) (hm : HostManager) : RunIdentifierTy * HostManager :=
  let '(currentRun, hm1) := next_run_id hm in
  let '(found, hm2) := retain networkName hm1 in
  if negb found then
    (currentRun,
     invoke callback currentRun (not_found_error networkName) context
       networkName hm2)
  else
    let '(activeRequestCount, hm3) := enter hm2 in
    if bool_decide (maxActiveRequests (config_ hm3) <= activeRequestCount) then
      let hm4 := leave hm3 in
      let hm5 := release networkName hm4 in
      (currentRun,
       invoke callback currentRun
         (refused_error activeRequestCount (maxActiveRequests (config_ hm5)))
         context networkName hm5)
    else
      (currentRun, (schedule networkName context currentRun callback hm3).2).

(** *** The Executor side *)

(** Modelled from the spec: the Executor calls the completion callback of
    an accepted run once, with the run id it was given (section 4.3); the
    run then leaves the set of pending runs. *)
Definition dequeue (runID : RunIdentifierTy) (hm : HostManager) : HostManager :=
  with_executor
    {| exec_threads := exec_threads (executor_ hm);
       pending := filter (fun r => run_id r <> runID) (pending (executor_ hm));
       shuttingDown := shuttingDown (executor_ hm) |} hm.

Definition executor_finish (env : Collaborators) (hm : HostManager)
    (r : ScheduledRun) : HostManager :=
  completion (run_cb r) (run_id r) (run_result env r) (run_context r)
    (dequeue (run_id r) hm).

(** Modelled from the spec: [shutdown] blocks until every pending run has
    completed (sections 4.4 and 5). *)
Definition executor_shutdown (env : Collaborators) (hm : HostManager) : HostManager :=
  let hm1 := emit [EvExecutorShutdown] hm in
  let hm2 := foldl (executor_finish env) hm1 (pending (executor_ hm1)) in
  with_executor
    {| exec_threads := exec_threads (executor_ hm2);
       pending := pending (executor_ hm2);
       shuttingDown := true |} hm2.

(** *** clearHost (lines 221-242) *)

(** [networks_.begin()->first]: the first key in the enumeration of the
    registry (the container does not promise any particular order). *)
Definition begin_key (networks : gmap string NetworkData) : option string :=
  fst <$> head (map_to_list networks).

(** Lines 230-232.  Each round either removes an entry or returns; [fuel]
    bounds the number of rounds and [None] means it ran out. *)
Fixpoint remove_all (env : Collaborators) (fuel : nat) (hm : HostManager)
    : option (Error * HostManager) :=
  match begin_key (networks_ hm) with
  | None => Some (Success, hm)
  | Some first =>
      match fuel with
      | O => None
      | S fuel' =>
          match removeNetwork env first hm with
          | (Success, hm1) => remove_all env fuel' hm1
          | (Failure c m, hm1) => Some (Failure c m, hm1)
          end
      end
  end.

(** Lines 235-241. *)
Definition stop_device (env : Collaborators) (acc : OneErrOnly * list Event)
    (device : DeviceIDTy) : OneErrOnly * list Event :=
  (OneErrOnly_set acc.1 (dev_stop env device), acc.2 ++ [EvDeviceStop device]).

Definition stop_all (env : Collaborators) (hm : HostManager) : Error * HostManager :=
  let done := foldl (stop_device env) (Success, []) (seq 0 (length (devices_ hm))) in
  (done.1, emit done.2 hm).

(** The DCHECK_EQ at line 226 is a debug-build assertion and has no effect
    on the state. *)
Definition clearHost (env : Collaborators) (hm : HostManager)
    : option (Error * HostManager) :=
  let hm1 := executor_shutdown env hm in
  match remove_all env (size (networks_ hm1)) hm1 with
  | None => None
  | Some (Failure c m, hm2) => Some (Failure c m, hm2)
  | Some (Success, hm2) => Some (stop_all env hm2)
  end.

(** First-error-wins over a sequence of results. *)
Definition first_error (errs : list Error) : Error :=
  foldl OneErrOnly_set Success errs.

(** The pending runs against one network. *)
Definition outstanding (networkName : string) (runs : list ScheduledRun) : Z :=
  Z.of_nat (length (filter (fun r => captured_name (run_cb r) = networkName) runs)).

(** Between calls, the refcount of every entry is the number of pending
    runs against it (and fits a size_t). *)
Definition settled (hm : HostManager) : Prop :=
  map_Forall
    (fun networkName nd =>
       refcount nd = outstanding networkName (pending (executor_ hm)) /\
       refcount nd < size_t_modulus)
    (networks_ hm).

Definition callback_event (ev : Event) : Prop :=
  match ev with EvCallback _ => True | _ => False end.

Definition removal_event (ev : Event) : Prop :=
  match ev with
  | EvEvictNetwork _ _ | EvRemoveFunction _ => True
  | _ => False
  end.

(** *** Concurrent runNetwork calls

    Each call advances by the atomic actions above: the two counters are
    atomics, the registry lookups are critical sections of [networkLock_].
    A request is a call together with the completion the Executor later runs
    for it; any request that has not finished may take the next step. *)

Inductive Outcome :=
| NotFound (currentRun : RunIdentifierTy)
| Refused (currentRun : RunIdentifierTy) (activeRequestCount : Z)
| Completed (r : ScheduledRun) (err : Error).

Inductive Stage :=
| Called                                           (* before line 278 *)
| HasId (currentRun : RunIdentifierTy)             (* before line 281 *)
| Missing (currentRun : RunIdentifierTy)           (* before line 290 *)
| Retained (currentRun : RunIdentifierTy)          (* before line 299 *)
| Over (currentRun : RunIdentifierTy) (activeRequestCount : Z)     (* before 301 *)
| OverLeft (currentRun : RunIdentifierTy) (activeRequestCount : Z) (* before 302 *)
| OverReleased (currentRun : RunIdentifierTy) (activeRequestCount : Z) (* before 303 *)
| Granted (currentRun : RunIdentifierTy)          (* before line 313 *)
| Scheduled (r : ScheduledRun)       (* returned; the Executor holds the run *)
| Released (r : ScheduledRun) (err : Error)        (* lambda, before line 327 *)
| Notified (r : ScheduledRun) (err : Error)        (* lambda, before line 328 *)
| Finished (o : Outcome).

Record Request :=
  { req_name : string;
    req_context : ExecutionContext;
    req_callback : ResultCBTy;
    req_stage : Stage }.

Definition at_stage (rq : Request) (s : Stage) : Request :=
  {| req_name := req_name rq; req_context := req_context rq;
     req_callback := req_callback rq; req_stage := s |}.

(** The next atomic action of a request. *)
Definition request_step (env : Collaborators) (rq : Request) (hm : HostManager)
    : Stage * HostManager :=
  match req_stage rq with
  | Called =>
      let '(currentRun, hm1) := next_run_id hm in (HasId currentRun, hm1)
  | HasId currentRun =>
      let '(found, hm1) := retain (req_name rq) hm in
      (if found then Retained currentRun else Missing currentRun, hm1)
  | Missing currentRun =>
      (Finished (NotFound currentRun),
       invoke (req_callback rq) currentRun (not_found_error (req_name rq))
         (req_context rq) (req_name rq) hm)
  | Retained currentRun =>
      let '(activeRequestCount, hm1) := enter hm in
      (if bool_decide (maxActiveRequests (config_ hm1) <= activeRequestCount)
       then Over currentRun activeRequestCount
       else Granted currentRun, hm1)
  | Over currentRun a => (OverLeft currentRun a, leave hm)
  | OverLeft currentRun a => (OverReleased currentRun a, release (req_name rq) hm)
  | OverReleased currentRun a =>
      (Finished (Refused currentRun a),
       invoke (req_callback rq) currentRun
         (refused_error a (maxActiveRequests (config_ hm)))
         (req_context rq) (req_name rq) hm)
  | Granted currentRun =>
      let '(r, hm1) :=
        schedule (req_name rq) (req_context rq) currentRun (req_callback rq) hm in
      (Scheduled r, hm1)
  | Scheduled r =>
      (Released r (run_result env r),
       completion_release (run_cb r) (dequeue (run_id r) hm))
  | Released r err =>
      (Notified r err,
       completion_notify (run_cb r) (run_id r) err (run_context r) hm)
  | Notified r err => (Finished (Completed r err), completion_leave hm)
  | Finished o => (Finished o, hm)
  end.

Definition finished (rq : Request) : bool :=
  match req_stage rq with Finished _ => true | _ => false end.

(** The value runNetwork has returned, once it has. *)
Definition returned (s : Stage) : option RunIdentifierTy :=
  match s with
  | Scheduled r | Released r _ | Notified r _ => Some (run_id r)
  | Finished (NotFound currentRun) | Finished (Refused currentRun _) =>
      Some currentRun
  | Finished (Completed r _) => Some (run_id r)
  | _ => None
  end.

(** The run identifier a call holds, once line 278 has run. *)
Definition issued (s : Stage) : option RunIdentifierTy :=
  match s with
  | Called => None
  | HasId i | Missing i | Retained i | Over i _ | OverLeft i _
  | OverReleased i _ | Granted i => Some i
  | Scheduled r | Released r _ | Notified r _ => Some (run_id r)
  | Finished (NotFound i) | Finished (Refused i _) => Some i
  | Finished (Completed r _) => Some (run_id r)
  end.

(** A configuration: the HostManager and the calls made on it so far. *)
Record Config := { host : HostManager; calls : list Request }.

(** Modelled from the spec: the Executor invokes the completion callback
    of a run it has been handed and has not completed yet (section 4.3).
    The first action of the completion lambda is therefore enabled only
    while the Executor holds the run; every other action is a step of the
    calling thread, or the rest of the lambda, and is always enabled. *)
Definition enabled (rq : Request) (hm : HostManager) : Prop :=
  match req_stage rq with
  | Scheduled r => r ∈ pending (executor_ hm)
  | _ => True
  end.

#[global] Instance enabled_dec (rq : Request) (hm : HostManager) :
  Decision (enabled rq hm).
Proof. unfold enabled. destruct (req_stage rq); apply _. Defined.

(** One step: some unfinished request takes its next action, if that action
    is enabled. *)
Inductive step (env : Collaborators) : Config -> Config -> Prop :=
| step_request (hm : HostManager) (pool : list Request) (i : nat) (rq : Request) :
    pool !! i = Some rq ->
    finished rq = false ->
    enabled rq hm ->
    step env {| host := hm; calls := pool |}
      {| host := (request_step env rq hm).2;
         calls := <[i := at_stage rq (request_step env rq hm).1]> pool |}.

(** A new call arrives. *)
Definition fresh (networkName : string) (context : ExecutionContext)
    (callback : ResultCBTy) : Request :=
  {| req_name := networkName; req_context := context;
     req_callback := callback; req_stage := Called |}.

(** Past admission and not yet completed: admitted at line 300 and the
    completion lambda has not reached its end. *)
Definition in_flight (s : Stage) : Z :=
  match s with
  | Granted _ | Scheduled _ | Released _ _ | Notified _ _ => 1
  | _ => 0
  end.

(** Counted in [activeRequestCount_]: between line 299 and lines 301/328. *)
Definition holds_slot (s : Stage) : Z :=
  match s with
  | Over _ _ | Granted _ | Scheduled _ | Released _ _ | Notified _ _ => 1
  | _ => 0
  end.

(** Counted in the refcount of [networkName]: between line 286 and line
    302, or line 322. *)
Definition holds_ref (networkName : string) (rq : Request) : Z :=
  if bool_decide (req_name rq = networkName) then
    match req_stage rq with
    | Retained _ | Over _ _ | OverLeft _ _ | Granted _ | Scheduled _ => 1
    | _ => 0
    end
  else 0.

(** Sum of a 0/1 measure over the calls. *)
Definition tally (f : Request -> Z) (pool : list Request) : Z :=
  foldr (fun rq acc => f rq + acc) 0 pool.

(** The callback invocations a token has received, and the runs handed to
    the Executor on its behalf. *)
Definition calls_to (callback : ResultCBTy) (trace : list Event)
    : list CallbackCall :=
  omap (fun ev =>
          match ev with
          | EvCallback c =>
              if bool_decide (cb_token c = callback) then Some c else None
          | _ => None
          end) trace.

Definition runs_for (callback : ResultCBTy) (trace : list Event)
    : list ScheduledRun :=
  omap (fun ev =>
          match ev with
          | EvExecutorRun r =>
              if bool_decide (captured_callback (run_cb r) = callback)
              then Some r else None
          | _ => None
          end) trace.

(** What a token has been passed: run identifier and error of each call. *)
Definition received (callback : ResultCBTy) (trace : list Event)
    : list (RunIdentifierTy * Error) :=
  (fun c => (cb_runID c, cb_err c)) <$> calls_to callback trace.

(** 1 once line 278 has run. *)
Definition has_id (s : Stage) : Z :=
  match s with Called => 0 | _ => 1 end.

(** The start of an execution: nothing in flight, no reference held, an
    empty trace, calls that have not started and carry distinct callbacks,
    and fewer calls than the counters can count. *)
Record starting (c : Config) : Prop :=
  { start_active : activeRequestCount_ (host c) = 0;
    start_refcounts : map_Forall (fun _ nd => refcount nd = 0) (networks_ (host c));
    start_trace : trace_ (host c) = [];
    start_total : 0 <= totalRequestCount_ (host c);
    start_limit : 0 <= maxActiveRequests (config_ (host c));
    start_calls : Forall (fun rq => req_stage rq = Called) (calls c);
    start_tokens : NoDup (req_callback <$> calls c);
    start_room :
      totalRequestCount_ (host c) + Z.of_nat (length (calls c)) < size_t_modulus }.

(** The run a request has handed to the Executor carries the request's own
    callback, name and context. *)
Definition coherent (rq : Request) : Prop :=
  match req_stage rq with
  | Scheduled r | Released r _ | Notified r _ | Finished (Completed r _) =>
      run_cb r = {| captured_callback := req_callback rq;
                    captured_name := req_name rq |} /\
      run_context r = req_context rq
  | _ => True
  end.

(** Where the run of a request is: the Executor holds it from the moment it
    is handed over (line 313) until it invokes the completion lambda, and
    holds no run with that identifier afterwards. *)
Definition custody (rq : Request) (hm : HostManager) : Prop :=
  match req_stage rq with
  | Scheduled r => r ∈ pending (executor_ hm)
  | Released r _ | Notified r _ | Finished (Completed r _) =>
      run_id r ∉ run_id <$> pending (executor_ hm)
  | _ => True
  end.

(** A refusal is only ever decided on a counter value at or above the limit. *)
Definition justified (maxActive : Z) (s : Stage) : Prop :=
  match s with
  | Over _ a | OverLeft _ a | OverReleased _ a | Finished (Refused _ a) =>
      maxActive <= a
  | _ => True
  end.

(** What the callback of a request has been passed, and the runs handed to
    the Executor for it, by the time the request is at a given stage. *)
Definition expected_calls (maxActive : Z) (rq : Request)
    : list (RunIdentifierTy * Error) :=
  match req_stage rq with
  | Notified r err | Finished (Completed r err) => [(run_id r, err)]
  | Finished (NotFound i) => [(i, not_found_error (req_name rq))]
  | Finished (Refused i a) => [(i, refused_error a maxActive)]
  | _ => []
  end.

Definition expected_runs (s : Stage) : list ScheduledRun :=
  match s with
  | Scheduled r | Released r _ | Notified r _ | Finished (Completed r _) => [r]
  | _ => []
  end.

(** Number of atomic actions a request still has to take. *)
Definition remaining (s : Stage) : nat :=
  match s with
  | Called => 7
  | HasId _ => 6
  | Retained _ => 5
  | Over _ _ | Granted _ => 4
  | OverLeft _ _ | Scheduled _ => 3
  | OverReleased _ _ | Released _ _ => 2
  | Missing _ | Notified _ _ => 1
  | Finished _ => 0
  end.

(** The refusal path (lines 300-310): the identifier of the call and the
    counter value it read at line 299. *)
Definition refusing (s : Stage) : option (RunIdentifierTy * Z) :=
  match s with
  | Over i a | OverLeft i a | OverReleased i a | Finished (Refused i a) =>
      Some (i, a)
  | _ => None
  end.

(** Running a given schedule: the requests named take one action each, in
    order (a finished or missing request, or one whose next action is not
    enabled, is skipped). *)
Definition advance (env : Collaborators) (c : Config) (i : nat) : Config :=
  match calls c !! i with
  | Some rq =>
      if finished rq then c
      else if decide (enabled rq (host c)) then
        {| host := (request_step env rq (host c)).2;
           calls := <[i := at_stage rq (request_step env rq (host c)).1]>
                      (calls c) |}
      else c
  | None => c
  end.

Definition run_schedule (env : Collaborators) (schedule : list nat) (c : Config)
    : Config :=
  foldl (advance env) c schedule.

(** A call running alone up to the return of runNetwork. *)
Fixpoint until_return (env : Collaborators) (fuel : nat) (rq : Request)
    (hm : HostManager) : Request * HostManager :=
  match fuel with
  | O => (rq, hm)
  | S fuel' =>
      match returned (req_stage rq) with
      | Some _ => (rq, hm)
      | None =>
          until_return env fuel' (at_stage rq (request_step env rq hm).1)
            (request_step env rq hm).2
      end
  end.

(** Atomic actions the calls still have to take, all together. *)
Definition work (pool : list Request) : nat :=
  foldr (fun rq acc => (remaining (req_stage rq) + acc)%nat) 0%nat pool.

End Runtime.

(** ** Concrete collaborators and hosts, used to exercise the model *)

Module Scenario.
Import Runtime.

Definition cpu : DeviceManager :=
  {| getDeviceConfig := {| backendName := "CPU"; configName := "config0" |} |}.

Definition partition_node (f : string) : DAGNode :=
  {| name := f +:+ "_part1"; deviceIDs := [0%nat] |}.

(** The DAG of a one-partition network called [f], placed on device 0. *)
Definition dag_of (f : string) : DAG :=
  {| root := Some {| name := f; deviceIDs := [] |};
     nodes := [partition_node f] |}.

(** Collaborators that always succeed; the partitioner makes one partition
    per function. *)
Definition obliging : Collaborators :=
  {| loadBackendSpecificOptionsOpt := "";
     deserializeStrStrMapFromYaml := fun _ => [];
     profilingBackend := "Interpreter";
     dev_getAvailableMemory := fun _ _ => 1024;
     dev_getBackendName := fun _ d => backendName (getDeviceConfig d);
     dev_getParamByName := fun _ _ _ => "";
     dev_init := fun _ _ => Success;
     dev_stop := fun _ => Success;
     dev_evictNetwork := fun _ _ => Success;
     optimizeFunctionBeforeLowering := fun _ _ => Success;
     partition := fun m _ _ _ => Value ((fun F => dag_of (getName F)) <$> getFunctions m);
     provision := fun _ _ _ _ => Success;
     run_result := fun _ => Success |}.

(** The same, except that provisioning fails. *)
Definition failing_provision : Collaborators :=
  {| loadBackendSpecificOptionsOpt := "";
     deserializeStrStrMapFromYaml := fun _ => [];
     profilingBackend := "Interpreter";
     dev_getAvailableMemory := fun _ _ => 1024;
     dev_getBackendName := fun _ d => backendName (getDeviceConfig d);
     dev_getParamByName := fun _ _ _ => "";
     dev_init := fun _ _ => Success;
     dev_stop := fun _ => Success;
     dev_evictNetwork := fun _ _ => Success;
     optimizeFunctionBeforeLowering := fun _ _ => Success;
     partition := fun m _ _ _ => Value ((fun F => dag_of (getName F)) <$> getFunctions m);
     provision := fun _ _ _ _ => Failure (OTHER_CODE 1) "out of device memory";
     run_result := fun _ => Success |}.

(** The same as [obliging], except that every eviction reports an error. *)
Definition failing_eviction : Collaborators :=
  {| loadBackendSpecificOptionsOpt := "";
     deserializeStrStrMapFromYaml := fun _ => [];
     profilingBackend := "Interpreter";
     dev_getAvailableMemory := fun _ _ => 1024;
     dev_getBackendName := fun _ d => backendName (getDeviceConfig d);
     dev_getParamByName := fun _ _ _ => "";
     dev_init := fun _ _ => Success;
     dev_stop := fun _ => Success;
     dev_evictNetwork := fun _ _ => Failure (OTHER_CODE 2) "device lost";
     optimizeFunctionBeforeLowering := fun _ _ => Success;
     partition := fun m _ _ _ => Value ((fun F => dag_of (getName F)) <$> getFunctions m);
     provision := fun _ _ _ _ => Success;
     run_result := fun _ => Success |}.

Definition module_of (fs : list string) : GlowModule :=
  {| getFunctions := (fun f => {| getName := f |}) <$> fs; hasPayload := true |}.

Definition entry (f : string) (rc : Z) : NetworkData :=
  {| dag := dag_of f; module := Some (strip (module_of [f])); refcount := rc |}.

Definition plain : CompilationContext :=
  {| quantMode := QuantNone; backendSpecificOpts := [] |}.

(** A host with one device, the given registry and limit, and nothing in
    flight. *)
Definition host_with (networks : gmap string NetworkData) (maxActive : Z)
    : HostManager :=
  {| config_ := {| executorThreads := 1; maxActiveRequests := maxActive |};
     networks_ := networks;
     devices_ := [cpu];
     provisioner_ := {| prov_devices := [cpu] |};
     executor_ := {| exec_threads := 1; pending := []; shuttingDown := false |};
     activeRequestCount_ := 0;
     totalRequestCount_ := 0;
     trace_ := [] |}.

(** One network "f", at most one request in flight. *)
Definition host_f : HostManager := host_with {[ "f" := entry "f" 0 ]} 1.

(** "f" with one outstanding run. *)
Definition host_f_busy : HostManager := (runNetwork "f" 0%nat 7%nat host_f).2.

(** Two idle networks. *)
Definition host_fg : HostManager :=
  host_with (<[ "g" := entry "g" 0 ]> {[ "f" := entry "f" 0 ]}) 1.

(** Three concurrent calls: two on "f", one on an unknown name. *)
Definition three_calls : Config :=
  {| host := host_f;
     calls := [fresh "f" 0%nat 10%nat; fresh "f" 1%nat 11%nat;
               fresh "zz" 2%nat 12%nat] |}.

(** An interleaving of the three calls that runs them to completion: both
    calls on "f" pass line 299 before either goes on, so the second is
    refused. *)
Definition interleaving : list nat :=
  [0; 1; 2; 0; 1; 2; 0; 1; 2; 0; 1; 0; 1; 0; 1; 0; 0]%nat.

Definition three_calls_done : Config :=
  run_schedule obliging interleaving three_calls.

(** The same calls part of the way: the first call has been handed to the
    Executor, the second has just found its entry, the third has an id. *)
Definition three_calls_midway : Config :=
  run_schedule obliging [0; 1; 2; 0; 1; 0; 0]%nat three_calls.

End Scenario.

(** ** More of Base.h: the scaling transform, node output names, and the
    storage of codes *)

Module QuantizationBase.
Import Quantization.

(** QuantizationTransform32To8 (lines 42-59); its members are [int]s. *)
Record QuantizationTransform32To8 :=
  { pre : Z; post : Z; scale : Z; offset : Z }.

(** [transform] (lines 53-58):
      int rtn = (1 << (post - 1));
      return ((((input >> pre) * scale) + rtn) >> post) + offset;
    Every operation is an [int] operation: its result is read back as a
    32-bit two's complement value.  [>>] on a signed value is the arithmetic
    shift, as the comment at line 54 says. *)
Definition transform (t : QuantizationTransform32To8) (input : Z) : Z :=
  let rtn := convert int32_t (Z.shiftl 1 (convert int32_t (post t - 1))) in
  let shifted := convert int32_t (Z.shiftr input (pre t)) in
  let scaled := convert int32_t (shifted * scale t) in
  let rounded := convert int32_t (scaled + rtn) in
  convert int32_t (convert int32_t (Z.shiftr rounded (post t)) + offset t).

(** std::to_string of an unsigned number. *)
Definition to_string (n : N) : string := pretty n.

(** [NodeQuantizationInfo::generateNodeOutputName] (lines 77-80). *)
Definition generateNodeOutputName (nodeName : string) (outputNumber : N)
    : string :=
  nodeName +:+ ":" +:+ to_string outputNumber.

(** NodeNameAndKind (lines 85-90): a Named and a Kinded; the name is the
    node output name. *)
Record NodeNameAndKind := { getName : string; getKind : nat }.

(** Conversion of a size_t to [unsigned]: reduction modulo 2^32. *)
Definition to_unsigned (n : N) : N := (n mod 2 ^ 32)%N.

(** The constructor (lines 87-89) takes [resNo] as a size_t and passes it to
    the [unsigned] parameter of generateNodeOutputName. *)
Definition NodeNameAndKind_make (name : string) (resNo : N) (k : nat)
    : NodeNameAndKind :=
  {| getName := generateNodeOutputName name (to_unsigned resNo); getKind := k |}.

(** [operator<] and [operator==] on NodeNameAndKind (lines 93-100): the
    names are compared, byte by byte. *)
Definition NodeNameAndKind_lt (x y : NodeNameAndKind) : bool :=
  String.ltb (getName x) (getName y).

Definition NodeNameAndKind_eq (x y : NodeNameAndKind) : bool :=
  String.eqb (getName x) (getName y).

(** A string without the separator [":"]. *)
Fixpoint colon_free (s : string) : Prop :=
  match s with
  | EmptyString => True
  | String a rest => a <> ":"%char /\ colon_free rest
  end.

(** [std::is_same<int8_t, T>::value]. *)
Definition is_int8 (t : IntTy) : bool := (ty_bits t =? 8) && ty_signed t.

(** [quantizeWithFloatOffset<DestTy>] (lines 180-187), from the point where
    the scaled value has been converted: [d0] stands for
    [(input - offset) / scale], a floating-point value that is outside this
    embedding, taken at its integer value.
      uint8_t d = static_cast<uint8_t>(d0);
      if (std::is_same<int8_t, DestTy>::value) d -= 128;
      return static_cast<DestTy>(d); *)
Definition quantizeWithFloatOffset (DestTy : IntTy) (d0 : Z) : Z :=
  let d := convert uint8_t d0 in
  let d := if is_int8 DestTy then convert uint8_t (d - 128) else d in
  convert DestTy d.

(** [dequantizeWithFloatOffset<eTy>] (lines 192-199), up to the point where
    the code [d] enters the floating-point expression [d * scale + offset]:
      uint8_t d = static_cast<uint8_t>(input);
      if (std::is_same<int8_t, eTy>::value) d += 128; *)
Definition dequantizeWithFloatOffset (eTy : IntTy) (input : Z) : Z :=
  let d := convert uint8_t input in
  if is_int8 eTy then convert uint8_t (d + 128) else d.

End QuantizationBase.

(** ** More of HostManager.cpp: init, runNetworkBlocking, and the state
    between operations *)

Module Lifecycle.
Import Runtime.

(** [devices_[i] = d] on the device map kept as a list: position [i] is
    overwritten, or created when [i] is the next free id. *)
Definition assign_device (i : nat) (d : DeviceManager)
    (devices : list DeviceManager) : list DeviceManager :=
  if decide (i < length devices)%nat then <[i := d]> devices else devices ++ [d].

(** Lines 76-78: a configuration without a name is named after its device
    id.  [hasName] is a member of DeviceConfig, declared outside these
    sources. *)
Definition name_config (hasName : DeviceConfig -> bool) (deviceCount : nat)
    (config : DeviceConfig) : DeviceConfig :=
  if hasName config then config
  else {| backendName := backendName config;
          configName := "config" +:+ pretty deviceCount |}.

(** Lines 75-86. *)
Fixpoint init_devices (env : Collaborators) (hasName : DeviceConfig -> bool)
    (deviceCount : nat) (configs : list DeviceConfig) (hm : HostManager)
    : Error * HostManager :=
  match configs with
  | [] => (Success, hm)
  | config :: rest =>
      let config1 := name_config hasName deviceCount config in
      let hm1 :=
        emit [EvDeviceInit deviceCount config1]
          (with_devices
             (assign_device deviceCount {| getDeviceConfig := config1 |}
                (devices_ hm)) hm) in
      match dev_init env deviceCount config1 with
      | Success => init_devices env hasName (S deviceCount) rest hm1
      | Failure c m => (Failure c m, hm1)
      end
  end.

(** [HostManager::init] (lines 71-91). *)
Definition init (env : Collaborators) (hasName : DeviceConfig -> bool)
    (configs : list DeviceConfig) (hm : HostManager) : Error * HostManager :=
  match init_devices env hasName 0 configs hm with
  | (Success, hm1) =>
      (Success,
       with_executor
         {| exec_threads := executorThreads (config_ hm1);
            pending := []; shuttingDown := false |}
         (with_provisioner {| prov_devices := devices_ hm1 |} hm1))
  | (Failure c m, hm1) => (Failure c m, hm1)
  end.

(** The evictions removeNetwork asks for, in order (lines 194-207): every
    device of every node of the DAG. *)
Definition eviction_requests (d : DAG) : list (DeviceIDTy * string) :=
  nodes d ≫= (fun node => (fun device => (device, name node)) <$> deviceIDs node).

(** The calls removeNetwork makes for a DAG, in order (lines 194-210). *)
Definition removal_calls (d : DAG) : list Event :=
  nodes d ≫=
    (fun node =>
       ((fun device => EvEvictNetwork device (name node)) <$> deviceIDs node)
       ++ [EvRemoveFunction (name node)]).

(** The device a profiling run puts in place of [d] (lines 149-152). *)
Definition profiling_device (env : Collaborators) (d : DeviceManager)
    : DeviceManager :=
  {| getDeviceConfig :=
       {| backendName := profilingBackend env;
          configName := configName (getDeviceConfig d) |} |}.

Definition stop_event (ev : Event) : Prop :=
  match ev with EvDeviceStop _ => True | _ => False end.

(** The run a blocked caller waits for. *)
Definition awaited (runID : RunIdentifierTy) (hm : HostManager)
    : option ScheduledRun :=
  head (filter (fun r => run_id r = runID) (pending (executor_ hm))).

(** What the lambda of lines 254-264 has left in [runErr]: the error of its
    last invocation, or nothing (a null pointer) if it has not run. *)
Definition stored_error (waiter : ResultCBTy) (hm : HostManager) : option Error :=
  cb_err <$> last (calls_to waiter (trace_ hm)).

(** The completion of a run up to and including the invocation of the
    callback (lines 318-327); the decrement of line 328 follows it. *)
Definition executor_notify (env : Collaborators) (hm : HostManager)
    (r : ScheduledRun) : HostManager :=
  completion_notify (run_cb r) (run_id r) (run_result env r) (run_context r)
    (completion_release (run_cb r) (dequeue (run_id r) hm)).

(** [HostManager::runNetworkBlocking] (lines 244-268).  The context is made
    from the bindings; [waiter] names the lambda of lines 254-264, which
    stores the error it is passed and releases [fut.wait()].  The caller is
    released as soon as that lambda has run: at once when runNetwork itself
    invoked it, and otherwise when the Executor completes the run (modelled
    from the spec, section 4.3: the completion callback of an accepted run
    is invoked once).  The state returned is the one in which the caller is
    released, before line 328 is executed for the run. *)
Definition runNetworkBlocking (env : Collaborators) (networkName : string)
    (bindings : ExecutionContext) (waiter : ResultCBTy) (hm : HostManager)
    : option Error * HostManager :=
  let '(currentRun, hm1) := runNetwork networkName bindings waiter hm in
  let hm2 :=
    match awaited currentRun hm1 with
    | Some r => executor_notify env hm1 r
    | None => hm1
    end in
  (stored_error waiter hm2, hm2).

(** The operations other threads may perform on a HostManager, and the
    completion of a run by the Executor. *)
Inductive Operation :=
| OpAddNetwork (module : GlowModule) (cctx : CompilationContext)
    (saturateHost : bool)
| OpRemoveNetwork (networkName : string)
| OpRunNetwork (networkName : string) (context : ExecutionContext)
    (callback : ResultCBTy)
| OpComplete (runID : RunIdentifierTy).

Definition perform (env : Collaborators) (op : Operation) (hm : HostManager)
    : HostManager :=
  match op with
  | OpAddNetwork module cctx saturateHost =>
      (addNetwork env module cctx saturateHost hm).2
  | OpRemoveNetwork networkName => (removeNetwork env networkName hm).2
  | OpRunNetwork networkName context callback =>
      (runNetwork networkName context callback hm).2
  | OpComplete runID =>
      match awaited runID hm with
      | Some r => executor_finish env hm r
      | None => hm
      end
  end.

(** A sequence of operations, one after the other. *)
Definition perform_all (env : Collaborators) (ops : list Operation)
    (hm : HostManager) : HostManager :=
  foldl (fun h op => perform env op h) hm ops.

(** The state between operations: every refcount is the number of pending
    runs on its entry, the in-flight counter is the number of pending runs,
    pending runs carry distinct identifiers that have been issued and name
    registered networks, and the request counter has not wrapped. *)
Record wellformed (hm : HostManager) : Prop :=
  { wf_settled : settled hm;
    wf_active :
      activeRequestCount_ hm = Z.of_nat (length (pending (executor_ hm)));
    wf_distinct : NoDup (run_id <$> pending (executor_ hm));
    wf_issued :
      Forall (fun r => 0 <= run_id r < totalRequestCount_ hm)
        (pending (executor_ hm));
    wf_registered :
      Forall (fun r => is_Some (networks_ hm !! captured_name (run_cb r)))
        (pending (executor_ hm));
    wf_total : 0 <= totalRequestCount_ hm < size_t_modulus }.

(** Room for one more call: the request counter is not at its last value. *)
Definition has_room (hm : HostManager) : Prop :=
  totalRequestCount_ hm < size_t_modulus - 1.

End Lifecycle.

(** ** More concrete inputs *)

Module Samples.
Import Runtime.

Definition profiling : CompilationContext :=
  {| quantMode := Profile; backendSpecificOpts := [] |}.

(** A host with two devices and nothing registered. *)
Definition empty_host : HostManager :=
  {| config_ := {| executorThreads := 3; maxActiveRequests := 2 |};
     networks_ := ∅;
     devices_ :=
       [ {| getDeviceConfig := {| backendName := "CPU"; configName := "left" |} |};
         {| getDeviceConfig := {| backendName := "GPU"; configName := "right" |} |} ];
     provisioner_ := {| prov_devices := [] |};
     executor_ := {| exec_threads := 3; pending := []; shuttingDown := false |};
     activeRequestCount_ := 0;
     totalRequestCount_ := 0;
     trace_ := [] |}.

(** A host before [init]: no device yet. *)
Definition bare_host : HostManager :=
  {| config_ := {| executorThreads := 3; maxActiveRequests := 2 |};
     networks_ := ∅;
     devices_ := [];
     provisioner_ := {| prov_devices := [] |};
     executor_ := {| exec_threads := 0; pending := []; shuttingDown := false |};
     activeRequestCount_ := 0;
     totalRequestCount_ := 0;
     trace_ := [] |}.

Definition named (config : DeviceConfig) : bool :=
  negb (String.eqb (configName config) "").

Definition two_configs : list DeviceConfig :=
  [ {| backendName := "CPU"; configName := "" |};
    {| backendName := "CPU"; configName := "aux" |} ].

(** Collaborators that succeed, except that device 1 cannot be initialised. *)
Definition second_device_fails : Collaborators :=
  {| loadBackendSpecificOptionsOpt := "";
     deserializeStrStrMapFromYaml := fun _ => [];
     profilingBackend := "Interpreter";
     dev_getAvailableMemory := fun _ _ => 1024;
     dev_getBackendName := fun _ d => backendName (getDeviceConfig d);
     dev_getParamByName := fun _ _ _ => "";
     dev_init := fun i _ =>
       if decide (i = 1%nat) then Failure (OTHER_CODE 3) "no such device"
       else Success;
     dev_stop := fun _ => Success;
     dev_evictNetwork := fun _ _ => Success;
     optimizeFunctionBeforeLowering := fun _ _ => Success;
     partition := fun m _ _ _ =>
       Value ((fun F => Scenario.dag_of (getName F)) <$> getFunctions m);
     provision := fun _ _ _ _ => Success;
     run_result := fun _ => Success |}.

Definition three_configs : list DeviceConfig :=
  [ {| backendName := "CPU"; configName := "" |};
    {| backendName := "CPU"; configName := "aux" |};
    {| backendName := "GPU"; configName := "" |} ].

End Samples.

(* ===================================================================== *)
(** * Part II: theorems                                                   *)
(* ===================================================================== *)

Module QuantizationFacts.
Import Quantization.

Lemma convert_representable (t : IntTy) (z : Z) :
  0 < ty_bits t -> representable t (convert t z).
Proof.
  intros Hb. unfold representable, convert, numeric_limits_min,
    numeric_limits_max.
  assert (H2 : 2 ^ ty_bits t = 2 * 2 ^ (ty_bits t - 1)).
  { replace (ty_bits t) with (Z.succ (ty_bits t - 1)) at 1 by lia.
    rewrite Z.pow_succ_r by lia. reflexivity. }
  assert (Hp : 0 < 2 ^ (ty_bits t - 1)) by (apply Z.pow_pos_nonneg; lia).
  destruct (ty_signed t).
  - pose proof (Z.mod_pos_bound (z + 2 ^ (ty_bits t - 1)) (2 ^ ty_bits t)).
    lia.
  - pose proof (Z.mod_pos_bound z (2 ^ ty_bits t)). lia.
Qed.

Lemma convert_id (t : IntTy) (z : Z) :
  0 < ty_bits t -> representable t z -> convert t z = z.
Proof.
  intros Hb. unfold representable, convert, numeric_limits_min,
    numeric_limits_max.
  assert (H2 : 2 ^ ty_bits t = 2 * 2 ^ (ty_bits t - 1)).
  { replace (ty_bits t) with (Z.succ (ty_bits t - 1)) at 1 by lia.
    rewrite Z.pow_succ_r by lia. reflexivity. }
  assert (Hp : 0 < 2 ^ (ty_bits t - 1)) by (apply Z.pow_pos_nonneg; lia).
  destruct (ty_signed t); intros Hz.
  - rewrite Z.mod_small by lia. lia.
  - rewrite Z.mod_small by lia. reflexivity.
Qed.

(** The result of clip is always a DestTy value. *)
Lemma clip_in_dest_range (SrcTy DestTy : IntTy) (input : Z) :
  0 < ty_bits DestTy -> representable DestTy (clip SrcTy DestTy input).
Proof. intros Hb. unfold clip. by apply convert_representable. Qed.

Example clip_int32_int8_high : clip int32_t int8_t 300 = 127.
Proof. reflexivity. Qed.

Example clip_int32_int8_low : clip int32_t int8_t (-300) = -128.
Proof. reflexivity. Qed.

Example clip_int32_int8_mid : clip int32_t int8_t (-7) = -7.
Proof. reflexivity. Qed.

Lemma std_min_representable (t : IntTy) (a b : Z) :
  0 < ty_bits t -> representable t a -> representable t b ->
  std_min t a b = Z.min a b.
Proof.
  intros Hb Ha Hc. unfold std_min. rewrite !convert_id by done.
  destruct (Z.ltb_spec b a); lia.
Qed.

Lemma std_max_representable (t : IntTy) (a b : Z) :
  0 < ty_bits t -> representable t a -> representable t b ->
  std_max t a b = Z.max a b.
Proof.
  intros Hb Ha Hc. unfold std_max. rewrite !convert_id by done.
  destruct (Z.ltb_spec a b); lia.
Qed.

Lemma limits_ordered (t : IntTy) :
  0 < ty_bits t -> numeric_limits_min t <= numeric_limits_max t.
Proof.
  intros Hb. unfold numeric_limits_min, numeric_limits_max.
  assert (0 < 2 ^ (ty_bits t - 1)) by (apply Z.pow_pos_nonneg; lia).
  assert (0 < 2 ^ ty_bits t) by (apply Z.pow_pos_nonneg; lia).
  destruct (ty_signed t); lia.
Qed.

(** When the limits of DestTy fit in SrcTy, clip is the mathematical
    clamp to the range of DestTy. *)
Lemma clip_is_clamp (SrcTy DestTy : IntTy) (input : Z) :
  0 < ty_bits SrcTy -> 0 < ty_bits DestTy ->
  range_included SrcTy DestTy ->
  representable SrcTy input ->
  clip SrcTy DestTy input =
  Z.max (numeric_limits_min DestTy) (Z.min (numeric_limits_max DestTy) input).
Proof.
  intros Hs Hd [Hlo Hhi] Hin.
  pose proof (limits_ordered DestTy Hd) as Hord.
  unfold clip. unfold representable in Hin.
  rewrite std_min_representable; [| done | unfold representable; lia | done].
  rewrite std_max_representable;
    [| done | unfold representable; lia | unfold representable; lia].
  apply convert_id; [done |]. unfold representable. lia.
Qed.

(** Where every DestTy value is a SrcTy value (for instance both signed
    with SrcTy at least as wide), clip<SrcTy, DestTy> maps every SrcTy input
    into [numeric_limits<DestTy>::min(), numeric_limits<DestTy>::max()] and
    returns the input unchanged whenever it already lies in that range. *)
Lemma clip_range_and_identity (SrcTy DestTy : IntTy) (input : Z) :
  0 < ty_bits SrcTy -> 0 < ty_bits DestTy ->
  range_included SrcTy DestTy ->
  representable SrcTy input ->
  numeric_limits_min DestTy <= clip SrcTy DestTy input
    <= numeric_limits_max DestTy /\
  (numeric_limits_min DestTy <= input <= numeric_limits_max DestTy ->
   clip SrcTy DestTy input = input).
Proof.
  intros Hs Hd Hinc Hin.
  pose proof (limits_ordered DestTy Hd) as Hord.
  rewrite clip_is_clamp by done. split; [lia |]. intros Hr. lia.
Qed.

(** C10: the code does not do what the claim, and the comment above clip
    (the value [in] as clipped to the range of DestTy), say.
    clip<int32_t, uint32_t> passes the static_assert, 5 is both an int32_t
    and a uint32_t value, yet clip returns 0 for it:
    numeric_limits<uint32_t>::max() becomes -1 when std::min<int32_t>
    converts it, so the minimum taken is -1 and the maximum with 0 is 0.
    The other way round, clip<uint32_t, int32_t> maps 5 to
    numeric_limits<int32_t>::min(). *)
Theorem clip_int32_uint32_defect :
  static_assert_ok int32_t uint32_t /\
  representable int32_t 5 /\
  numeric_limits_min uint32_t <= 5 <= numeric_limits_max uint32_t /\
  convert int32_t (numeric_limits_max uint32_t) = -1 /\
  std_min int32_t (numeric_limits_max uint32_t) 5 = -1 /\
  clip int32_t uint32_t 5 = 0 /\
  static_assert_ok uint32_t int32_t /\
  clip uint32_t int32_t 5 = -2147483648.
Proof.
  split; [vm_compute; discriminate |].
  split; [vm_compute; split; discriminate |].
  split; [vm_compute; split; discriminate |].
  split; [reflexivity |]. split; [reflexivity |]. split; [reflexivity |].
  split; [vm_compute; discriminate | reflexivity].
Qed.

(** Hence clip is not, on every pair of types the static_assert accepts,
    the identity on the values of DestTy. *)
Lemma clip_int32_uint32_not_identity :
  ~ (forall (SrcTy DestTy : IntTy) (input : Z),
       static_assert_ok SrcTy DestTy ->
       representable SrcTy input ->
       representable DestTy (clip SrcTy DestTy input) /\
       (representable DestTy input -> clip SrcTy DestTy input = input)).
Proof.
  intros H.
  destruct (H int32_t uint32_t 5) as [_ Hid].
  - vm_compute. discriminate.
  - vm_compute. split; discriminate.
  - assert (Hr : representable uint32_t 5) by (vm_compute; split; discriminate).
    specialize (Hid Hr). vm_compute in Hid. discriminate Hid.
Qed.

End QuantizationFacts.

(** ** The registry operations, one call at a time *)

Module RegistryFacts.
Import Runtime.

(** *** addNetwork *)

Lemma first_registered_None (functions : list GlowFunction)
    (networks : gmap string NetworkData) :
  first_registered functions networks = None <->
  Forall (fun F => networks !! getName F = None) functions.
Proof.
  induction functions as [| F rest IH]; simpl.
  - split; [constructor | done].
  - destruct (networks !! getName F) eqn:E.
    + split; [done |]. intros HF. inversion HF; congruence.
    + rewrite IH. split.
      * intros HF. by constructor.
      * intros HF. by inversion HF.
Qed.

Lemma first_registered_Some (functions : list GlowFunction)
    (networks : gmap string NetworkData) (found : string) :
  first_registered functions networks = Some found ->
  found ∈ getName <$> functions /\ is_Some (networks !! found).
Proof.
  induction functions as [| F rest IH]; simpl; [done |].
  destruct (networks !! getName F) eqn:E.
  - intros [= <-]. split; [left | by rewrite E].
  - intros H. destruct (IH H) as [? ?]. split; [by right | done].
Qed.

Lemma first_registered_collision (functions : list GlowFunction)
    (networks : gmap string NetworkData) (F : GlowFunction) :
  F ∈ functions -> is_Some (networks !! getName F) ->
  is_Some (first_registered functions networks).
Proof.
  intros HF Hreg.
  destruct (first_registered functions networks) eqn:E; [by eexists |].
  apply first_registered_None in E. rewrite Forall_forall in E.
  specialize (E F HF). rewrite E in Hreg. by destruct Hreg.
Qed.

Lemma recreate_devices_networks (env : Collaborators) (todo i : nat)
    (hm : HostManager) :
  networks_ (recreate_devices env i todo hm).2 = networks_ hm.
Proof.
  revert i hm. induction todo as [| k IH]; intros i hm; simpl; [done |].
  destruct (dev_init env i _); simpl; [| done]. by rewrite IH.
Qed.

Lemma enter_profiling_networks (env : Collaborators) (cctx : CompilationContext)
    (hm : HostManager) :
  networks_ (enter_profiling env cctx hm).2 = networks_ hm.
Proof.
  unfold enter_profiling. destruct (quantMode cctx); try done.
  case_bool_decide; [| done].
  pose proof (recreate_devices_networks env (length (devices_ hm)) 0 hm) as Hn.
  destruct (recreate_devices env 0 (length (devices_ hm)) hm) as [[|c m] hm1];
    simpl in *; done.
Qed.

(** The preparation stage never changes the registry. *)
Lemma addNetwork_prepare_networks (env : Collaborators) (module : GlowModule)
    (cctx : CompilationContext) (saturateHost : bool) (hm : HostManager) :
  match addNetwork_prepare env module cctx saturateHost hm with
  | Rejected _ hm1 => networks_ hm1 = networks_ hm
  | Ready _ _ hm1 => networks_ hm1 = networks_ hm
  end.
Proof.
  unfold addNetwork_prepare.
  destruct (first_registered _ _); [done |].
  destruct (optimize_all _ _ _); [| done].
  destruct (partition _ _ _ _ _); [| done].
  pose proof (enter_profiling_networks env (load_backend_options env cctx) hm) as H.
  destruct (enter_profiling _ _ _) as [[|c m] hm1]; simpl in *; done.
Qed.

(** Whenever addNetwork fails, for whatever reason, the registry is the one
    it started from. *)
Lemma addNetwork_failure_networks (env : Collaborators) (module : GlowModule)
    (cctx : CompilationContext) (saturateHost : bool) (hm : HostManager) :
  is_success (addNetwork env module cctx saturateHost hm).1 = false ->
  networks_ (addNetwork env module cctx saturateHost hm).2 = networks_ hm.
Proof.
  unfold addNetwork.
  pose proof (addNetwork_prepare_networks env module cctx saturateHost hm) as H.
  destruct (addNetwork_prepare _ _ _ _ _) as [err hm1 | nodeList cctx1 hm1];
    simpl; [done |].
  unfold addNetwork_commit. destruct (provision _ _ _ _ _); simpl; [done |].
  intros _. done.
Qed.

(** C5: when some function of the module bears a name that is already
    registered, addNetwork returns the "already have a function called"
    error for such a name and leaves the HostManager, and so the registry,
    exactly as it was. *)
Theorem addNetwork_duplicate_name (env : Collaborators) (module : GlowModule)
    (cctx : CompilationContext) (saturateHost : bool) (hm : HostManager)
    (F : GlowFunction) :
  F ∈ getFunctions module ->
  is_Some (networks_ hm !! getName F) ->
  exists taken : string,
    taken ∈ getName <$> getFunctions module /\
    is_Some (networks_ hm !! taken) /\
    addNetwork env module cctx saturateHost hm =
      (Failure RUNTIME_ERROR
         ("Failed to add network: already have a function called " +:+ taken),
       hm).
Proof.
  intros HF Hreg.
  destruct (first_registered_collision _ _ _ HF Hreg) as [taken Htaken].
  destruct (first_registered_Some _ _ _ Htaken) as [Hin Hsome].
  exists taken. split; [done |]. split; [done |].
  unfold addNetwork, addNetwork_prepare. by rewrite Htaken.
Qed.

Lemma addNetwork_duplicate_name_witness :
  exists taken : string,
    taken ∈ getName <$> getFunctions (Scenario.module_of ["g"; "f"]) /\
    is_Some (networks_ Scenario.host_f !! taken) /\
    addNetwork Scenario.obliging (Scenario.module_of ["g"; "f"])
      Scenario.plain false Scenario.host_f =
      (Failure RUNTIME_ERROR
         ("Failed to add network: already have a function called " +:+ taken),
       Scenario.host_f).
Proof.
  apply (addNetwork_duplicate_name Scenario.obliging
           (Scenario.module_of ["g"; "f"]) Scenario.plain false
           Scenario.host_f {| getName := "f" |}).
  - simpl. right. left.
  - vm_compute. by eexists.
Defined.

(** C6: when provisioning fails, addNetwork returns that very error and the
    registry holds exactly the entries it held before the call: no name of
    the module has become reachable. *)
Theorem addNetwork_provision_failure (env : Collaborators) (module : GlowModule)
    (cctx cctx1 : CompilationContext) (saturateHost : bool)
    (hm hm1 : HostManager) (nodeList : DAGListTy) (c : ErrorCode) (m : string) :
  addNetwork_prepare env module cctx saturateHost hm = Ready nodeList cctx1 hm1 ->
  provision env (provisioner_ hm1) nodeList module cctx1 = Failure c m ->
  (addNetwork env module cctx saturateHost hm).1 = Failure c m /\
  networks_ (addNetwork env module cctx saturateHost hm).2 = networks_ hm /\
  forall networkName : string,
    networkAdded networkName (addNetwork env module cctx saturateHost hm).2 =
    networkAdded networkName hm.
Proof.
  intros Hprep Hprov.
  assert (Herr : (addNetwork env module cctx saturateHost hm).1 = Failure c m).
  { unfold addNetwork. rewrite Hprep. unfold addNetwork_commit.
    by rewrite Hprov. }
  assert (Hnet : networks_ (addNetwork env module cctx saturateHost hm).2
                 = networks_ hm).
  { apply addNetwork_failure_networks. by rewrite Herr. }
  split; [done |]. split; [done |].
  intros networkName. unfold networkAdded. by rewrite Hnet.
Qed.

Lemma addNetwork_provision_failure_witness :
  (addNetwork Scenario.failing_provision (Scenario.module_of ["g"; "h"])
     Scenario.plain false Scenario.host_f).1
    = Failure (OTHER_CODE 1) "out of device memory" /\
  networks_ (addNetwork Scenario.failing_provision (Scenario.module_of ["g"; "h"])
               Scenario.plain false Scenario.host_f).2
    = networks_ Scenario.host_f /\
  forall networkName : string,
    networkAdded networkName
      (addNetwork Scenario.failing_provision (Scenario.module_of ["g"; "h"])
         Scenario.plain false Scenario.host_f).2 =
    networkAdded networkName Scenario.host_f.
Proof.
  eapply (addNetwork_provision_failure Scenario.failing_provision
            (Scenario.module_of ["g"; "h"]) Scenario.plain).
  - reflexivity.
  - reflexivity.
Defined.

(** *** removeNetwork *)

(** C7: removing a name that is not registered succeeds and changes nothing;
    removing a registered name whose refcount is not zero fails with
    RUNTIME_NET_BUSY and changes nothing either: the entry keeps its DAG,
    module and refcount, and no device is asked to evict anything. *)
Theorem removeNetwork_absent_or_busy (env : Collaborators)
    (networkName : string) (hm : HostManager) :
  (networks_ hm !! networkName = None ->
   removeNetwork env networkName hm = (Success, hm)) /\
  (forall networkData : NetworkData,
     networks_ hm !! networkName = Some networkData ->
     refcount networkData <> 0 ->
     removeNetwork env networkName hm =
       (Failure RUNTIME_NET_BUSY
          ("Cannot remove the network " +:+ networkName +:+
           ", as there are still outstanding runs"), hm)).
Proof.
  split.
  - intros Habsent. unfold removeNetwork. by rewrite Habsent.
  - intros networkData Hfound Hbusy. unfold removeNetwork. rewrite Hfound.
    by rewrite bool_decide_eq_true_2.
Qed.

Lemma removeNetwork_absent_or_busy_witness :
  removeNetwork Scenario.obliging "g" Scenario.host_f_busy
    = (Success, Scenario.host_f_busy) /\
  removeNetwork Scenario.obliging "f" Scenario.host_f_busy
    = (Failure RUNTIME_NET_BUSY
         "Cannot remove the network f, as there are still outstanding runs",
       Scenario.host_f_busy).
Proof.
  split.
  - apply (proj1 (removeNetwork_absent_or_busy Scenario.obliging "g"
                    Scenario.host_f_busy)).
    reflexivity.
  - apply (proj2 (removeNetwork_absent_or_busy Scenario.obliging "f"
                    Scenario.host_f_busy) (Scenario.entry "f" 1)).
    + reflexivity.
    + discriminate.
Defined.

(** An idle entry is evicted and erased, whatever the devices answer. *)
Lemma removeNetwork_idle (env : Collaborators) (networkName : string)
    (hm : HostManager) (networkData : NetworkData) :
  networks_ hm !! networkName = Some networkData ->
  refcount networkData = 0 ->
  networks_ (removeNetwork env networkName hm).2
    = delete networkName (networks_ hm).
Proof.
  intros Hfound Hidle. unfold removeNetwork. rewrite Hfound.
  rewrite bool_decide_eq_false_2 by (intros Hne; by apply Hne). done.
Qed.

End RegistryFacts.

(** ** One runNetwork call, and the completion of one run *)

Module RunFacts.
Import Runtime.

(** C8: on a name that is not registered, runNetwork returns the next run
    identifier after invoking the callback once, with that identifier and the
    RUNTIME_NET_NOT_FOUND error; nothing is handed to the Executor, and the
    registry (with every refcount) and the in-flight counter are as before. *)
Theorem runNetwork_unknown_name (networkName : string)
    (context : ExecutionContext) (callback : ResultCBTy) (hm : HostManager) :
  networks_ hm !! networkName = None ->
  (runNetwork networkName context callback hm).1 = totalRequestCount_ hm /\
  trace_ (runNetwork networkName context callback hm).2 =
    trace_ hm ++
    [EvCallback
       {| cb_token := callback;
          cb_runID := (runNetwork networkName context callback hm).1;
          cb_err := Failure RUNTIME_NET_NOT_FOUND
                      ("Function " +:+ networkName +:+ " not found");
          cb_context := context;
          seen_active := activeRequestCount_ hm;
          seen_refcount := None |}] /\
  executor_ (runNetwork networkName context callback hm).2 = executor_ hm /\
  networks_ (runNetwork networkName context callback hm).2 = networks_ hm /\
  activeRequestCount_ (runNetwork networkName context callback hm).2
    = activeRequestCount_ hm.
Proof.
  intros Habsent. unfold runNetwork, next_run_id, retain. simpl.
  rewrite Habsent. simpl. unfold invoke. simpl. rewrite Habsent. done.
Qed.

Lemma runNetwork_unknown_name_witness :
  (runNetwork "zz" 3%nat 8%nat Scenario.host_f_busy).1 = 1 /\
  trace_ (runNetwork "zz" 3%nat 8%nat Scenario.host_f_busy).2 =
    trace_ Scenario.host_f_busy ++
    [EvCallback
       {| cb_token := 8%nat;
          cb_runID := (runNetwork "zz" 3%nat 8%nat Scenario.host_f_busy).1;
          cb_err := Failure RUNTIME_NET_NOT_FOUND "Function zz not found";
          cb_context := 3%nat;
          seen_active := 1;
          seen_refcount := None |}] /\
  executor_ (runNetwork "zz" 3%nat 8%nat Scenario.host_f_busy).2
    = executor_ Scenario.host_f_busy /\
  networks_ (runNetwork "zz" 3%nat 8%nat Scenario.host_f_busy).2
    = networks_ Scenario.host_f_busy /\
  activeRequestCount_ (runNetwork "zz" 3%nat 8%nat Scenario.host_f_busy).2 = 1.
Proof.
  apply (runNetwork_unknown_name "zz" 3%nat 8%nat Scenario.host_f_busy).
  reflexivity.
Defined.

(** C3 (as amended): when the Executor completes a run, the completion
    lambda decrements the refcount of the entry (if it is still registered)
    before it invokes the caller's callback, and decrements the global
    in-flight counter only after that callback has returned: the callback
    runs once, sees the refcount already decremented and the in-flight
    counter still at its previous value. *)
Theorem completion_order (env : Collaborators) (hm : HostManager)
    (r : ScheduledRun) :
  trace_ (executor_finish env hm r) =
    trace_ hm ++
    [EvCallback
       {| cb_token := captured_callback (run_cb r);
          cb_runID := run_id r;
          cb_err := run_result env r;
          cb_context := run_context r;
          seen_active := activeRequestCount_ hm;
          seen_refcount :=
            (fun nd => decr (refcount nd)) <$>
              (networks_ hm !! captured_name (run_cb r)) |}] /\
  activeRequestCount_ (executor_finish env hm r) = decr (activeRequestCount_ hm) /\
  networks_ (executor_finish env hm r) =
    alter release_entry (captured_name (run_cb r)) (networks_ hm).
Proof.
  unfold executor_finish, completion, completion_leave, completion_notify,
    completion_release, invoke, release, leave, dequeue. simpl.
  split; [| done]. f_equal. f_equal. f_equal. f_equal.
  rewrite lookup_alter_eq. by destruct (networks_ hm !! _).
Qed.

(** C3, as stated, fails: for the run admitted on "f" (one request allowed),
    the caller's callback is invoked while the in-flight counter still
    counts the run; the counter is decremented afterwards. *)
Lemma completion_callback_sees_counter :
  exists (r : ScheduledRun) (call : CallbackCall),
    pending (executor_ Scenario.host_f_busy) = [r] /\
    trace_ (executor_finish Scenario.obliging Scenario.host_f_busy r)
      = trace_ Scenario.host_f_busy ++ [EvCallback call] /\
    activeRequestCount_ Scenario.host_f_busy = 1 /\
    seen_refcount call = Some 0 /\
    seen_active call = 1 /\
    seen_active call <> decr (activeRequestCount_ Scenario.host_f_busy) /\
    activeRequestCount_
      (executor_finish Scenario.obliging Scenario.host_f_busy r) = 0.
Proof.
  eexists. eexists. split; [reflexivity |]. split; [reflexivity |].
  split; [reflexivity |]. split; [reflexivity |]. split; [reflexivity |].
  split; [| reflexivity]. vm_compute. discriminate.
Qed.

End RunFacts.

(** ** Shutdown *)

Module ShutdownFacts.
Import Runtime.

Lemma wrap_small (z : Z) : 0 <= z < size_t_modulus -> wrap z = z.
Proof. intros Hz. unfold wrap. by apply Z.mod_small. Qed.

Lemma filter_keeps_all {A : Type} (P : A -> Prop) `{!forall x, Decision (P x)}
    (l : list A) :
  (forall x, P x) -> filter P l = l.
Proof.
  intros HP. induction l as [| x l IH]; [done |].
  rewrite filter_cons_True by done. by rewrite IH.
Qed.

Lemma filter_drops_all {A : Type} (P : A -> Prop) `{!forall x, Decision (P x)}
    (l : list A) :
  (forall x, x ∈ l -> ~ P x) -> filter P l = [].
Proof.
  intros HP. induction l as [| x l IH]; [done |].
  rewrite filter_cons_False by (apply HP; left).
  apply IH. intros y Hy. apply HP. by right.
Qed.

Lemma begin_key_None (networks : gmap string NetworkData) :
  begin_key networks = None -> networks = ∅.
Proof.
  unfold begin_key. destruct (map_to_list networks) as [| kv l] eqn:E; [| done].
  intros _. by apply map_to_list_empty_iff.
Qed.

Lemma begin_key_Some (networks : gmap string NetworkData) (first : string) :
  begin_key networks = Some first -> is_Some (networks !! first).
Proof.
  unfold begin_key. destruct (map_to_list networks) as [| [k v] l] eqn:E; [done |].
  simpl. intros [= <-]. exists v. apply elem_of_map_to_list. rewrite E. left.
Qed.

(** The eviction loops: the error kept, and the calls made. *)
Lemma evict_from_fold (env : Collaborators) (function : string)
    (devices : list DeviceIDTy) (acc : OneErrOnly * list Event) :
  foldl (evict_from env function) acc devices =
    (foldl OneErrOnly_set acc.1
       ((fun d => dev_evictNetwork env d function) <$> devices),
     acc.2 ++ ((fun d => EvEvictNetwork d function) <$> devices)).
Proof.
  revert acc. induction devices as [| d rest IH]; intros [e evs]; simpl.
  - by rewrite app_nil_r.
  - rewrite IH. simpl. by rewrite <- app_assoc.
Qed.

Lemma OneErrOnly_all_success (held : OneErrOnly) (errs : list Error) :
  Forall (fun e => e = Success) errs ->
  foldl OneErrOnly_set held errs = held.
Proof.
  revert held. induction errs as [| e rest IH]; intros held Hall; simpl; [done |].
  inversion Hall as [| ? ? He Hrest]; subst. rewrite IH by done.
  by destruct held.
Qed.

Lemma evict_node_fold (env : Collaborators) (nodeList : list DAGNode)
    (acc : OneErrOnly * list Event) :
  (forall device function, dev_evictNetwork env device function = Success) ->
  exists evs : list Event,
    foldl (evict_node env) acc nodeList = (acc.1, acc.2 ++ evs) /\
    Forall removal_event evs.
Proof.
  intros Hok. revert acc.
  induction nodeList as [| node rest IH]; intros [e evs0]; simpl.
  - exists []. by rewrite app_nil_r.
  - unfold evict_node at 2. rewrite evict_from_fold. simpl.
    rewrite OneErrOnly_all_success.
    2:{ apply Forall_fmap, Forall_forall. intros d _. apply Hok. }
    destruct (IH (e, (evs0 ++ ((fun d => EvEvictNetwork d (name node)) <$>
                               deviceIDs node)) ++ [EvRemoveFunction (name node)]))
      as (evs & Heq & Hall).
    rewrite Heq. simpl. eexists. split.
    + f_equal. rewrite <- !app_assoc. reflexivity.
    + apply Forall_app. split; [| apply Forall_app; split; [| done]].
      * apply Forall_fmap, Forall_forall. by intros d _.
      * by repeat constructor.
Qed.

(** The removal loop never runs out of rounds when given one round per
    registered network. *)
Lemma remove_all_total (env : Collaborators) (fuel : nat) (hm : HostManager) :
  (size (networks_ hm) <= fuel)%nat -> is_Some (remove_all env fuel hm).
Proof.
  revert hm. induction fuel as [| fuel IH]; intros hm Hsize; simpl.
  - destruct (begin_key (networks_ hm)) as [first |] eqn:E; [| by eexists].
    apply begin_key_Some in E. destruct E as [nd Hnd].
    assert (networks_ hm = ∅) as Hem by (apply map_size_empty_iff; lia).
    rewrite Hem in Hnd. by rewrite lookup_empty in Hnd.
  - destruct (begin_key (networks_ hm)) as [first |] eqn:E; [| by eexists].
    apply begin_key_Some in E. destruct E as [nd Hnd].
    unfold removeNetwork. rewrite Hnd.
    case_bool_decide; [by eexists |].
    destruct (foldl (evict_node env) (Success, []) (nodes (dag nd))) as [e evs].
    simpl. destruct e; [| by eexists].
    apply IH. simpl. rewrite map_size_delete, Hnd. lia.
Qed.

(** With idle entries and obliging devices, the loop empties the registry. *)
Lemma remove_all_idle (env : Collaborators) (fuel : nat) (hm : HostManager) :
  (forall device function, dev_evictNetwork env device function = Success) ->
  map_Forall (fun _ nd => refcount nd = 0) (networks_ hm) ->
  (size (networks_ hm) <= fuel)%nat ->
  exists (hm1 : HostManager) (evs : list Event),
    remove_all env fuel hm = Some (Success, hm1) /\
    networks_ hm1 = ∅ /\
    devices_ hm1 = devices_ hm /\
    executor_ hm1 = executor_ hm /\
    trace_ hm1 = trace_ hm ++ evs /\
    Forall removal_event evs.
Proof.
  intros Hok. revert hm. induction fuel as [| fuel IH]; intros hm Hidle Hsize.
  - assert (networks_ hm = ∅) as Hem by (apply map_size_empty_iff; lia).
    exists hm, []. simpl. unfold begin_key. rewrite Hem, map_to_list_empty. simpl.
    rewrite app_nil_r. done.
  - simpl. destruct (begin_key (networks_ hm)) as [first |] eqn:E.
    2:{ exists hm, []. rewrite app_nil_r. apply begin_key_None in E. done. }
    apply begin_key_Some in E. destruct E as [nd Hnd].
    unfold removeNetwork. rewrite Hnd.
    rewrite bool_decide_eq_false_2.
    2:{ intros Hne. apply Hne. by apply (Hidle first nd). }
    destruct (evict_node_fold env (nodes (dag nd)) (Success, []) Hok)
      as (evs & Heq & Hall).
    rewrite Heq. simpl.
    destruct (IH (with_networks (delete first) (emit evs hm)))
      as (hm1 & evs1 & Hrun & Hemp & Hdev & Hexe & Htr & Hall1).
    + simpl. by apply map_Forall_delete.
    + simpl. rewrite map_size_delete, Hnd. lia.
    + exists hm1, (evs ++ evs1). rewrite Hrun. simpl in *.
      rewrite Htr, <- app_assoc. repeat split; try done.
      by apply Forall_app.
Qed.

Lemma stop_device_fold (env : Collaborators) (devices : list DeviceIDTy)
    (acc : OneErrOnly * list Event) :
  foldl (stop_device env) acc devices =
    (foldl OneErrOnly_set acc.1 (dev_stop env <$> devices),
     acc.2 ++ (EvDeviceStop <$> devices)).
Proof.
  revert acc. induction devices as [| d rest IH]; intros [e evs]; simpl.
  - by rewrite app_nil_r.
  - rewrite IH. simpl. by rewrite <- app_assoc.
Qed.

(** clearHost always returns: the removal loop is given one round per
    registered network. *)
Lemma clearHost_total (env : Collaborators) (hm : HostManager) :
  is_Some (clearHost env hm).
Proof.
  unfold clearHost.
  destruct (remove_all_total env (size (networks_ (executor_shutdown env hm)))
              (executor_shutdown env hm)) as [[e hm2] Hr]; [done |].
  rewrite Hr. destruct e; by eexists.
Qed.

(** What the completion of one run changes. *)
Lemma executor_finish_networks (env : Collaborators) (hm : HostManager)
    (r : ScheduledRun) :
  networks_ (executor_finish env hm r) =
    alter release_entry (captured_name (run_cb r)) (networks_ hm).
Proof. reflexivity. Qed.

Lemma executor_finish_trace (env : Collaborators) (hm : HostManager)
    (r : ScheduledRun) :
  exists call : CallbackCall,
    trace_ (executor_finish env hm r) = trace_ hm ++ [EvCallback call].
Proof. eexists. reflexivity. Qed.

Lemma executor_finish_pending (env : Collaborators) (hm : HostManager)
    (r : ScheduledRun) :
  pending (executor_ (executor_finish env hm r)) =
    filter (fun r' => run_id r' <> run_id r) (pending (executor_ hm)).
Proof. reflexivity. Qed.

Lemma outstanding_cons (networkName : string) (r : ScheduledRun)
    (runs : list ScheduledRun) :
  outstanding networkName (r :: runs) =
    (if bool_decide (captured_name (run_cb r) = networkName) then 1 else 0)
    + outstanding networkName runs.
Proof.
  unfold outstanding. rewrite filter_cons.
  destruct (decide (captured_name (run_cb r) = networkName)) as [Heq | Hne].
  - rewrite bool_decide_eq_true_2 by done. simpl. lia.
  - rewrite bool_decide_eq_false_2 by done. lia.
Qed.

Lemma outstanding_nonneg (networkName : string) (runs : list ScheduledRun) :
  0 <= outstanding networkName runs.
Proof. unfold outstanding. lia. Qed.

(** Draining: once every given run has completed, every refcount that
    counted exactly those runs is back to zero. *)
Lemma drain (env : Collaborators) (runs : list ScheduledRun) (hm : HostManager) :
  map_Forall
    (fun networkName nd =>
       refcount nd = outstanding networkName runs /\
       refcount nd < size_t_modulus) (networks_ hm) ->
  exists cbs : list Event,
    map_Forall (fun _ nd => refcount nd = 0)
      (networks_ (foldl (executor_finish env) hm runs)) /\
    dom (networks_ (foldl (executor_finish env) hm runs)) = dom (networks_ hm) /\
    devices_ (foldl (executor_finish env) hm runs) = devices_ hm /\
    trace_ (foldl (executor_finish env) hm runs) = trace_ hm ++ cbs /\
    Forall callback_event cbs /\
    length cbs = length runs /\
    pending (executor_ (foldl (executor_finish env) hm runs)) =
      filter (fun r => run_id r ∉ run_id <$> runs) (pending (executor_ hm)).
Proof.
  revert hm. induction runs as [| r rest IH]; intros hm Hcount.
  - exists []. simpl. rewrite app_nil_r. repeat split; try done.
    + intros k nd Hk. by destruct (Hcount k nd Hk).
    + symmetry. apply filter_keeps_all. intros x. apply not_elem_of_nil.
  - simpl. destruct (IH (executor_finish env hm r)) as
      (cbs & Hzero & Hdom & Hdev & Htr & Hcb & Hlen & Hpend).
    + rewrite executor_finish_networks. intros k nd Hk.
      destruct (decide (captured_name (run_cb r) = k)) as [<- | Hne];
        [rewrite lookup_alter_eq in Hk | rewrite lookup_alter_ne in Hk by done].
      * destruct (networks_ hm !! captured_name (run_cb r)) as [nd0 |] eqn:E;
          [| discriminate].
        simpl in Hk. injection Hk as <-. destruct (Hcount _ _ E) as [Hc Hlt].
        rewrite outstanding_cons, bool_decide_eq_true_2 in Hc by done.
        pose proof (outstanding_nonneg (captured_name (run_cb r)) rest).
        simpl. unfold decr. rewrite wrap_small by lia. lia.
      * destruct (Hcount _ _ Hk) as [Hc Hlt].
        rewrite outstanding_cons, bool_decide_eq_false_2 in Hc by done.
        split; [lia | done].
    + destruct (executor_finish_trace env hm r) as [call Hcall].
      exists (EvCallback call :: cbs).
      split; [done |]. split.
      { rewrite Hdom, executor_finish_networks. apply dom_alter_L. }
      split; [by rewrite Hdev |]. split.
      { rewrite Htr, Hcall, <- app_assoc. done. }
      split; [by constructor |]. split; [simpl; lia |].
      rewrite Hpend, executor_finish_pending, list_filter_filter.
      apply list_filter_iff. intros x. rewrite not_elem_of_cons. tauto.
Qed.

(** C4 (as amended): clearHost first shuts the Executor down, which drains
    every pending run (one callback per run).  Provided the refcounts were
    those of the pending runs and no eviction reports an error, it then
    removes every network and stops every device: when it returns the
    registry is empty, nothing is pending, each device has been stopped once,
    in order, and the error returned is the first error reported by a stop
    (success if there is none). *)
Theorem clearHost_empties_registry (env : Collaborators) (hm : HostManager) :
  settled hm ->
  (forall device function, dev_evictNetwork env device function = Success) ->
  exists (hm1 : HostManager) (drained removal : list Event),
    clearHost env hm =
      Some (first_error (dev_stop env <$> seq 0 (length (devices_ hm))), hm1) /\
    networks_ hm1 = ∅ /\
    pending (executor_ hm1) = [] /\
    shuttingDown (executor_ hm1) = true /\
    trace_ hm1 =
      trace_ hm ++ [EvExecutorShutdown] ++ drained ++ removal ++
      (EvDeviceStop <$> seq 0 (length (devices_ hm))) /\
    Forall callback_event drained /\
    length drained = length (pending (executor_ hm)) /\
    Forall removal_event removal.
Proof.
  intros Hsettled Hok. unfold clearHost, executor_shutdown.
  destruct (drain env (pending (executor_ (emit [EvExecutorShutdown] hm)))
              (emit [EvExecutorShutdown] hm) Hsettled)
    as (drained & Hzero & Hdom & Hdev & Htr & Hcb & Hlen & Hpend).
  set (hm2 := foldl (executor_finish env) (emit [EvExecutorShutdown] hm)
                (pending (executor_ (emit [EvExecutorShutdown] hm)))) in *.
  set (hm3 := with_executor _ hm2).
  destruct (remove_all_idle env (size (networks_ hm3)) hm3 Hok)
    as (hm4 & removal & Hrun & Hemp & Hdev4 & Hexe4 & Htr4 & Hrem);
    [done | done |].
  rewrite Hrun. unfold stop_all. rewrite stop_device_fold. simpl.
  exists (emit (EvDeviceStop <$> seq 0 (length (devices_ hm4))) hm4),
    drained, removal.
  rewrite Hdev4. subst hm3. simpl in *. rewrite Hdev. simpl.
  split; [done |]. split; [done |]. split.
  { rewrite Hexe4. simpl. rewrite Hpend. apply filter_drops_all.
    intros x Hx Hnot. apply Hnot. apply list_elem_of_fmap. by exists x. }
  split; [by rewrite Hexe4 |]. split.
  { rewrite Htr4, Htr. rewrite <- !app_assoc. done. }
  done.
Qed.

Lemma clearHost_empties_registry_witness :
  exists (hm1 : HostManager) (drained removal : list Event),
    clearHost Scenario.obliging Scenario.host_f_busy =
      Some (first_error (dev_stop Scenario.obliging <$>
                         seq 0 (length (devices_ Scenario.host_f_busy))), hm1) /\
    networks_ hm1 = ∅ /\
    pending (executor_ hm1) = [] /\
    shuttingDown (executor_ hm1) = true /\
    trace_ hm1 =
      trace_ Scenario.host_f_busy ++ [EvExecutorShutdown] ++ drained ++ removal ++
      (EvDeviceStop <$> seq 0 (length (devices_ Scenario.host_f_busy))) /\
    Forall callback_event drained /\
    length drained = length (pending (executor_ Scenario.host_f_busy)) /\
    Forall removal_event removal.
Proof.
  apply (clearHost_empties_registry Scenario.obliging Scenario.host_f_busy).
  - unfold settled.
    replace (networks_ Scenario.host_f_busy)
      with ({[ "f" := Scenario.entry "f" 1 ]} : gmap string NetworkData)
      by reflexivity.
    apply map_Forall_singleton. vm_compute. split; reflexivity.
  - reflexivity.
Defined.

(** C4, as stated, fails: with two idle networks and a device whose
    eviction reports an error, clearHost returns that error after the first
    removal; "f" is still registered and no device has been stopped. *)
Lemma clearHost_stops_at_failed_removal :
  exists hm1 : HostManager,
    settled Scenario.host_fg /\
    clearHost Scenario.failing_eviction Scenario.host_fg =
      Some (Failure (OTHER_CODE 2) "device lost", hm1) /\
    networks_ hm1 = {[ "f" := Scenario.entry "f" 0 ]} /\
    networks_ hm1 <> ∅ /\
    trace_ hm1 =
      [EvExecutorShutdown; EvEvictNetwork 0 "g_part1"; EvRemoveFunction "g_part1"] /\
    EvDeviceStop 0 ∉ trace_ hm1.
Proof.
  eexists. split; [| split; [reflexivity |]].
  - intros k nd Hk. unfold Scenario.host_fg in Hk. simpl in Hk.
    apply lookup_insert_Some in Hk as [[<- <-] | [Hne Hk]].
    + vm_compute. split; reflexivity.
    + apply lookup_singleton_Some in Hk as [<- <-]. vm_compute. split; reflexivity.
  - split; [by vm_compute |]. split.
    + intros Heq. apply (f_equal (fun m => m !! "f")) in Heq.
      vm_compute in Heq. discriminate.
    + split; [reflexivity |]. simpl. intros Hin.
      repeat (apply elem_of_cons in Hin as [Hin | Hin]; [discriminate |]).
      by apply elem_of_nil in Hin.
Qed.

End ShutdownFacts.

(** ** Concurrent runNetwork calls *)

Module ConcurrencyFacts.
Import Runtime.

(** *** Counting *)

Lemma tally_insert (f : Request -> Z) (pool : list Request) (i : nat)
    (rq rq' : Request) :
  pool !! i = Some rq ->
  tally f (<[i := rq']> pool) = tally f pool - f rq + f rq'.
Proof.
  revert i. induction pool as [| x pool IH]; intros i Hi; [done |].
  destruct i as [| i]; simpl in *.
  - injection Hi as ->. lia.
  - rewrite (IH i Hi). lia.
Qed.

Lemma tally_bounds (f : Request -> Z) (pool : list Request) :
  (forall rq, 0 <= f rq <= 1) ->
  0 <= tally f pool <= Z.of_nat (length pool).
Proof.
  intros Hf. induction pool as [| x pool IH]; simpl; [lia |].
  specialize (Hf x). lia.
Qed.

Lemma tally_mono (f g : Request -> Z) (pool : list Request) :
  (forall rq, f rq <= g rq) -> tally f pool <= tally g pool.
Proof.
  intros Hfg. induction pool as [| x pool IH]; simpl; [lia |].
  specialize (Hfg x). lia.
Qed.

Lemma tally_zero (f : Request -> Z) (pool : list Request) :
  Forall (fun rq => f rq = 0) pool -> tally f pool = 0.
Proof.
  induction 1 as [| x pool Hx _ IH]; simpl; [done | lia].
Qed.

Lemma in_flight_bounds (s : Stage) : 0 <= in_flight s <= 1.
Proof. destruct s; simpl; lia. Qed.

Lemma holds_slot_bounds (s : Stage) : 0 <= holds_slot s <= 1.
Proof. destruct s; simpl; lia. Qed.

Lemma in_flight_holds_slot (s : Stage) : in_flight s <= holds_slot s.
Proof. destruct s; simpl; lia. Qed.

Lemma holds_ref_bounds (networkName : string) (rq : Request) :
  0 <= holds_ref networkName rq <= 1.
Proof. unfold holds_ref. case_bool_decide; [destruct (req_stage rq) |]; lia. Qed.

Lemma has_id_bounds (s : Stage) : 0 <= has_id s <= 1.
Proof. destruct s; simpl; lia. Qed.

(** *** What one action changes, member by member *)

Lemma step_config (env : Collaborators) (rq : Request) (hm : HostManager) :
  config_ (request_step env rq hm).2 = config_ hm.
Proof.
  unfold request_step, retain, schedule.
  destruct (req_stage rq); simpl; try done;
    destruct (networks_ hm !! req_name rq); done.
Qed.

Lemma step_active (env : Collaborators) (rq : Request) (hm : HostManager) :
  activeRequestCount_ (request_step env rq hm).2 =
    match req_stage rq with
    | Retained _ => incr (activeRequestCount_ hm)
    | Over _ _ | Notified _ _ => decr (activeRequestCount_ hm)
    | _ => activeRequestCount_ hm
    end.
Proof.
  unfold request_step, retain, schedule.
  destruct (req_stage rq); simpl; try done;
    destruct (networks_ hm !! req_name rq); done.
Qed.

Lemma step_total (env : Collaborators) (rq : Request) (hm : HostManager) :
  totalRequestCount_ (request_step env rq hm).2 =
    match req_stage rq with
    | Called => incr (totalRequestCount_ hm)
    | _ => totalRequestCount_ hm
    end.
Proof.
  unfold request_step, retain, schedule.
  destruct (req_stage rq); simpl; try done;
    destruct (networks_ hm !! req_name rq); done.
Qed.

Lemma step_networks (env : Collaborators) (rq : Request) (hm : HostManager) :
  networks_ (request_step env rq hm).2 =
    match req_stage rq with
    | HasId _ =>
        match networks_ hm !! req_name rq with
        | Some nd => <[req_name rq := retain_entry nd]> (networks_ hm)
        | None => networks_ hm
        end
    | OverLeft _ _ => alter release_entry (req_name rq) (networks_ hm)
    | Granted _ =>
        match networks_ hm !! req_name rq with
        | Some _ => networks_ hm
        | None => <[req_name rq := NetworkData_default]> (networks_ hm)
        end
    | Scheduled r => alter release_entry (captured_name (run_cb r)) (networks_ hm)
    | _ => networks_ hm
    end.
Proof.
  unfold request_step, retain, schedule.
  destruct (req_stage rq); simpl; try done;
    destruct (networks_ hm !! req_name rq); done.
Qed.

(** The stage reached, for the two actions that branch. *)
Lemma step_stage_lookup (env : Collaborators) (rq : Request) (hm : HostManager)
    (currentRun : RunIdentifierTy) :
  req_stage rq = HasId currentRun ->
  (request_step env rq hm).1 =
    if bool_decide (is_Some (networks_ hm !! req_name rq))
    then Retained currentRun else Missing currentRun.
Proof.
  intros Hs. unfold request_step, retain. rewrite Hs.
  by destruct (networks_ hm !! req_name rq).
Qed.

Lemma step_stage_enter (env : Collaborators) (rq : Request) (hm : HostManager)
    (currentRun : RunIdentifierTy) :
  req_stage rq = Retained currentRun ->
  (request_step env rq hm).1 =
    if bool_decide (maxActiveRequests (config_ hm) <= activeRequestCount_ hm)
    then Over currentRun (activeRequestCount_ hm) else Granted currentRun.
Proof. intros Hs. unfold request_step. by rewrite Hs. Qed.

(** *** Invariants of an execution *)

Lemma pool_lookup_insert (pool : list Request) (i j : nat) (rq new x : Request) :
  pool !! i = Some rq ->
  <[i := new]> pool !! j = Some x ->
  (j = i /\ x = new) \/ (j <> i /\ pool !! j = Some x).
Proof.
  intros Hi Hj. destruct (decide (j = i)) as [-> | Hne].
  - rewrite list_lookup_insert_eq in Hj by (by eapply lookup_lt_Some).
    injection Hj as <-. by left.
  - rewrite list_lookup_insert_ne in Hj by done. by right.
Qed.

Lemma pool_fmap_insert {B : Type} (f : Request -> B) (pool : list Request)
    (i : nat) (rq new : Request) :
  pool !! i = Some rq -> f new = f rq ->
  f <$> <[i := new]> pool = f <$> pool.
Proof.
  intros Hi Hf. rewrite list_fmap_insert, Hf. apply list_insert_id.
  by rewrite list_lookup_fmap, Hi.
Qed.

(** The configuration, the callbacks and the names never change, and every
    run handed to the Executor is coherent with its request. *)
Lemma reach_structure (env : Collaborators) (c0 c : Config) :
  starting c0 -> rtc (step env) c0 c ->
  config_ (host c) = config_ (host c0) /\
  req_callback <$> calls c = req_callback <$> calls c0 /\
  (forall i rq, calls c !! i = Some rq -> coherent rq).
Proof.
  intros Hstart Hreach. revert c Hreach.
  apply rtc_ind_r; [| intros y z Hy Hstep IH].
  - split; [done |]. split; [done |]. intros i rq Hi.
    pose proof (start_calls _ Hstart) as Hcalls. rewrite Forall_lookup in Hcalls.
    unfold coherent. by rewrite (Hcalls i rq Hi).
  - destruct IH as (Hcfg & Htok & Hcoh).
    inversion Hstep as [hm pool i rq Hi Hfin Hready]; subst; simpl in *.
    split; [by rewrite step_config |]. split.
    { rewrite <- Htok. by apply (pool_fmap_insert _ _ _ rq). }
    intros j x Hj. destruct (pool_lookup_insert _ _ _ _ _ _ Hi Hj) as [[-> ->] | [_ Hx]];
      [| by eapply Hcoh].
    specialize (Hcoh i rq Hi). unfold coherent in *. simpl.
    unfold request_step, retain, schedule.
    destruct (req_stage rq) as [| | | | | | | | r | r e | r e | o]; simpl;
      try done.
    + by destruct (networks_ hm !! req_name rq).
    + by case_bool_decide.
Qed.

Lemma reach_length (env : Collaborators) (c0 c : Config) :
  starting c0 -> rtc (step env) c0 c ->
  Z.of_nat (length (calls c)) < size_t_modulus /\
  totalRequestCount_ (host c0) + Z.of_nat (length (calls c)) < size_t_modulus.
Proof.
  intros Hstart Hreach.
  destruct (reach_structure env c0 c Hstart Hreach) as (_ & Htok & _).
  apply (f_equal length) in Htok. rewrite !length_fmap in Htok.
  pose proof (start_room _ Hstart). pose proof (start_total _ Hstart).
  rewrite Htok. lia.
Qed.

(** Case analysis on the stage of the request that moves. *)
Ltac on_stage rq hm Hs :=
  unfold request_step, retain, schedule in *;
  destruct (req_stage rq) eqn:Hs; rewrite ?Hs in *; simpl in *;
  try discriminate;
  try (destruct (networks_ hm !! req_name rq) eqn:?; simpl in *);
  try (case_bool_decide; simpl in *).

(** The in-flight counter counts the calls between line 299 and lines
    301/328, never more than the limit are past admission, and a refusal is
    always decided on a counter value at or above the limit. *)
Lemma reach_slots (env : Collaborators) (c0 c : Config) :
  starting c0 -> rtc (step env) c0 c ->
  activeRequestCount_ (host c)
    = tally (fun rq => holds_slot (req_stage rq)) (calls c) /\
  tally (fun rq => in_flight (req_stage rq)) (calls c)
    <= maxActiveRequests (config_ (host c)) /\
  (forall i rq, calls c !! i = Some rq ->
     justified (maxActiveRequests (config_ (host c))) (req_stage rq)).
Proof.
  intros Hstart Hreach. revert c Hreach.
  apply rtc_ind_r; [| intros y z Hy Hstep IH].
  - pose proof (start_calls _ Hstart) as Hcalls.
    rewrite (start_active _ Hstart).
    rewrite !tally_zero by (eapply Forall_impl; [exact Hcalls |];
                            intros rq Hrq; simpl in Hrq; by rewrite Hrq).
    split; [done |]. split; [apply (start_limit _ Hstart) |].
    intros i rq Hi. rewrite Forall_lookup in Hcalls.
    by rewrite (Hcalls i rq Hi).
  - destruct IH as (Hact & Hfly & Hjust).
    pose proof (reach_length env c0 y Hstart Hy) as [Hlen _].
    inversion Hstep as [hm pool i rq Hi Hfin Hready]; subst; simpl in *.
    set (new := at_stage rq (request_step env rq hm).1) in *.
    pose proof (tally_insert (fun rq => holds_slot (req_stage rq)) pool i rq new Hi)
      as Hslot.
    pose proof (tally_insert (fun rq => in_flight (req_stage rq)) pool i rq new Hi)
      as Hin.
    pose proof (tally_bounds (fun rq => holds_slot (req_stage rq))
                  (<[i := new]> pool) (fun rq => holds_slot_bounds _)) as Hb.
    rewrite length_insert in Hb.
    pose proof (tally_mono (fun rq => in_flight (req_stage rq))
                  (fun rq => holds_slot (req_stage rq)) pool
                  (fun rq => in_flight_holds_slot _)) as Hmono.
    specialize (Hjust i rq Hi) as Hj0.
    rewrite step_config, step_active.
    assert (Hgoal :
      match req_stage rq with
      | Retained _ => incr (activeRequestCount_ hm)
      | Over _ _ | Notified _ _ => decr (activeRequestCount_ hm)
      | _ => activeRequestCount_ hm
      end = tally (fun rq => holds_slot (req_stage rq)) (<[i := new]> pool) /\
      tally (fun rq => in_flight (req_stage rq)) (<[i := new]> pool)
        <= maxActiveRequests (config_ hm) /\
      justified (maxActiveRequests (config_ hm)) (req_stage new)).
    { subst new. unfold finished in Hfin.
      on_stage rq hm Hs; unfold incr, decr; rewrite ?ShutdownFacts.wrap_small by lia;
        repeat split; lia. }
    destruct Hgoal as (G1 & G2 & G3). split; [done |]. split; [done |].
    intros j x Hj.
    destruct (pool_lookup_insert _ _ _ _ _ _ Hi Hj) as [[-> ->] | [_ Hx]];
      [done | by eapply Hjust].
Qed.

(** The effect of one action on the refcount of any entry, in terms of
    the reference the moving request holds before and after. *)
Lemma step_refcount (env : Collaborators) (rq : Request) (hm : HostManager)
    (networkName : string) (nd' : NetworkData) :
  coherent rq ->
  (holds_ref (req_name rq) rq = 1 -> is_Some (networks_ hm !! req_name rq)) ->
  networks_ (request_step env rq hm).2 !! networkName = Some nd' ->
  exists nd : NetworkData,
    networks_ hm !! networkName = Some nd /\
    refcount nd' =
      match holds_ref networkName (at_stage rq (request_step env rq hm).1)
            - holds_ref networkName rq with
      | 0 => refcount nd
      | Zpos _ => incr (refcount nd)
      | Zneg _ => decr (refcount nd)
      end.
Proof.
  intros Hcoh Hpres Hl. rewrite step_networks in Hl.
  unfold holds_ref in *. simpl. unfold coherent in Hcoh.
  rewrite bool_decide_eq_true_2 in Hpres by done.
  unfold request_step, retain, schedule.
  destruct (decide (req_name rq = networkName)) as [<- | Hne].
  - rewrite bool_decide_eq_true_2 by done.
    destruct (networks_ hm !! req_name rq) as [nd0 |] eqn:E0.
    + exists nd0. split; [done |].
      destruct (req_stage rq) eqn:Hs; simpl in *;
        try match type of Hcoh with
            | _ /\ _ => destruct Hcoh as [Hcb _]; rewrite ?Hcb in Hl; simpl in Hl
            end;
        try case_bool_decide; simpl;
        rewrite ?lookup_insert_eq, ?lookup_alter_eq, ?E0 in Hl; simpl in Hl;
        injection Hl as <-; done.
    + exfalso.
      destruct (req_stage rq) eqn:Hs; simpl in *;
        try match type of Hcoh with
            | _ /\ _ => destruct Hcoh as [Hcb _]; rewrite ?Hcb in Hl; simpl in Hl
            end;
        rewrite ?lookup_insert_eq, ?lookup_alter_eq, ?E0 in Hl; simpl in Hl;
        try discriminate;
        destruct Hpres as [? ?]; done.
  - rewrite bool_decide_eq_false_2 by done. simpl.
    exists nd'. split; [| done].
    destruct (req_stage rq) eqn:Hs; simpl in *;
      try match type of Hcoh with
            | _ /\ _ => destruct Hcoh as [Hcb _]; rewrite ?Hcb in Hl; simpl in Hl
            end;
      try (destruct (networks_ hm !! req_name rq) eqn:E0);
      rewrite ?lookup_insert_ne, ?lookup_alter_ne in Hl by done; done.
Qed.

(** No action removes an entry from the registry. *)
Lemma step_keeps_entries (env : Collaborators) (rq : Request) (hm : HostManager)
    (networkName : string) :
  is_Some (networks_ hm !! networkName) ->
  is_Some (networks_ (request_step env rq hm).2 !! networkName).
Proof.
  intros [nd Hnd]. rewrite step_networks.
  destruct (req_stage rq); try (by eexists).
  - destruct (networks_ hm !! req_name rq); [| by eexists].
    destruct (decide (req_name rq = networkName)) as [<- | Hne].
    + rewrite lookup_insert_eq. by eexists.
    + rewrite lookup_insert_ne by done. by eexists.
  - rewrite lookup_alter. case_decide; subst; rewrite Hnd; by eexists.
  - destruct (networks_ hm !! req_name rq); [by eexists |].
    destruct (decide (req_name rq = networkName)) as [<- | Hne].
    + rewrite lookup_insert_eq. by eexists.
    + rewrite lookup_insert_ne by done. by eexists.
  - rewrite lookup_alter. case_decide; subst; rewrite Hnd; by eexists.
Qed.

(** A request that holds a reference after an action found its entry
    registered before it. *)
Lemma step_holds_present (env : Collaborators) (rq : Request) (hm : HostManager) :
  (holds_ref (req_name rq) rq = 1 -> is_Some (networks_ hm !! req_name rq)) ->
  holds_ref (req_name rq) (at_stage rq (request_step env rq hm).1) = 1 ->
  is_Some (networks_ hm !! req_name rq).
Proof.
  unfold holds_ref. simpl. rewrite bool_decide_eq_true_2 by done.
  intros Hold Hnew.
  unfold request_step, retain, schedule in Hnew.
  destruct (req_stage rq) eqn:Hs; simpl in *; try discriminate;
    try (by apply Hold).
  destruct (networks_ hm !! req_name rq); [by eexists | discriminate].
Qed.

(** Every refcount counts the calls between line 286 and line 302 or 322,
    and a call holding a reference has its entry registered. *)
Lemma reach_refs (env : Collaborators) (c0 c : Config) :
  starting c0 -> rtc (step env) c0 c ->
  (forall networkName nd,
     networks_ (host c) !! networkName = Some nd ->
     refcount nd = tally (holds_ref networkName) (calls c)) /\
  (forall i rq,
     calls c !! i = Some rq -> holds_ref (req_name rq) rq = 1 ->
     is_Some (networks_ (host c) !! req_name rq)).
Proof.
  intros Hstart Hreach. revert c Hreach.
  apply rtc_ind_r; [| intros y z Hy Hstep IH].
  - pose proof (start_calls _ Hstart) as Hcalls. split.
    + intros networkName nd Hnd.
      rewrite (start_refcounts _ Hstart networkName nd Hnd).
      symmetry. apply tally_zero. eapply Forall_impl; [exact Hcalls |].
      intros rq Hrq. simpl in Hrq. unfold holds_ref. rewrite Hrq.
      by case_bool_decide.
    + intros i rq Hi. rewrite Forall_lookup in Hcalls.
      unfold holds_ref. rewrite (Hcalls i rq Hi). by case_bool_decide.
  - destruct IH as (Href & Hpres).
    pose proof (reach_length env c0 y Hstart Hy) as [Hlen _].
    destruct (reach_structure env c0 y Hstart Hy) as (_ & _ & Hcoh).
    inversion Hstep as [hm pool i rq Hi Hfin Hready]; subst; simpl in *.
    set (new := at_stage rq (request_step env rq hm).1) in *.
    split.
    + intros networkName nd' Hnd'.
      destruct (step_refcount env rq hm networkName nd' (Hcoh i rq Hi)
                  (Hpres i rq Hi) Hnd') as (nd & Hnd & Hrc).
      pose proof (Href networkName nd Hnd) as Hold.
      pose proof (tally_insert (holds_ref networkName) pool i rq new Hi) as Hins.
      pose proof (tally_bounds (holds_ref networkName) (<[i := new]> pool)
                    (holds_ref_bounds networkName)) as Hb.
      rewrite length_insert in Hb.
      pose proof (tally_bounds (holds_ref networkName) pool
                    (holds_ref_bounds networkName)) as Hb0.
      pose proof (holds_ref_bounds networkName rq).
      pose proof (holds_ref_bounds networkName new).
      fold new in Hrc. rewrite Hrc.
      destruct (holds_ref networkName new - holds_ref networkName rq) eqn:Hd;
        unfold incr, decr; rewrite ?ShutdownFacts.wrap_small by lia; lia.
    + intros j x Hj Hx.
      destruct (pool_lookup_insert _ _ _ _ _ _ Hi Hj) as [[-> ->] | [_ Hjx]].
      * apply step_keeps_entries. subst new. simpl.
        apply (step_holds_present env rq hm (Hpres i rq Hi)). exact Hx.
      * apply step_keeps_entries. by eapply Hpres.
Qed.

(** *** Run identifiers *)

Lemma step_issued (env : Collaborators) (rq : Request) (hm : HostManager) :
  issued (request_step env rq hm).1 =
    match req_stage rq with
    | Called => Some (totalRequestCount_ hm)
    | s => issued s
    end.
Proof.
  unfold request_step, retain, schedule.
  destruct (req_stage rq); simpl; try done.
  - by destruct (networks_ hm !! req_name rq).
  - by case_bool_decide.
Qed.

Lemma step_has_id (env : Collaborators) (rq : Request) (hm : HostManager) :
  has_id (request_step env rq hm).1 = 1.
Proof.
  unfold request_step, retain, schedule.
  destruct (req_stage rq) as [| | | | | | | | | | | o]; simpl; try done.
  - by destruct (networks_ hm !! req_name rq).
  - by case_bool_decide.
Qed.

Lemma issued_has_id (s : Stage) (i : RunIdentifierTy) :
  issued s = Some i -> has_id s = 1.
Proof. by destruct s. Qed.

(** The request counter has advanced once per call that passed line 278;
    the identifiers held lie below it and no two calls hold the same one. *)
Lemma reach_ids (env : Collaborators) (c0 c : Config) :
  starting c0 -> rtc (step env) c0 c ->
  totalRequestCount_ (host c) =
    totalRequestCount_ (host c0)
    + tally (fun rq => has_id (req_stage rq)) (calls c) /\
  (forall i rq id,
     calls c !! i = Some rq -> issued (req_stage rq) = Some id ->
     totalRequestCount_ (host c0) <= id < totalRequestCount_ (host c)) /\
  (forall i j rqi rqj id,
     calls c !! i = Some rqi -> calls c !! j = Some rqj ->
     issued (req_stage rqi) = Some id -> issued (req_stage rqj) = Some id ->
     i = j).
Proof.
  intros Hstart Hreach. revert c Hreach.
  apply rtc_ind_r; [| intros y z Hy Hstep IH].
  - pose proof (start_calls _ Hstart) as Hcalls. split; [| split].
    + rewrite tally_zero; [lia |]. eapply Forall_impl; [exact Hcalls |].
      intros rq Hrq. simpl in Hrq. by rewrite Hrq.
    + intros i rq id Hi. rewrite Forall_lookup in Hcalls.
      by rewrite (Hcalls i rq Hi).
    + intros i j rqi rqj id Hi. rewrite Forall_lookup in Hcalls.
      by rewrite (Hcalls i rqi Hi).
  - destruct IH as (Htot & Hrange & Huniq).
    pose proof (reach_length env c0 y Hstart Hy) as [_ Hroom].
    pose proof (start_total _ Hstart) as Hnonneg.
    inversion Hstep as [hm pool i rq Hi Hfin Hready]; subst; simpl in *.
    set (new := at_stage rq (request_step env rq hm).1) in *.
    pose proof (tally_insert (fun rq => has_id (req_stage rq)) pool i rq new Hi)
      as Hins.
    pose proof (tally_bounds (fun rq => has_id (req_stage rq))
                  (<[i := new]> pool) (fun rq => has_id_bounds _)) as Hb.
    rewrite length_insert in Hb.
    pose proof (tally_bounds (fun rq => has_id (req_stage rq)) pool
                  (fun rq => has_id_bounds _)) as Hb0.
    assert (Hnew : has_id (req_stage new) = 1) by apply step_has_id.
    assert (Hiss : issued (req_stage new) =
                   match req_stage rq with
                   | Called => Some (totalRequestCount_ hm)
                   | s => issued s
                   end) by apply step_issued.
    cbv beta in Hins.
    assert (Htotal : totalRequestCount_ (request_step env rq hm).2 =
                     totalRequestCount_ hm + (1 - has_id (req_stage rq))).
    { rewrite step_total.
      destruct (req_stage rq) eqn:Hs; simpl in *; try lia.
      unfold incr. rewrite ShutdownFacts.wrap_small; lia. }
    assert (Hmine : forall id, issued (req_stage new) = Some id ->
              totalRequestCount_ (host c0) <= id
                < totalRequestCount_ (request_step env rq hm).2 /\
              (req_stage rq = Called /\ id = totalRequestCount_ hm \/
               issued (req_stage rq) = Some id)).
    { intros id Hid. rewrite Hiss in Hid. rewrite Htotal.
      destruct (req_stage rq) eqn:Hs;
        try (pose proof (Hrange i rq id Hi) as Hr; rewrite Hs in Hr;
             specialize (Hr Hid); simpl; split; [lia | by right]).
      injection Hid as <-. simpl. split; [lia | by left]. }
    split; [lia |]. split.
    + intros j x id Hj Hid.
      destruct (pool_lookup_insert _ _ _ _ _ _ Hi Hj) as [[-> ->] | [_ Hjx]].
      * by apply Hmine.
      * pose proof (Hrange j x id Hjx Hid). pose proof (has_id_bounds (req_stage rq)).
        lia.
    + intros j1 j2 x1 x2 id Hj1 Hj2 Hid1 Hid2.
      destruct (pool_lookup_insert _ _ _ _ _ _ Hi Hj1) as [[-> ->] | [Hne1 Hx1]];
        destruct (pool_lookup_insert _ _ _ _ _ _ Hi Hj2) as [[-> ->] | [Hne2 Hx2]];
        try done.
      * destruct (Hmine id Hid1) as [_ [[_ ->] | Hold]].
        -- pose proof (Hrange j2 x2 _ Hx2 Hid2). lia.
        -- symmetry. by eapply (Huniq j2 i x2 rq id).
      * destruct (Hmine id Hid2) as [_ [[_ ->] | Hold]].
        -- pose proof (Hrange j1 x1 _ Hx1 Hid1). lia.
        -- by eapply (Huniq j1 i x1 rq id).
      * by eapply Huniq.
Qed.

(** *** Callbacks and runs handed to the Executor *)

(** An action of one request adds nothing to what another callback has
    received, nor to the runs made for it. *)
Lemma step_trace_foreign (env : Collaborators) (rq : Request) (hm : HostManager)
    (callback : ResultCBTy) :
  coherent rq -> callback <> req_callback rq ->
  calls_to callback (trace_ (request_step env rq hm).2)
    = calls_to callback (trace_ hm) /\
  runs_for callback (trace_ (request_step env rq hm).2)
    = runs_for callback (trace_ hm).
Proof.
  intros Hcoh Hne. unfold coherent in Hcoh.
  unfold request_step, retain, schedule, calls_to, runs_for.
  destruct (req_stage rq) eqn:Hs; simpl; try done;
    try (destruct (networks_ hm !! req_name rq) eqn:E; simpl; try done);
    rewrite !omap_app; simpl;
    try match type of Hcoh with _ /\ _ => destruct Hcoh as [-> _]; simpl end;
    rewrite ?bool_decide_eq_false_2 by done; by rewrite !app_nil_r.
Qed.

(** An action of a request brings what its own callback has received, and
    the runs made for it, from what is expected at its stage to what is
    expected at the next. *)
Lemma step_trace_own (env : Collaborators) (rq : Request) (hm : HostManager) :
  coherent rq ->
  received (req_callback rq) (trace_ hm)
    = expected_calls (maxActiveRequests (config_ hm)) rq ->
  runs_for (req_callback rq) (trace_ hm) = expected_runs (req_stage rq) ->
  received (req_callback rq) (trace_ (request_step env rq hm).2)
    = expected_calls (maxActiveRequests (config_ hm))
        (at_stage rq (request_step env rq hm).1) /\
  runs_for (req_callback rq) (trace_ (request_step env rq hm).2)
    = expected_runs (request_step env rq hm).1.
Proof.
  intros Hcoh. unfold coherent in Hcoh.
  unfold request_step, retain, schedule, received, calls_to, runs_for,
    expected_calls.
  destruct (req_stage rq) as [| | | | | | | | r | r e | r e | o] eqn:Hs;
    simpl; intros Hc Hr; try done;
    try (destruct (networks_ hm !! req_name rq) eqn:E; simpl; try done);
    try (by case_bool_decide);
    rewrite !omap_app, ?fmap_app; simpl;
    try match type of Hcoh with _ /\ _ => destruct Hcoh as [-> _]; simpl end;
    rewrite ?bool_decide_eq_true_2 by done; simpl;
    rewrite ?Hc, ?Hr, ?app_nil_r; done.
Qed.

(** Each callback has received exactly what the stage of its call tells,
    and the Executor has been handed exactly the runs it tells. *)
Lemma reach_history (env : Collaborators) (c0 c : Config) :
  starting c0 -> rtc (step env) c0 c ->
  forall i rq,
    calls c !! i = Some rq ->
    received (req_callback rq) (trace_ (host c))
      = expected_calls (maxActiveRequests (config_ (host c))) rq /\
    runs_for (req_callback rq) (trace_ (host c)) = expected_runs (req_stage rq).
Proof.
  intros Hstart Hreach. pattern c. revert c Hreach.
  apply rtc_ind_r; [| intros y z Hy Hstep IH].
  - intros i rq Hi. pose proof (start_calls _ Hstart) as Hcalls.
    rewrite Forall_lookup in Hcalls. unfold expected_calls.
    rewrite (Hcalls i rq Hi), (start_trace _ Hstart). done.
  - destruct (reach_structure env c0 y Hstart Hy) as (_ & Htok & Hcoh).
    assert (Hnodup : NoDup (req_callback <$> calls y)).
    { rewrite Htok. apply (start_tokens _ Hstart). }
    inversion Hstep as [hm pool i rq Hi Hfin Hready]; subst; simpl in *.
    intros j x Hj. rewrite step_config.
    destruct (pool_lookup_insert _ _ _ _ _ _ Hi Hj) as [[-> ->] | [Hne Hjx]].
    + destruct (IH i rq Hi) as [Hc Hr].
      apply (step_trace_own env rq hm (Hcoh i rq Hi) Hc Hr).
    + assert (Hcb : req_callback x <> req_callback rq).
      { intros Heq. apply Hne.
        apply (NoDup_lookup _ j i (req_callback x) Hnodup).
        - by rewrite list_lookup_fmap, Hjx.
        - by rewrite list_lookup_fmap, Hi, Heq. }
      destruct (step_trace_foreign env rq hm (req_callback x) (Hcoh i rq Hi) Hcb)
        as [Hc Hr].
      destruct (IH j x Hjx) as [Hc0 Hr0].
      unfold received. rewrite Hc, Hr. done.
Qed.

(** *** Progress and termination *)

Lemma step_remaining (env : Collaborators) (rq : Request) (hm : HostManager) :
  finished rq = false ->
  (remaining (request_step env rq hm).1 < remaining (req_stage rq))%nat.
Proof.
  unfold finished, request_step, retain, schedule.
  destruct (req_stage rq); simpl; try discriminate; intros _; try lia.
  - destruct (networks_ hm !! req_name rq); simpl; lia.
  - case_bool_decide; simpl; lia.
Qed.

Lemma work_insert (pool : list Request) (i : nat) (rq new : Request) :
  pool !! i = Some rq ->
  (work (<[i := new]> pool) + remaining (req_stage rq)
   = work pool + remaining (req_stage new))%nat.
Proof.
  revert i. induction pool as [| x pool IH]; intros i Hi; [done |].
  destruct i as [| i]; simpl in *.
  - injection Hi as ->. lia.
  - specialize (IH i Hi). lia.
Qed.

Lemma step_work (env : Collaborators) (c c' : Config) :
  step env c c' -> (work (calls c') < work (calls c))%nat.
Proof.
  intros Hstep. inversion Hstep as [hm pool i rq Hi Hfin Hready]; subst; simpl.
  pose proof (work_insert pool i rq (at_stage rq (request_step env rq hm).1) Hi).
  pose proof (step_remaining env rq hm Hfin). simpl in *. lia.
Qed.

(** Every execution is finite: it takes at most [work] actions. *)
Lemma nsteps_work (env : Collaborators) (n : nat) (c c' : Config) :
  nsteps (step env) n c c' -> (n + work (calls c') <= work (calls c))%nat.
Proof.
  induction 1 as [| n x y z Hxy _ IH]; [lia |].
  pose proof (step_work env x y Hxy). lia.
Qed.

(** *** The Executor's custody of forwarded runs *)

Lemma step_pending (env : Collaborators) (rq : Request) (hm : HostManager) :
  pending (executor_ (request_step env rq hm).2) =
    match req_stage rq with
    | Granted _ =>
        match (request_step env rq hm).1 with
        | Scheduled r => pending (executor_ hm) ++ [r]
        | _ => pending (executor_ hm)
        end
    | Scheduled r =>
        filter (fun r' => run_id r' <> run_id r) (pending (executor_ hm))
    | _ => pending (executor_ hm)
    end.
Proof.
  unfold request_step, retain, schedule.
  destruct (req_stage rq); simpl; try done;
    destruct (networks_ hm !! req_name rq); done.
Qed.

Lemma step_granted (env : Collaborators) (rq : Request) (hm : HostManager)
    (currentRun : RunIdentifierTy) :
  req_stage rq = Granted currentRun ->
  exists r, (request_step env rq hm).1 = Scheduled r /\ run_id r = currentRun.
Proof.
  intros Hs. unfold request_step, schedule. rewrite Hs. simpl.
  by eexists.
Qed.

(** The action of a request keeps its own run where it belongs: handing it
    over puts it among the pending runs, and the completion takes it out. *)
Lemma step_custody_own (env : Collaborators) (rq : Request) (hm : HostManager) :
  custody rq hm ->
  custody (at_stage rq (request_step env rq hm).1) (request_step env rq hm).2.
Proof.
  unfold custody. rewrite step_pending. simpl.
  destruct (req_stage rq) as [| | | | | | | id | r | r e | r e | o] eqn:Hs;
    try (unfold request_step, retain; rewrite Hs; simpl; try done;
         try (by destruct (networks_ hm !! req_name rq));
         by case_bool_decide).
  - intros _. destruct (step_granted env rq hm id Hs) as (r & -> & _).
    apply elem_of_app. right. left.
  - intros _. unfold request_step. rewrite Hs. simpl. intros Hin.
    apply list_elem_of_fmap in Hin as (r' & Heq & Hr').
    apply list_elem_of_filter in Hr' as [Hne _]. by apply Hne.
Qed.

(** The action of a request leaves the run of any other request where it
    is: the two carry different identifiers. *)
Lemma step_custody_other (env : Collaborators) (rq x : Request)
    (hm : HostManager) :
  (forall id, issued (req_stage rq) = Some id ->
              issued (req_stage x) = Some id -> False) ->
  custody x hm -> custody x (request_step env rq hm).2.
Proof.
  intros Hdiff. unfold custody. rewrite step_pending.
  destruct (req_stage rq) as [| | | | | | | id | r' | r' e' | r' e' | o']
    eqn:Hs; try done.
  - destruct (step_granted env rq hm id Hs) as (r'' & -> & Hid).
    destruct (req_stage x) as [| | | | | | | | r | r e | r e | []]; try done;
      simpl in Hdiff.
    + intros Hin. apply elem_of_app. by left.
    + intros Hnot. rewrite fmap_app. apply not_elem_of_app. split; [done |].
      simpl. apply not_elem_of_cons. split; [| apply not_elem_of_nil].
      intros Heq. apply (Hdiff id); congruence.
    + intros Hnot. rewrite fmap_app. apply not_elem_of_app. split; [done |].
      simpl. apply not_elem_of_cons. split; [| apply not_elem_of_nil].
      intros Heq. apply (Hdiff id); congruence.
    + intros Hnot. rewrite fmap_app. apply not_elem_of_app. split; [done |].
      simpl. apply not_elem_of_cons. split; [| apply not_elem_of_nil].
      intros Heq. apply (Hdiff id); congruence.
  - destruct (req_stage x) as [| | | | | | | | r | r e | r e | []]; try done;
      simpl in Hdiff.
    + intros Hin. apply list_elem_of_filter. split; [| done].
      intros Heq. apply (Hdiff (run_id r')); congruence.
    + intros Hnot Hin. apply Hnot.
      apply list_elem_of_fmap in Hin as (r0 & Heq & Hr0).
      apply list_elem_of_filter in Hr0 as [_ Hr0].
      apply list_elem_of_fmap. by exists r0.
    + intros Hnot Hin. apply Hnot.
      apply list_elem_of_fmap in Hin as (r0 & Heq & Hr0).
      apply list_elem_of_filter in Hr0 as [_ Hr0].
      apply list_elem_of_fmap. by exists r0.
    + intros Hnot Hin. apply Hnot.
      apply list_elem_of_fmap in Hin as (r0 & Heq & Hr0).
      apply list_elem_of_filter in Hr0 as [_ Hr0].
      apply list_elem_of_fmap. by exists r0.
Qed.

(** A forwarded run is among the Executor's pending runs until its
    completion is invoked, and the Executor holds no run with its identifier
    afterwards. *)
Lemma reach_custody (env : Collaborators) (c0 c : Config) :
  starting c0 -> rtc (step env) c0 c ->
  forall i rq, calls c !! i = Some rq -> custody rq (host c).
Proof.
  intros Hstart Hreach. pattern c. revert c Hreach.
  apply rtc_ind_r; [| intros y z Hy Hstep IH].
  - intros i rq Hi. pose proof (start_calls _ Hstart) as Hcalls.
    rewrite Forall_lookup in Hcalls. unfold custody.
    by rewrite (Hcalls i rq Hi).
  - destruct (reach_ids env c0 y Hstart Hy) as (_ & _ & Huniq).
    inversion Hstep as [hm pool i rq Hi Hfin Hready]; subst; simpl in *.
    intros j x Hj.
    destruct (pool_lookup_insert _ _ _ _ _ _ Hi Hj) as [[-> ->] | [Hne Hx]].
    + apply step_custody_own. by apply (IH i).
    + apply step_custody_other; [| by apply (IH j)].
      intros id Hrq Hxid. apply Hne. by apply (Huniq j i x rq id).
Qed.

Lemma custody_enabled (rq : Request) (hm : HostManager) :
  custody rq hm -> enabled rq hm.
Proof. unfold custody, enabled. by destruct (req_stage rq). Qed.

(** Unless every call has finished, some call can take its next action: a
    call that has returned waits only for the Executor, which holds its
    run. *)
Lemma progress (env : Collaborators) (c0 c : Config) :
  starting c0 -> rtc (step env) c0 c ->
  Forall (fun rq => finished rq = true) (calls c) \/ exists c', step env c c'.
Proof.
  intros Hstart Hreach.
  pose proof (reach_custody env c0 c Hstart Hreach) as Hheld.
  destruct c as [hm pool]. simpl in *.
  destruct (decide (Forall (fun rq => finished rq = true) pool)) as [Hall | Hex];
    [by left | right].
  apply not_Forall_Exists in Hex; [| apply _].
  apply Exists_exists in Hex as (rq & Hin & Hnot). simpl in Hnot.
  apply list_elem_of_lookup in Hin as [i Hi].
  eexists. apply (step_request env hm pool i rq Hi).
  - by destruct (finished rq).
  - apply custody_enabled. by apply (Hheld i).
Qed.

(** Running a schedule is an execution. *)
Lemma advance_reach (env : Collaborators) (c : Config) (i : nat) :
  rtc (step env) c (advance env c i).
Proof.
  unfold advance. destruct (calls c !! i) as [rq |] eqn:Hi; [| done].
  destruct (finished rq) eqn:Hfin; [done |].
  destruct (decide (enabled rq (host c))) as [Hready | _]; [| done].
  apply rtc_once. destruct c as [hm pool]. by apply step_request.
Qed.

Lemma run_schedule_reach (env : Collaborators) (schedule : list nat) (c : Config) :
  rtc (step env) c (run_schedule env schedule c).
Proof.
  revert c. induction schedule as [| i rest IH]; intros c; [done |].
  simpl. eapply rtc_trans; [apply advance_reach | apply IH].
Qed.

Lemma three_calls_starting : starting Scenario.three_calls.
Proof.
  split; simpl; try done.
  - by apply map_Forall_singleton.
  - by repeat constructor.
  - compute_done.
Qed.

(** The atomic actions of a call that runs alone compose to runNetwork. *)
Lemma until_return_S (env : Collaborators) (fuel : nat) (rq : Request)
    (hm : HostManager) :
  until_return env (S fuel) rq hm =
    match returned (req_stage rq) with
    | Some _ => (rq, hm)
    | None =>
        until_return env fuel (at_stage rq (request_step env rq hm).1)
          (request_step env rq hm).2
    end.
Proof. reflexivity. Qed.

Lemma until_return_at (env : Collaborators) (fuel : nat) (rq : Request)
    (hm : HostManager) (s : Stage) (hm1 : HostManager) :
  returned (req_stage rq) = None ->
  request_step env rq hm = (s, hm1) ->
  until_return env (S fuel) rq hm = until_return env fuel (at_stage rq s) hm1.
Proof. intros Hr Hs. by rewrite until_return_S, Hr, Hs. Qed.

Lemma until_return_done (env : Collaborators) (fuel : nat) (rq : Request)
    (hm : HostManager) (id : RunIdentifierTy) :
  returned (req_stage rq) = Some id -> until_return env fuel rq hm = (rq, hm).
Proof. intros Hr. destruct fuel; [done |]. by rewrite until_return_S, Hr. Qed.

Lemma runNetwork_as_actions (env : Collaborators) (networkName : string)
    (context : ExecutionContext) (callback : ResultCBTy) (hm : HostManager) :
  returned (req_stage
              (until_return env 7 (fresh networkName context callback) hm).1)
    = Some (runNetwork networkName context callback hm).1 /\
  (until_return env 7 (fresh networkName context callback) hm).2
    = (runNetwork networkName context callback hm).2.
Proof.
  destruct (networks_ hm !! networkName) as [nd |] eqn:Hnd;
    [destruct (bool_decide (maxActiveRequests (config_ hm)
                            <= activeRequestCount_ hm)) eqn:Hfull |];
    repeat (erewrite until_return_at;
            [| reflexivity
             | unfold request_step, retain, enter, schedule; simpl;
               rewrite ?Hnd; simpl; rewrite ?Hfull; simpl; reflexivity]);
    (erewrite until_return_done; [| reflexivity]);
    unfold runNetwork, next_run_id, retain, enter, schedule; simpl;
    rewrite ?Hnd; simpl; rewrite ?Hfull; simpl;
    rewrite ?lookup_insert_eq; done.
Qed.

(** *** The three properties of concurrent runNetwork calls *)

(** C1: in every configuration reached by concurrent runNetwork calls, the
    number of requests past admission and not yet completed is at most
    maxActiveRequests.  The in-flight counter counts exactly the calls
    between line 299 and line 301 or 328, and each refcount exactly the calls
    between line 286 and line 302 or 322, so a refused call leaves neither
    incremented.  A call that reaches line 299 while the maximum is in flight
    takes the refusal path; on that path nothing is handed to the Executor
    and the callback receives RUNTIME_REQUEST_REFUSED, once, when the call
    finishes. *)
Theorem admission_bound (env : Collaborators) (c0 c : Config) :
  starting c0 -> rtc (step env) c0 c ->
  tally (fun rq => in_flight (req_stage rq)) (calls c)
    <= maxActiveRequests (config_ (host c0)) /\
  activeRequestCount_ (host c)
    = tally (fun rq => holds_slot (req_stage rq)) (calls c) /\
  (forall networkName nd,
     networks_ (host c) !! networkName = Some nd ->
     refcount nd = tally (holds_ref networkName) (calls c)) /\
  (forall i rq currentRun,
     calls c !! i = Some rq -> req_stage rq = Retained currentRun ->
     maxActiveRequests (config_ (host c0))
       <= tally (fun rq => in_flight (req_stage rq)) (calls c) ->
     (request_step env rq (host c)).1
       = Over currentRun (activeRequestCount_ (host c))) /\
  (forall i rq currentRun a,
     calls c !! i = Some rq -> refusing (req_stage rq) = Some (currentRun, a) ->
     maxActiveRequests (config_ (host c0)) <= a /\
     runs_for (req_callback rq) (trace_ (host c)) = [] /\
     received (req_callback rq) (trace_ (host c)) =
       if finished rq
       then [(currentRun,
              Failure RUNTIME_REQUEST_REFUSED
                ("The number of allowed requests has been exceeded. " +:+
                 "active requests: " +:+ pretty a +:+
                 " allowed requests: " +:+
                 pretty (maxActiveRequests (config_ (host c0)))))]
       else []).
Proof.
  intros Hstart Hreach.
  destruct (reach_structure env c0 c Hstart Hreach) as (Hcfg & _ & _).
  destruct (reach_slots env c0 c Hstart Hreach) as (Hact & Hfly & Hjust).
  destruct (reach_refs env c0 c Hstart Hreach) as (Href & _).
  pose proof (reach_history env c0 c Hstart Hreach) as Hhist.
  rewrite Hcfg in *.
  split; [done |]. split; [done |]. split; [done |]. split.
  - intros i rq currentRun Hi Hs Hfull.
    rewrite (step_stage_enter env rq (host c) currentRun Hs).
    rewrite Hcfg, bool_decide_eq_true_2; [done |].
    pose proof (tally_mono (fun rq => in_flight (req_stage rq))
                  (fun rq => holds_slot (req_stage rq)) (calls c)
                  (fun rq => in_flight_holds_slot _)).
    lia.
  - intros i rq currentRun a Hi Hs.
    specialize (Hjust i rq Hi). destruct (Hhist i rq Hi) as [Hc Hr].
    rewrite Hc, Hr. unfold expected_calls, finished.
    destruct (req_stage rq) as [| | | | | | | | | | | []]; simpl in *;
      try discriminate; injection Hs as <- <-; done.
Qed.

Lemma admission_bound_witness :
  starting Scenario.three_calls /\
  tally (fun rq => in_flight (req_stage rq)) (calls Scenario.three_calls_midway)
    <= 1 /\
  activeRequestCount_ (host Scenario.three_calls_midway) = 1 /\
  (request_step Scenario.obliging
     {| req_name := "f"; req_context := 1%nat; req_callback := 11%nat;
        req_stage := Retained 1 |}
     (host Scenario.three_calls_midway)).1 = Over 1 1 /\
  received 11%nat (trace_ (host Scenario.three_calls_done))
    = [(1, Failure RUNTIME_REQUEST_REFUSED
             ("The number of allowed requests has been exceeded. " +:+
              "active requests: 1 allowed requests: 1"))] /\
  runs_for 11%nat (trace_ (host Scenario.three_calls_done)) = [].
Proof.
  pose proof (admission_bound Scenario.obliging Scenario.three_calls
                Scenario.three_calls_midway three_calls_starting
                (run_schedule_reach _ _ _)) as (Hfly & Hact & _ & Hfull & _).
  pose proof (admission_bound Scenario.obliging Scenario.three_calls
                Scenario.three_calls_done three_calls_starting
                (run_schedule_reach _ _ _)) as (_ & _ & _ & _ & Hrefused).
  destruct (Hrefused 1%nat
              {| req_name := "f"; req_context := 1%nat; req_callback := 11%nat;
                 req_stage := Finished (Refused 1 1) |} 1 1)
    as (_ & Hruns & Hrecv); [reflexivity | reflexivity |].
  specialize (Hfull 1%nat
                {| req_name := "f"; req_context := 1%nat; req_callback := 11%nat;
                   req_stage := Retained 1 |} 1).
  split; [exact three_calls_starting |].
  split; [exact Hfly |].
  split; [etrans; [exact Hact | reflexivity] |].
  split; [etrans; [apply Hfull; [reflexivity | reflexivity | by vm_compute]
                  | reflexivity] |].
  split; [exact Hrecv | exact Hruns].
Defined.

(** Sequentially: a call that finds the counter at or above the limit
    returns with the counter, the registry (so every refcount) and the
    Executor as they were, after one REFUSED callback. *)
Lemma runNetwork_refused (networkName : string) (context : ExecutionContext)
    (callback : ResultCBTy) (hm : HostManager) (nd : NetworkData) :
  networks_ hm !! networkName = Some nd ->
  0 <= refcount nd < size_t_modulus - 1 ->
  0 <= activeRequestCount_ hm < size_t_modulus - 1 ->
  maxActiveRequests (config_ hm) <= activeRequestCount_ hm ->
  (runNetwork networkName context callback hm).1 = totalRequestCount_ hm /\
  activeRequestCount_ (runNetwork networkName context callback hm).2
    = activeRequestCount_ hm /\
  networks_ (runNetwork networkName context callback hm).2 = networks_ hm /\
  executor_ (runNetwork networkName context callback hm).2 = executor_ hm /\
  received callback (trace_ (runNetwork networkName context callback hm).2)
    = received callback (trace_ hm) ++
      [(totalRequestCount_ hm,
        refused_error (activeRequestCount_ hm) (maxActiveRequests (config_ hm)))].
Proof.
  intros Hnd Hrc Hact Hfull.
  unfold runNetwork, next_run_id, retain, enter. simpl. rewrite Hnd. simpl.
  rewrite bool_decide_eq_true_2 by done. simpl.
  assert (Hback : forall z, 0 <= z < size_t_modulus - 1 -> decr (incr z) = z).
  { intros z Hz. unfold decr, incr. rewrite (ShutdownFacts.wrap_small (z + 1)) by lia.
    rewrite ShutdownFacts.wrap_small by lia. lia. }
  split; [done |]. split; [by apply Hback |]. split.
  - apply map_eq. intros k. rewrite lookup_alter.
    destruct (decide (networkName = k)) as [<- | Hne].
    + rewrite lookup_insert_eq, Hnd. simpl. unfold release_entry, retain_entry.
      simpl. rewrite Hback by done. by destruct nd.
    + by rewrite lookup_insert_ne.
  - split; [done |]. unfold received, calls_to. rewrite omap_app, fmap_app.
    simpl. by rewrite bool_decide_eq_true_2.
Qed.

Lemma expected_calls_short (maxActive : Z) (rq : Request) :
  (length (expected_calls maxActive rq) <= 1)%nat.
Proof.
  unfold expected_calls.
  destruct (req_stage rq) as [| | | | | | | | | | | []]; simpl; lia.
Qed.

Lemma expected_calls_returned (maxActive : Z) (rq : Request)
    (id : RunIdentifierTy) (err : Error) :
  (id, err) ∈ expected_calls maxActive rq ->
  returned (req_stage rq) = Some id.
Proof.
  unfold expected_calls.
  destruct (req_stage rq) as [| | | | | | | | | | | []]; simpl;
    intros Hin; try (by apply elem_of_nil in Hin);
    apply list_elem_of_singleton in Hin; by injection Hin as -> ->.
Qed.

Lemma expected_calls_finished (maxActive : Z) (rq : Request) :
  finished rq = true ->
  exists id err, expected_calls maxActive rq = [(id, err)].
Proof.
  unfold expected_calls, finished.
  destruct (req_stage rq) as [| | | | | | | | | | | []]; simpl;
    try discriminate; intros _; by do 2 eexists.
Qed.

(** The error a completion passes on is the one the Executor produced for
    the run. *)
Lemma reach_result (env : Collaborators) (c0 c : Config) :
  starting c0 -> rtc (step env) c0 c ->
  forall i rq,
    calls c !! i = Some rq ->
    match req_stage rq with
    | Released r err | Notified r err | Finished (Completed r err) =>
        err = run_result env r
    | _ => True
    end.
Proof.
  intros Hstart Hreach. pattern c. revert c Hreach.
  apply rtc_ind_r; [| intros y z Hy Hstep IH].
  - intros i rq Hi. pose proof (start_calls _ Hstart) as Hcalls.
    rewrite Forall_lookup in Hcalls. by rewrite (Hcalls i rq Hi).
  - inversion Hstep as [hm pool i rq Hi Hfin Hready]; subst; simpl in *.
    intros j x Hj.
    destruct (pool_lookup_insert _ _ _ _ _ _ Hi Hj) as [[-> ->] | [_ Hx]];
      [| by apply (IH j)].
    specialize (IH i rq Hi). simpl.
    unfold request_step, retain, schedule.
    destruct (req_stage rq) as [| | | | | | | | r | r e | r e | o]; simpl;
      try done.
    + by destruct (networks_ hm !! req_name rq).
    + by case_bool_decide.
Qed.

Lemma received_one (callback : ResultCBTy) (trace : list Event)
    (id : RunIdentifierTy) (err : Error) :
  received callback trace = [(id, err)] ->
  exists call,
    calls_to callback trace = [call] /\ cb_runID call = id /\ cb_err call = err.
Proof.
  unfold received.
  destruct (calls_to callback trace) as [| call [| call' rest]]; simpl;
    try discriminate.
  intros [= <- <-]. by exists call.
Qed.

Lemma received_none (callback : ResultCBTy) (trace : list Event) :
  received callback trace = [] -> calls_to callback trace = [].
Proof. unfold received. by destruct (calls_to callback trace). Qed.

(** One call of runNetwork, by its return value: either the callback has
    been invoked once more, with the identifier returned, and nothing was
    handed to the Executor; or the callback has not been invoked, one run
    carrying the identifier returned and the callback was handed to the
    Executor, and the completion of that run invokes the callback once, with
    the identifier returned. *)
Lemma runNetwork_notifies_once (env : Collaborators) (networkName : string)
    (context : ExecutionContext) (callback : ResultCBTy) (hm : HostManager) :
  (exists call,
     calls_to callback (trace_ (runNetwork networkName context callback hm).2)
       = calls_to callback (trace_ hm) ++ [call] /\
     cb_runID call = (runNetwork networkName context callback hm).1 /\
     pending (executor_ (runNetwork networkName context callback hm).2)
       = pending (executor_ hm)) \/
  (exists r,
     calls_to callback (trace_ (runNetwork networkName context callback hm).2)
       = calls_to callback (trace_ hm) /\
     pending (executor_ (runNetwork networkName context callback hm).2)
       = pending (executor_ hm) ++ [r] /\
     run_id r = (runNetwork networkName context callback hm).1 /\
     captured_callback (run_cb r) = callback /\
     exists call,
       calls_to callback
         (trace_ (executor_finish env
                    (runNetwork networkName context callback hm).2 r))
         = calls_to callback (trace_ hm) ++ [call] /\
       cb_runID call = (runNetwork networkName context callback hm).1).
Proof.
  unfold runNetwork, next_run_id, retain, enter. simpl.
  destruct (networks_ hm !! networkName) as [nd |] eqn:Hnd; simpl.
  - case_bool_decide; simpl.
    + left. eexists. unfold calls_to. rewrite omap_app. simpl.
      rewrite bool_decide_eq_true_2 by done. done.
    + right. unfold schedule. simpl. rewrite lookup_insert_eq. simpl.
      eexists. unfold calls_to. rewrite omap_app. simpl. rewrite app_nil_r.
      split; [done |]. split; [done |]. split; [done |]. split; [done |].
      eexists. rewrite !omap_app. simpl.
      rewrite bool_decide_eq_true_2 by done. rewrite app_nil_r. done.
  - left. eexists. unfold calls_to. rewrite omap_app. simpl.
    rewrite bool_decide_eq_true_2 by done. done.
Qed.

(** C2: in every execution of concurrent runNetwork calls, the callback of
    each call is invoked at most once at any time and exactly once by the
    time the call has finished, with the run identifier runNetwork returns:
    a call that fails lookup gets RUNTIME_NET_NOT_FOUND and one refused at
    admission gets RUNTIME_REQUEST_REFUSED, neither having been handed to the
    Executor; a forwarded call is handed to the Executor once, the Executor
    holds its run until it invokes the completion and no run with that
    identifier afterwards, and the callback gets what the Executor produced
    for the run.  Every call does finish: as long as one has not, some action
    is enabled (a call that has returned waits only for the Executor, which
    holds its run), and an execution takes at most [work] actions.  The last
    part states the same of one call by the value runNetwork returns. *)
Theorem callback_exactly_once (env : Collaborators) (c0 c : Config) :
  starting c0 -> rtc (step env) c0 c ->
  (forall i rq,
     calls c !! i = Some rq ->
     (length (calls_to (req_callback rq) (trace_ (host c))) <= 1)%nat /\
     (forall call,
        call ∈ calls_to (req_callback rq) (trace_ (host c)) ->
        returned (req_stage rq) = Some (cb_runID call)) /\
     (finished rq = true ->
      exists call,
        calls_to (req_callback rq) (trace_ (host c)) = [call] /\
        returned (req_stage rq) = Some (cb_runID call))) /\
  (forall i rq,
     calls c !! i = Some rq ->
     match req_stage rq with
     | Scheduled r =>
         r ∈ pending (executor_ (host c)) /\
         runs_for (req_callback rq) (trace_ (host c)) = [r] /\
         calls_to (req_callback rq) (trace_ (host c)) = []
     | Released r err =>
         (run_id r ∉ run_id <$> pending (executor_ (host c))) /\
         runs_for (req_callback rq) (trace_ (host c)) = [r] /\
         calls_to (req_callback rq) (trace_ (host c)) = [] /\
         err = run_result env r
     | Notified r err | Finished (Completed r err) =>
         (run_id r ∉ run_id <$> pending (executor_ (host c))) /\
         runs_for (req_callback rq) (trace_ (host c)) = [r] /\
         exists call,
           calls_to (req_callback rq) (trace_ (host c)) = [call] /\
           cb_runID call = run_id r /\
           cb_err call = run_result env r
     | Finished (NotFound currentRun) =>
         runs_for (req_callback rq) (trace_ (host c)) = [] /\
         exists call,
           calls_to (req_callback rq) (trace_ (host c)) = [call] /\
           cb_runID call = currentRun /\
           cb_err call =
             Failure RUNTIME_NET_NOT_FOUND
               ("Function " +:+ req_name rq +:+ " not found")
     | Finished (Refused currentRun a) =>
         runs_for (req_callback rq) (trace_ (host c)) = [] /\
         exists call,
           calls_to (req_callback rq) (trace_ (host c)) = [call] /\
           cb_runID call = currentRun /\
           cb_err call =
             Failure RUNTIME_REQUEST_REFUSED
               ("The number of allowed requests has been exceeded. " +:+
                "active requests: " +:+ pretty a +:+
                " allowed requests: " +:+
                pretty (maxActiveRequests (config_ (host c0))))
     | _ =>
         runs_for (req_callback rq) (trace_ (host c)) = [] /\
         calls_to (req_callback rq) (trace_ (host c)) = []
     end) /\
  (Forall (fun rq => finished rq = true) (calls c) \/ exists c', step env c c') /\
  (forall n c', nsteps (step env) n c c' -> (n <= work (calls c))%nat) /\
  (forall networkName context callback hm,
     (exists call,
        calls_to callback (trace_ (runNetwork networkName context callback hm).2)
          = calls_to callback (trace_ hm) ++ [call] /\
        cb_runID call = (runNetwork networkName context callback hm).1 /\
        pending (executor_ (runNetwork networkName context callback hm).2)
          = pending (executor_ hm)) \/
     (exists r,
        calls_to callback (trace_ (runNetwork networkName context callback hm).2)
          = calls_to callback (trace_ hm) /\
        pending (executor_ (runNetwork networkName context callback hm).2)
          = pending (executor_ hm) ++ [r] /\
        run_id r = (runNetwork networkName context callback hm).1 /\
        captured_callback (run_cb r) = callback /\
        exists call,
          calls_to callback
            (trace_ (executor_finish env
                       (runNetwork networkName context callback hm).2 r))
            = calls_to callback (trace_ hm) ++ [call] /\
          cb_runID call = (runNetwork networkName context callback hm).1)).
Proof.
  intros Hstart Hreach.
  destruct (reach_structure env c0 c Hstart Hreach) as (Hcfg & _ & _).
  split; [| split; [| split; [| split]]].
  - intros i rq Hi.
    destruct (reach_history env c0 c Hstart Hreach i rq Hi) as [Hc _].
    unfold received in Hc.
    assert (Hreturned : forall call,
              call ∈ calls_to (req_callback rq) (trace_ (host c)) ->
              returned (req_stage rq) = Some (cb_runID call)).
    { intros call Hin.
      apply (expected_calls_returned
               (maxActiveRequests (config_ (host c))) rq _ (cb_err call)).
      rewrite <- Hc. apply list_elem_of_fmap. by exists call. }
    split; [| split; [done |]].
    + rewrite <- (length_fmap (fun c => (cb_runID c, cb_err c))), Hc.
      apply expected_calls_short.
    + intros Hfin.
      destruct (expected_calls_finished
                  (maxActiveRequests (config_ (host c))) rq Hfin)
        as (id & err & Hexp).
      rewrite Hexp in Hc.
      destruct (calls_to (req_callback rq) (trace_ (host c)))
        as [| call [| call' rest]] eqn:Hcalls; try discriminate.
      exists call. split; [done |]. apply Hreturned. left.
  - intros i rq Hi.
    destruct (reach_history env c0 c Hstart Hreach i rq Hi) as [Hc Hr].
    pose proof (reach_custody env c0 c Hstart Hreach i rq Hi) as Hheld.
    pose proof (reach_result env c0 c Hstart Hreach i rq Hi) as Hres.
    rewrite Hcfg in Hc. unfold expected_calls in Hc. unfold custody in Hheld.
    destruct (req_stage rq) as [| | | | | | | | r | r e | r e | [id | id a | r e]];
      simpl in *;
      try (split; [done |]; by apply received_none).
    + split; [done |]. split; [done |]. by apply received_none.
    + split; [done |]. split; [done |]. split; [by apply received_none | done].
    + split; [done |]. split; [done |]. subst e. by apply received_one.
    + split; [done |]. by apply received_one.
    + split; [done |]. by apply received_one.
    + split; [done |]. split; [done |]. subst e. by apply received_one.
  - by apply (progress env c0).
  - intros n c' Hn. pose proof (nsteps_work env n c c' Hn). lia.
  - intros networkName context callback hm.
    apply runNetwork_notifies_once.
Qed.

Lemma callback_exactly_once_witness :
  starting Scenario.three_calls /\
  cb_runID <$> calls_to 10%nat (trace_ (host Scenario.three_calls_done)) = [0] /\
  cb_runID <$> calls_to 11%nat (trace_ (host Scenario.three_calls_done)) = [1] /\
  cb_runID <$> calls_to 12%nat (trace_ (host Scenario.three_calls_done)) = [2] /\
  cb_err <$> calls_to 11%nat (trace_ (host Scenario.three_calls_done))
    = [Failure RUNTIME_REQUEST_REFUSED
         ("The number of allowed requests has been exceeded. " +:+
          "active requests: 1 allowed requests: 1")] /\
  cb_err <$> calls_to 12%nat (trace_ (host Scenario.three_calls_done))
    = [Failure RUNTIME_NET_NOT_FOUND "Function zz not found"] /\
  run_id <$> pending (executor_ (host Scenario.three_calls_midway)) = [0] /\
  pending (executor_ (host Scenario.three_calls_done)) = [] /\
  (forall i rq,
     calls Scenario.three_calls_done !! i = Some rq ->
     finished rq = true ->
     exists call,
       calls_to (req_callback rq) (trace_ (host Scenario.three_calls_done))
         = [call] /\
       returned (req_stage rq) = Some (cb_runID call)) /\
  Forall (fun rq => finished rq = true) (calls Scenario.three_calls_done).
Proof.
  pose proof (callback_exactly_once Scenario.obliging Scenario.three_calls
                Scenario.three_calls_done three_calls_starting
                (run_schedule_reach _ _ _)) as (Hall & _ & _).
  split; [exact three_calls_starting |].
  split; [reflexivity |]. split; [reflexivity |]. split; [reflexivity |].
  split; [reflexivity |]. split; [reflexivity |]. split; [reflexivity |].
  split; [reflexivity |]. split.
  - intros i rq Hi Hfin. by apply (Hall i rq Hi).
  - vm_compute. repeat constructor.
Defined.

(** C9: in every execution of concurrent runNetwork calls, no two calls hold
    the same run identifier; the call that executes line 278 next receives
    the current value of the request counter, which is larger than every
    identifier issued before; a call keeps its identifier through every
    later action and returns it; and the counter has advanced once for each
    call that passed line 278, whatever became of the call afterwards.
    ([starting] bounds the number of calls by what the counter can
    count.) *)
Theorem run_identifiers_increase (env : Collaborators) (c0 c : Config) :
  starting c0 -> rtc (step env) c0 c ->
  (forall i j rqi rqj id,
     calls c !! i = Some rqi -> calls c !! j = Some rqj ->
     issued (req_stage rqi) = Some id -> issued (req_stage rqj) = Some id ->
     i = j) /\
  (forall i rq,
     calls c !! i = Some rq -> req_stage rq = Called ->
     issued (request_step env rq (host c)).1
       = Some (totalRequestCount_ (host c)) /\
     forall j rqj id,
       calls c !! j = Some rqj -> issued (req_stage rqj) = Some id ->
       id < totalRequestCount_ (host c)) /\
  (forall i rq id,
     calls c !! i = Some rq -> issued (req_stage rq) = Some id ->
     issued (request_step env rq (host c)).1 = Some id) /\
  (forall i rq,
     calls c !! i = Some rq -> finished rq = true ->
     exists id,
       issued (req_stage rq) = Some id /\ returned (req_stage rq) = Some id) /\
  totalRequestCount_ (host c) =
    totalRequestCount_ (host c0)
    + tally (fun rq => has_id (req_stage rq)) (calls c).
Proof.
  intros Hstart Hreach.
  destruct (reach_ids env c0 c Hstart Hreach) as (Htot & Hrange & Huniq).
  split; [exact Huniq |]. split; [| split; [| split; [| exact Htot]]].
  - intros i rq Hi Hs. split.
    + by rewrite step_issued, Hs.
    + intros j rqj id Hj Hid. by apply (Hrange j rqj id Hj Hid).
  - intros i rq id Hi Hid. rewrite step_issued.
    destruct (req_stage rq); try done.
  - intros i rq Hi Hfin. unfold finished in Hfin.
    destruct (req_stage rq) as [| | | | | | | | | | | []]; try discriminate;
      by eexists.
Qed.

Lemma run_identifiers_increase_witness :
  starting Scenario.three_calls /\
  issued <$> (req_stage <$> calls Scenario.three_calls_done)
    = [Some 0; Some 1; Some 2] /\
  totalRequestCount_ (host Scenario.three_calls_done) = 0 + 3 /\
  (forall i j rqi rqj id,
     calls Scenario.three_calls_done !! i = Some rqi ->
     calls Scenario.three_calls_done !! j = Some rqj ->
     issued (req_stage rqi) = Some id -> issued (req_stage rqj) = Some id ->
     i = j).
Proof.
  pose proof (run_identifiers_increase Scenario.obliging Scenario.three_calls
                Scenario.three_calls_done three_calls_starting
                (run_schedule_reach _ _ _)) as (Huniq & _ & _ & _ & Htot).
  split; [exact three_calls_starting |]. split; [reflexivity |].
  split; [etrans; [exact Htot | reflexivity] | exact Huniq].
Defined.

End ConcurrencyFacts.

(** ** More of Base.h *)

Module QuantizationBaseFacts.
Import Quantization QuantizationFacts QuantizationBase.

(** *** clip *)

(** X1: when every DestTy value is a SrcTy value, clip saturates: an input
    at or above the largest DestTy value gives that value, an input at or
    below the smallest gives the smallest. *)
Theorem clip_saturates (SrcTy DestTy : IntTy) (input : Z) :
  0 < ty_bits SrcTy -> 0 < ty_bits DestTy ->
  range_included SrcTy DestTy ->
  representable SrcTy input ->
  (numeric_limits_max DestTy <= input ->
   clip SrcTy DestTy input = numeric_limits_max DestTy) /\
  (input <= numeric_limits_min DestTy ->
   clip SrcTy DestTy input = numeric_limits_min DestTy).
Proof.
  intros Hs Hd Hinc Hin. pose proof (limits_ordered DestTy Hd).
  rewrite clip_is_clamp by done. split; lia.
Qed.

Lemma clip_saturates_witness :
  (127 <= 1000 -> clip int32_t int8_t 1000 = 127) /\
  (1000 <= -128 -> clip int32_t int8_t 1000 = -128).
Proof.
  apply (clip_saturates int32_t int8_t 1000).
  - reflexivity.
  - reflexivity.
  - vm_compute. split; discriminate.
  - vm_compute. split; discriminate.
Defined.

(** X2: under the same condition clip is monotone: a larger input never
    gives a smaller result. *)
Theorem clip_monotone (SrcTy DestTy : IntTy) (x y : Z) :
  0 < ty_bits SrcTy -> 0 < ty_bits DestTy ->
  range_included SrcTy DestTy ->
  representable SrcTy x -> representable SrcTy y ->
  x <= y -> clip SrcTy DestTy x <= clip SrcTy DestTy y.
Proof.
  intros Hs Hd Hinc Hx Hy Hxy. rewrite !clip_is_clamp by done. lia.
Qed.

Lemma clip_monotone_witness :
  clip int32_t int8_t (-5) <= clip int32_t int8_t 300.
Proof.
  apply (clip_monotone int32_t int8_t (-5) 300).
  - reflexivity.
  - reflexivity.
  - vm_compute. split; discriminate.
  - vm_compute. split; discriminate.
  - vm_compute. split; discriminate.
  - vm_compute. discriminate.
Defined.

(** *** transform *)

Lemma int32_range (z : Z) :
  representable int32_t z <-> - 2147483648 <= z <= 2147483647.
Proof.
  unfold representable, numeric_limits_min, numeric_limits_max, int32_t.
  cbv [ty_signed ty_bits].
  replace (2 ^ (32 - 1)) with 2147483648 by reflexivity. lia.
Qed.

Lemma shiftr_int32 (z n : Z) :
  0 <= n -> representable int32_t z -> representable int32_t (Z.shiftr z n).
Proof.
  intros Hn Hz. rewrite int32_range in *. rewrite Z.shiftr_div_pow2 by done.
  assert (0 < 2 ^ n) by (apply Z.pow_pos_nonneg; lia).
  pose proof (Z.div_mod z (2 ^ n)). pose proof (Z.mod_pos_bound z (2 ^ n)).
  nia.
Qed.

(** X3: when no intermediate value overflows an [int] and [post] is between
    1 and 31, transform scales [input >> pre] by [scale / 2^post], rounded
    to the nearest integer (halves rounded up), and adds [offset]. *)
Theorem transform_rounds_to_nearest (t : QuantizationTransform32To8)
    (input : Z) :
  0 <= pre t <= 31 -> 1 <= post t <= 31 ->
  representable int32_t input ->
  representable int32_t (Z.shiftr input (pre t) * scale t) ->
  representable int32_t (Z.shiftr input (pre t) * scale t + 2 ^ (post t - 1)) ->
  representable int32_t
    (Z.shiftr (Z.shiftr input (pre t) * scale t + 2 ^ (post t - 1)) (post t)
     + offset t) ->
  transform t input =
    (input / 2 ^ pre t * scale t + 2 ^ (post t - 1)) / 2 ^ post t + offset t /\
  - 2 ^ (post t - 1)
    < 2 ^ post t * (transform t input - offset t) - input / 2 ^ pre t * scale t
    <= 2 ^ (post t - 1).
Proof.
  intros [Hpre _] Hpost Hin Hscaled Hrounded Hres.
  assert (Hhalf : 2 ^ post t = 2 * 2 ^ (post t - 1)).
  { replace (post t) with (Z.succ (post t - 1)) at 1 by lia.
    rewrite Z.pow_succ_r by lia. reflexivity. }
  assert (Hpos : 0 < 2 ^ (post t - 1)) by (apply Z.pow_pos_nonneg; lia).
  assert (Hrtn : representable int32_t (2 ^ (post t - 1))).
  { rewrite int32_range.
    assert (2 ^ (post t - 1) <= 2 ^ 30) by (apply Z.pow_le_mono_r; lia).
    lia. }
  assert (Heq : transform t input =
                Z.shiftr (Z.shiftr input (pre t) * scale t + 2 ^ (post t - 1))
                  (post t) + offset t).
  { unfold transform.
    rewrite (convert_id int32_t (post t - 1))
      by (by rewrite ?int32_range; simpl; lia).
    rewrite Z.shiftl_mul_pow2, Z.mul_1_l by lia.
    rewrite (convert_id int32_t (2 ^ (post t - 1))) by done.
    rewrite (convert_id int32_t (Z.shiftr input (pre t)))
      by (by try apply shiftr_int32).
    rewrite (convert_id int32_t (Z.shiftr input (pre t) * scale t)) by done.
    rewrite (convert_id int32_t (_ + 2 ^ (post t - 1))) by done.
    rewrite (convert_id int32_t (Z.shiftr _ (post t)))
      by (by try (apply shiftr_int32; [lia | done])).
    by rewrite convert_id. }
  rewrite Heq, !Z.shiftr_div_pow2 by lia. split; [done |].
  set (v := input / 2 ^ pre t * scale t) in *.
  pose proof (Z.div_mod (v + 2 ^ (post t - 1)) (2 ^ post t)).
  pose proof (Z.mod_pos_bound (v + 2 ^ (post t - 1)) (2 ^ post t)).
  lia.
Qed.

Lemma transform_rounds_to_nearest_witness :
  transform {| pre := 2; post := 4; scale := 3; offset := -7 |} 1000 = 40 /\
  - 2 ^ (4 - 1)
    < 2 ^ 4 * (transform {| pre := 2; post := 4; scale := 3; offset := -7 |} 1000
               - -7) - 1000 / 2 ^ 2 * 3
    <= 2 ^ (4 - 1).
Proof.
  apply (transform_rounds_to_nearest
           {| pre := 2; post := 4; scale := 3; offset := -7 |} 1000).
  - simpl. lia.
  - simpl. lia.
  - vm_compute. split; discriminate.
  - vm_compute. split; discriminate.
  - vm_compute. split; discriminate.
  - vm_compute. split; discriminate.
Defined.

(** *** Node output names *)

Lemma pretty_N_go_colon_free (x : N) (s : string) :
  colon_free s -> colon_free (pretty_N_go x s).
Proof.
  revert s. induction (N.lt_wf_0 x) as [x _ IH]; intros s Hs.
  destruct (decide (x = 0)%N) as [-> | Hx]; [by rewrite pretty_N_go_0 |].
  rewrite pretty_N_go_step by lia.
  apply IH; [apply N.div_lt; lia |].
  split; [| done]. unfold pretty_N_char. by repeat case_match.
Qed.

Lemma to_string_colon_free (n : N) : colon_free (to_string n).
Proof.
  unfold to_string, pretty, pretty_N.
  case_decide; [by repeat split | by apply pretty_N_go_colon_free].
Qed.

Lemma colon_free_no_separator (s1 s2 : string) :
  ~ colon_free (s1 +:+ ":" +:+ s2).
Proof.
  induction s1 as [| a s1 IH]; simpl; intros [Ha Hs]; [done | by apply IH].
Qed.

Lemma append_empty (s : string) : "" +:+ s = s.
Proof. reflexivity. Qed.

Lemma append_String (a : ascii) (s1 s2 : string) :
  String a s1 +:+ s2 = String a (s1 +:+ s2).
Proof. reflexivity. Qed.

Lemma separator_splits (n1 n2 d1 d2 : string) :
  colon_free d1 -> colon_free d2 ->
  n1 +:+ ":" +:+ d1 = n2 +:+ ":" +:+ d2 -> n1 = n2 /\ d1 = d2.
Proof.
  intros Hd1 Hd2. revert n2.
  induction n1 as [| a n1 IH]; intros [| b n2];
    repeat (rewrite append_String || rewrite append_empty); intros Heq.
  - by simplify_eq.
  - injection Heq as <- ->. by destruct (colon_free_no_separator n2 d2).
  - injection Heq as -> <-. by destruct (colon_free_no_separator n1 d1).
  - injection Heq as -> Heq. destruct (IH n2 Heq) as [-> ->]. done.
Qed.

(** X4: generateNodeOutputName is injective: two node outputs get the same
    output name only if they have the same node name and the same output
    number, even when node names themselves contain [":"]. *)
Theorem generateNodeOutputName_injective (name1 name2 : string)
    (number1 number2 : N) :
  generateNodeOutputName name1 number1 = generateNodeOutputName name2 number2 ->
  name1 = name2 /\ number1 = number2.
Proof.
  unfold generateNodeOutputName. intros Heq.
  destruct (separator_splits name1 name2 (to_string number1) (to_string number2)
              (to_string_colon_free _) (to_string_colon_free _) Heq)
    as [-> Hnum].
  split; [done |]. by apply pretty_N_inj.
Qed.

Lemma generateNodeOutputName_injective_witness :
  generateNodeOutputName "conv:1" 2 = "conv:1:2" /\
  ("conv:1" = "conv:1" /\ 2%N = 2%N).
Proof.
  split; [reflexivity |].
  apply (generateNodeOutputName_injective "conv:1" "conv:1" 2 2). reflexivity.
Defined.

(** X5: two NodeNameAndKind values compare equal exactly when they were made
    from the same node name and from result numbers that agree modulo 2^32
    (the result number is narrowed from size_t to unsigned), whatever their
    kinds; for result numbers below 2^32 that is: the same result number.
    [operator<] orders the others: of [x < y], [x == y] and [y < x] exactly
    one holds. *)
Theorem NodeNameAndKind_order (name1 name2 : string) (resNo1 resNo2 : N)
    (k1 k2 : nat) :
  let x := NodeNameAndKind_make name1 resNo1 k1 in
  let y := NodeNameAndKind_make name2 resNo2 k2 in
  (NodeNameAndKind_eq x y = true <->
   name1 = name2 /\ (resNo1 mod 2 ^ 32 = resNo2 mod 2 ^ 32)%N) /\
  ((resNo1 < 2 ^ 32)%N -> (resNo2 < 2 ^ 32)%N ->
   (NodeNameAndKind_eq x y = true <-> name1 = name2 /\ resNo1 = resNo2)) /\
  (NodeNameAndKind_lt x y = true ->
   NodeNameAndKind_eq x y = false /\ NodeNameAndKind_lt y x = false) /\
  (NodeNameAndKind_eq x y = false ->
   NodeNameAndKind_lt x y = true \/ NodeNameAndKind_lt y x = true).
Proof.
  intros x y. unfold NodeNameAndKind_eq, NodeNameAndKind_lt, String.ltb.
  subst x y. simpl.
  assert (Heq : generateNodeOutputName name1 (to_unsigned resNo1)
                  = generateNodeOutputName name2 (to_unsigned resNo2)
                <-> name1 = name2 /\ (resNo1 mod 2 ^ 32 = resNo2 mod 2 ^ 32)%N).
  { split.
    - apply generateNodeOutputName_injective.
    - unfold to_unsigned. by intros [-> ->]. }
  split; [by rewrite String.eqb_eq |].
  split.
  { intros H1 H2. rewrite String.eqb_eq, Heq.
    by rewrite !N.mod_small by done. }
  clear Heq.
  generalize (generateNodeOutputName name1 (to_unsigned resNo1)) as a.
  generalize (generateNodeOutputName name2 (to_unsigned resNo2)) as b.
  intros b a.
  pose proof (String.compare_antisym b a) as Hanti.
  split.
  - destruct (String.compare a b) eqn:Hab; try discriminate. intros _.
    rewrite Hanti. simpl. split; [| done].
    apply String.eqb_neq. intros Heq. subst a.
    pose proof (String.compare_antisym b b) as Hbb.
    rewrite Hab in Hbb. discriminate.
  - rewrite String.eqb_neq. intros Hne.
    destruct (String.compare a b) eqn:Hab.
    + by apply String.compare_eq_iff in Hab.
    + by left.
    + right. rewrite Hanti. done.
Qed.

Lemma NodeNameAndKind_order_witness :
  NodeNameAndKind_eq (NodeNameAndKind_make "fc" 0 3) (NodeNameAndKind_make "fc" 0 9)
    = true /\
  NodeNameAndKind_eq (NodeNameAndKind_make "fc" (2 ^ 32) 3)
    (NodeNameAndKind_make "fc" 0 3) = true /\
  NodeNameAndKind_lt (NodeNameAndKind_make "fc" 0 3) (NodeNameAndKind_make "fc" 1 3)
    = true /\
  NodeNameAndKind_eq (NodeNameAndKind_make "fc" 0 3) (NodeNameAndKind_make "fc" 1 3)
    = false.
Proof.
  split.
  - apply (proj2 (proj1 (proj2 (NodeNameAndKind_order "fc" "fc" 0 0 3 9))
                    eq_refl eq_refl)).
    done.
  - split.
    + apply (proj2 (proj1 (NodeNameAndKind_order "fc" "fc" (2 ^ 32) 0 3 3))).
      split; reflexivity.
    + split; [reflexivity |].
      apply (proj1 (proj1 (proj2 (proj2
               (NodeNameAndKind_order "fc" "fc" 0 1 3 3))) eq_refl)).
Defined.

(** *** Storage of codes *)

Lemma uint8_code (d : Z) : 0 <= d <= 255 -> convert uint8_t d = d.
Proof.
  intros Hd. apply convert_id; [done |].
  unfold representable, numeric_limits_min, numeric_limits_max, uint8_t.
  cbv [ty_signed ty_bits]. change (2 ^ 8) with 256. lia.
Qed.

(** X6: for a storage type of at least 8 bits, the code [d] that
    dequantizeWithFloatOffset recovers from a stored value is the code
    quantizeWithFloatOffset computed for it; with int8_t storage the stored
    value is the code minus 128. *)
Theorem float_offset_code_roundtrip (T : IntTy) (d0 : Z) :
  8 <= ty_bits T -> 0 <= d0 <= 255 ->
  dequantizeWithFloatOffset T (quantizeWithFloatOffset T d0) = d0 /\
  representable T (quantizeWithFloatOffset T d0) /\
  (is_int8 T = true -> quantizeWithFloatOffset T d0 = d0 - 128).
Proof.
  intros Hbits Hd.
  assert (Hrep : representable T (quantizeWithFloatOffset T d0)).
  { unfold quantizeWithFloatOffset. apply convert_representable. lia. }
  unfold dequantizeWithFloatOffset, quantizeWithFloatOffset in *.
  rewrite (uint8_code d0) in * by done.
  destruct (is_int8 T) eqn:Hint8.
  - apply andb_true_iff in Hint8 as [Hb Hsg]. apply Z.eqb_eq in Hb.
    assert (Hstored : convert T (convert uint8_t (d0 - 128)) = d0 - 128).
    { unfold convert. rewrite Hsg, Hb. simpl.
      change (2 ^ 8) with 256. change (2 ^ 7) with 128.
      Z.div_mod_to_equations. lia. }
    rewrite Hstored in *. split; [| done].
    unfold convert. simpl. change (2 ^ 8) with 256.
    Z.div_mod_to_equations. lia.
  - split; [| split; [done | discriminate]].
    assert (Hfit : representable T d0).
    { unfold representable, numeric_limits_min, numeric_limits_max.
      apply andb_false_iff in Hint8.
      assert (2 ^ 8 <= 2 ^ ty_bits T) by (apply Z.pow_le_mono_r; lia).
      change (2 ^ 8) with 256 in *.
      destruct (ty_signed T) eqn:Hsg; [| lia].
      destruct Hint8 as [Hb | Hb]; [| discriminate].
      apply Z.eqb_neq in Hb.
      assert (2 ^ 8 <= 2 ^ (ty_bits T - 1)) by (apply Z.pow_le_mono_r; lia).
      change (2 ^ 8) with 256 in *. lia. }
    rewrite (convert_id T d0) by (by try lia). by apply uint8_code.
Qed.

Lemma float_offset_code_roundtrip_witness :
  dequantizeWithFloatOffset int8_t (quantizeWithFloatOffset int8_t 200) = 200 /\
  representable int8_t (quantizeWithFloatOffset int8_t 200) /\
  (is_int8 int8_t = true -> quantizeWithFloatOffset int8_t 200 = 200 - 128).
Proof.
  apply (float_offset_code_roundtrip int8_t 200).
  - vm_compute. discriminate.
  - lia.
Defined.

End QuantizationBaseFacts.

(** ** More of HostManager.cpp: single operations *)

Module LifecycleFacts.
Import Runtime Lifecycle.

(** *** removeNetwork *)

Lemma first_error_app (held : OneErrOnly) (errs1 errs2 : list Error) :
  foldl OneErrOnly_set held (errs1 ++ errs2)
    = foldl OneErrOnly_set (foldl OneErrOnly_set held errs1) errs2.
Proof. apply foldl_app. Qed.

Lemma evict_nodes_fold (env : Collaborators) (nodeList : list DAGNode)
    (acc : OneErrOnly * list Event) :
  foldl (evict_node env) acc nodeList =
    (foldl OneErrOnly_set acc.1
       ((fun '(device, function) => dev_evictNetwork env device function) <$>
        (nodeList ≫=
           (fun node => (fun device => (device, name node)) <$> deviceIDs node))),
     acc.2 ++
     (nodeList ≫=
        (fun node =>
           ((fun device => EvEvictNetwork device (name node)) <$> deviceIDs node)
           ++ [EvRemoveFunction (name node)]))).
Proof.
  revert acc. induction nodeList as [| node rest IH]; intros [e evs].
  - simpl. by rewrite app_nil_r.
  - simpl. unfold evict_node at 2.
    rewrite ShutdownFacts.evict_from_fold. simpl. rewrite IH. simpl.
    rewrite fmap_app, first_error_app, <- list_fmap_compose.
    by rewrite <- !app_assoc.
Qed.

(** X7: removing a registered network with refcount 0 always erases it and
    nothing else, whatever the devices answer: every device of every node is
    asked to evict, each node is then dropped from the Provisioner, and the
    error returned is the first eviction error (success if there is none). *)
Theorem removeNetwork_idle_erases (env : Collaborators) (networkName : string)
    (hm : HostManager) (networkData : NetworkData) :
  networks_ hm !! networkName = Some networkData ->
  refcount networkData = 0 ->
  (removeNetwork env networkName hm).1 =
    first_error
      ((fun '(device, function) => dev_evictNetwork env device function) <$>
       eviction_requests (dag networkData)) /\
  networks_ (removeNetwork env networkName hm).2
    = delete networkName (networks_ hm) /\
  networkAdded networkName (removeNetwork env networkName hm).2 = false /\
  (forall other, other <> networkName ->
     networks_ (removeNetwork env networkName hm).2 !! other
       = networks_ hm !! other) /\
  trace_ (removeNetwork env networkName hm).2
    = trace_ hm ++ removal_calls (dag networkData).
Proof.
  intros Hfound Hidle. unfold removeNetwork. rewrite Hfound.
  rewrite bool_decide_eq_false_2 by (intros Hne; by apply Hne).
  rewrite evict_nodes_fold. simpl.
  split; [done |]. split; [done |]. split.
  - unfold networkAdded. simpl. rewrite lookup_delete_eq.
    apply bool_decide_eq_false_2. by intros [? ?].
  - split; [| done]. intros other Hne. by rewrite lookup_delete_ne.
Qed.

Lemma removeNetwork_idle_erases_witness :
  (removeNetwork Scenario.failing_eviction "g" Scenario.host_fg).1
    = Failure (OTHER_CODE 2) "device lost" /\
  networkAdded "g" (removeNetwork Scenario.failing_eviction "g" Scenario.host_fg).2
    = false /\
  networkAdded "f" (removeNetwork Scenario.failing_eviction "g" Scenario.host_fg).2
    = true.
Proof.
  destruct (removeNetwork_idle_erases Scenario.failing_eviction "g"
              Scenario.host_fg (Scenario.entry "g" 0))
    as (Herr & _ & Hgone & _ & _); [reflexivity | reflexivity |].
  split; [etrans; [exact Herr | reflexivity] |].
  split; [exact Hgone | reflexivity].
Defined.

(** *** addNetwork *)

Lemma install_other (sharedModule : GlowModule)
    (networks : gmap string NetworkData) (node : DAG) (networkName : string) :
  networkName <> root_name node ->
  install sharedModule networks node !! networkName = networks !! networkName.
Proof. intros Hne. unfold install. by rewrite lookup_insert_ne. Qed.

Lemma install_all_other (sharedModule : GlowModule) (nodeList : list DAG)
    (networks : gmap string NetworkData) (networkName : string) :
  networkName ∉ root_name <$> nodeList ->
  foldl (install sharedModule) networks nodeList !! networkName
    = networks !! networkName.
Proof.
  revert networks. induction nodeList as [| node rest IH]; intros networks Hnot;
    [done |].
  simpl in *. apply not_elem_of_cons in Hnot as [Hne Hrest].
  rewrite IH by done. by apply install_other.
Qed.

Lemma install_all_lookup (sharedModule : GlowModule) (nodeList : list DAG)
    (networks : gmap string NetworkData) (node : DAG) :
  NoDup (root_name <$> nodeList) -> node ∈ nodeList ->
  foldl (install sharedModule) networks nodeList !! root_name node =
    Some {| dag := node; module := Some sharedModule;
            refcount :=
              refcount (default NetworkData_default (networks !! root_name node)) |}.
Proof.
  revert networks. induction nodeList as [| first rest IH];
    intros networks Hnodup Hin; [by apply elem_of_nil in Hin |].
  simpl in *. apply NoDup_cons in Hnodup as [Hfresh Hnodup].
  apply elem_of_cons in Hin as [-> | Hin].
  - rewrite install_all_other by done. unfold install.
    by rewrite lookup_insert_eq.
  - rewrite IH by done. rewrite install_other; [done |].
    intros Heq. apply Hfresh. rewrite <- Heq.
    apply list_elem_of_fmap. by exists node.
Qed.

(** X8: when addNetwork succeeds, every DAG the Partitioner produced is
    registered under its root name (the roots being pairwise distinct) with
    the stripped module; a name that already had an entry keeps its refcount
    and a new entry starts at refcount 0; every entry under another name is
    exactly as before; and no function name of the module was registered
    before the call. *)
Theorem addNetwork_registers (env : Collaborators) (module : GlowModule)
    (cctx cctx1 : CompilationContext) (saturateHost : bool)
    (hm hm1 : HostManager) (nodeList : DAGListTy) :
  addNetwork_prepare env module cctx saturateHost hm = Ready nodeList cctx1 hm1 ->
  provision env (provisioner_ hm1) nodeList module cctx1 = Success ->
  NoDup (root_name <$> nodeList) ->
  (addNetwork env module cctx saturateHost hm).1 = Success /\
  (forall node, node ∈ nodeList ->
     getNetworkDAG (root_name node) (addNetwork env module cctx saturateHost hm).2
       = Value node /\
     networkAdded (root_name node) (addNetwork env module cctx saturateHost hm).2
       = true /\
     exists nd,
       networks_ (addNetwork env module cctx saturateHost hm).2 !! root_name node
         = Some nd /\
       Runtime.module nd = Some (strip module) /\
       refcount nd =
         match networks_ hm !! root_name node with
         | Some old => refcount old
         | None => 0
         end) /\
  (forall networkName, networkName ∉ root_name <$> nodeList ->
     networks_ (addNetwork env module cctx saturateHost hm).2 !! networkName
       = networks_ hm !! networkName) /\
  Forall (fun F => networks_ hm !! getName F = None) (getFunctions module).
Proof.
  intros Hprep Hprov Hnodup.
  pose proof (RegistryFacts.addNetwork_prepare_networks env module cctx
                saturateHost hm) as Hnet.
  rewrite Hprep in Hnet.
  unfold addNetwork. rewrite Hprep. unfold addNetwork_commit. rewrite Hprov.
  simpl. rewrite Hnet.
  split; [done |]. split; [| split].
  - intros node Hin.
    pose proof (install_all_lookup (strip module) nodeList (networks_ hm) node
                  Hnodup Hin) as Hl.
    unfold getNetworkDAG, networkAdded. simpl. rewrite Hnet, Hl. simpl.
    split; [done |]. split; [done |].
    eexists. split; [done |]. split; [done |]. simpl.
    by destruct (networks_ hm !! root_name node).
  - intros networkName Hnot. by apply install_all_other.
  - apply RegistryFacts.first_registered_None.
    unfold addNetwork_prepare in Hprep.
    by destruct (first_registered (getFunctions module) (networks_ hm)).
Qed.

Lemma addNetwork_registers_witness :
  (addNetwork Scenario.obliging (Scenario.module_of ["g"; "h"]) Scenario.plain
     false Scenario.host_f_busy).1 = Success /\
  getNetworkDAG "h"
    (addNetwork Scenario.obliging (Scenario.module_of ["g"; "h"]) Scenario.plain
       false Scenario.host_f_busy).2 = Value (Scenario.dag_of "h") /\
  networks_ (addNetwork Scenario.obliging (Scenario.module_of ["g"; "h"])
               Scenario.plain false Scenario.host_f_busy).2 !! "f"
    = networks_ Scenario.host_f_busy !! "f".
Proof.
  destruct (addNetwork_registers Scenario.obliging
              (Scenario.module_of ["g"; "h"]) Scenario.plain Scenario.plain false
              Scenario.host_f_busy Scenario.host_f_busy
              [Scenario.dag_of "g"; Scenario.dag_of "h"])
    as (Hok & Hnew & Hold & _); [reflexivity | reflexivity | compute_done |].
  split; [exact Hok |]. split.
  - apply (Hnew (Scenario.dag_of "h")). right. left.
  - apply (Hold "f"). compute_done.
Defined.

(** X9: whenever addNetwork returns an error, whichever step produced it
    (name collision, optimization, partitioning, the profiling precondition,
    a device init, provisioning), the registry is the one it started from:
    lookups and membership answer as before. *)
Theorem addNetwork_failure_keeps_registry (env : Collaborators)
    (module : GlowModule) (cctx : CompilationContext) (saturateHost : bool)
    (hm : HostManager) :
  is_success (addNetwork env module cctx saturateHost hm).1 = false ->
  networks_ (addNetwork env module cctx saturateHost hm).2 = networks_ hm /\
  forall networkName,
    networkAdded networkName (addNetwork env module cctx saturateHost hm).2
      = networkAdded networkName hm /\
    getNetworkDAG networkName (addNetwork env module cctx saturateHost hm).2
      = getNetworkDAG networkName hm.
Proof.
  intros Hfail.
  pose proof (RegistryFacts.addNetwork_failure_networks env module cctx
                saturateHost hm Hfail) as Hnet.
  split; [done |]. intros networkName.
  unfold networkAdded, getNetworkDAG. by rewrite Hnet.
Qed.

Lemma addNetwork_failure_keeps_registry_witness :
  networks_ (addNetwork Scenario.failing_provision (Scenario.module_of ["g"])
               Scenario.plain true Scenario.host_fg).2
    = networks_ Scenario.host_fg /\
  forall networkName,
    networkAdded networkName
      (addNetwork Scenario.failing_provision (Scenario.module_of ["g"])
         Scenario.plain true Scenario.host_fg).2
      = networkAdded networkName Scenario.host_fg /\
    getNetworkDAG networkName
      (addNetwork Scenario.failing_provision (Scenario.module_of ["g"])
         Scenario.plain true Scenario.host_fg).2
      = getNetworkDAG networkName Scenario.host_fg.
Proof.
  apply (addNetwork_failure_keeps_registry Scenario.failing_provision
           (Scenario.module_of ["g"]) Scenario.plain true Scenario.host_fg).
  reflexivity.
Defined.

(** *** Profiling mode *)

(** X10: in profiling mode addNetwork never succeeds on a registry that
    already holds a network, and it then returns the HostManager untouched:
    no device is replaced and the Provisioner and Executor are kept. *)
Theorem profiling_needs_empty_registry (env : Collaborators)
    (module : GlowModule) (cctx : CompilationContext) (saturateHost : bool)
    (hm : HostManager) :
  quantMode cctx = Profile ->
  size (networks_ hm) <> 0%nat ->
  is_success (addNetwork env module cctx saturateHost hm).1 = false /\
  (addNetwork env module cctx saturateHost hm).2 = hm.
Proof.
  intros Hmode Hsize. unfold addNetwork, addNetwork_prepare.
  destruct (first_registered _ _); [done |].
  destruct (optimize_all _ _ _); [| done].
  destruct (partition _ _ _ _ _); [| done].
  unfold enter_profiling.
  assert (Hq : quantMode (load_backend_options env cctx) = Profile).
  { unfold load_backend_options. by case_bool_decide. }
  rewrite Hq, bool_decide_eq_false_2 by done. done.
Qed.

Lemma profiling_needs_empty_registry_witness :
  is_success (addNetwork Scenario.obliging (Scenario.module_of ["g"])
                Samples.profiling false Scenario.host_f).1 = false /\
  (addNetwork Scenario.obliging (Scenario.module_of ["g"]) Samples.profiling
     false Scenario.host_f).2 = Scenario.host_f.
Proof.
  apply (profiling_needs_empty_registry Scenario.obliging
           (Scenario.module_of ["g"]) Samples.profiling false Scenario.host_f).
  - reflexivity.
  - by vm_compute.
Defined.

Lemma recreate_devices_ok (env : Collaborators) (todo i : nat)
    (hm hm1 : HostManager) :
  (i + todo = length (devices_ hm))%nat ->
  recreate_devices env i todo hm = (Success, hm1) ->
  devices_ hm1 =
    take i (devices_ hm) ++ (profiling_device env <$> drop i (devices_ hm)) /\
  config_ hm1 = config_ hm.
Proof.
  revert i hm. induction todo as [| k IH]; intros i hm Hlen; simpl.
  - intros [= <-]. rewrite drop_ge, take_ge by lia.
    by rewrite app_nil_r.
  - destruct (devices_ hm !! i) as [d |] eqn:Hd;
      [| apply lookup_ge_None in Hd; lia].
    destruct (dev_init env i _); [| done]. intros Hrec.
    apply IH in Hrec; [| simpl; rewrite length_insert; lia].
    simpl in Hrec. destruct Hrec as [-> ->]. split; [| done].
    rewrite (take_S_r _ _ _ (list_lookup_insert_eq _ _ _ (lookup_lt_Some _ _ _ Hd))).
    rewrite take_insert_ge by lia.
    rewrite drop_insert_lt by lia.
    rewrite (drop_S _ _ _ Hd). simpl. by rewrite <- app_assoc.
Qed.

(** X11: in profiling mode, when addNetwork gets as far as provisioning, the
    registry was empty and every device has been replaced, in place, by a
    device of the profiling backend bearing the same name; the Provisioner is
    rebuilt on those devices and the Executor is a new one with nothing
    pending. *)
Theorem profiling_replaces_devices (env : Collaborators) (module : GlowModule)
    (cctx cctx1 : CompilationContext) (saturateHost : bool)
    (hm hm1 : HostManager) (nodeList : DAGListTy) :
  quantMode cctx = Profile ->
  addNetwork_prepare env module cctx saturateHost hm = Ready nodeList cctx1 hm1 ->
  networks_ hm = ∅ /\
  devices_ hm1 = profiling_device env <$> devices_ hm /\
  prov_devices (provisioner_ hm1) = devices_ hm1 /\
  pending (executor_ hm1) = [] /\
  exec_threads (executor_ hm1) = executorThreads (config_ hm).
Proof.
  intros Hmode. unfold addNetwork_prepare.
  destruct (first_registered _ _); [done |].
  destruct (optimize_all _ _ _); [| done].
  destruct (partition _ _ _ _ _); [| done].
  unfold enter_profiling.
  assert (Hq : quantMode (load_backend_options env cctx) = Profile).
  { unfold load_backend_options. by case_bool_decide. }
  rewrite Hq. case_bool_decide as Hsize; [| done].
  destruct (recreate_devices env 0 (length (devices_ hm)) hm) as [[| c m] hm2]
    eqn:Hrec; [| done].
  intros [= _ _ <-]. simpl.
  destruct (recreate_devices_ok env _ 0 hm hm2 eq_refl Hrec) as [Hdev Hcfg].
  rewrite Hdev, Hcfg. simpl. rewrite drop_0.
  split; [by apply map_size_empty_iff | done].
Qed.

Lemma profiling_replaces_devices_witness :
  networks_ Samples.empty_host = ∅ /\
  devices_ (with_executor
              {| exec_threads := 3; pending := []; shuttingDown := false |}
              (with_provisioner
                 {| prov_devices :=
                      profiling_device Scenario.obliging
                        <$> devices_ Samples.empty_host |}
                 (emit [EvDeviceInit 0 {| backendName := "Interpreter";
                                          configName := "left" |};
                        EvDeviceInit 1 {| backendName := "Interpreter";
                                          configName := "right" |}]
                    (with_devices
                       (profiling_device Scenario.obliging
                          <$> devices_ Samples.empty_host)
                       Samples.empty_host))))
    = profiling_device Scenario.obliging <$> devices_ Samples.empty_host.
Proof.
  destruct (profiling_replaces_devices Scenario.obliging
              (Scenario.module_of ["g"]) Samples.profiling Samples.profiling
              false Samples.empty_host
              (with_executor
                 {| exec_threads := 3; pending := []; shuttingDown := false |}
                 (with_provisioner
                    {| prov_devices :=
                         profiling_device Scenario.obliging
                           <$> devices_ Samples.empty_host |}
                    (emit [EvDeviceInit 0 {| backendName := "Interpreter";
                                             configName := "left" |};
                           EvDeviceInit 1 {| backendName := "Interpreter";
                                             configName := "right" |}]
                       (with_devices
                          (profiling_device Scenario.obliging
                             <$> devices_ Samples.empty_host)
                          Samples.empty_host))))
              [Scenario.dag_of "g"])
    as (Hempty & Hdev & _); [reflexivity | reflexivity |].
  split; [exact Hempty | exact Hdev].
Defined.

(** *** Initialisation *)

Lemma init_devices_networks (env : Collaborators) (hasName : DeviceConfig -> bool)
    (configs : list DeviceConfig) (deviceCount : nat) (hm : HostManager) :
  networks_ (init_devices env hasName deviceCount configs hm).2 = networks_ hm /\
  provisioner_ (init_devices env hasName deviceCount configs hm).2 = provisioner_ hm /\
  executor_ (init_devices env hasName deviceCount configs hm).2 = executor_ hm /\
  config_ (init_devices env hasName deviceCount configs hm).2 = config_ hm.
Proof.
  revert deviceCount hm.
  induction configs as [| config rest IH]; intros deviceCount hm; simpl; [done |].
  destruct (dev_init env deviceCount _); [| done].
  destruct (IH (S deviceCount)
              (emit [EvDeviceInit deviceCount (name_config hasName deviceCount config)]
                 (with_devices
                    (assign_device deviceCount
                       {| getDeviceConfig := name_config hasName deviceCount config |}
                       (devices_ hm)) hm)))
    as (-> & -> & -> & ->).
  done.
Qed.

Lemma init_devices_ok (env : Collaborators) (hasName : DeviceConfig -> bool)
    (configs : list DeviceConfig) (deviceCount : nat) (hm hm1 : HostManager) :
  deviceCount = length (devices_ hm) ->
  init_devices env hasName deviceCount configs hm = (Success, hm1) ->
  devices_ hm1 =
    devices_ hm ++
    imap (fun k config =>
            {| getDeviceConfig := name_config hasName (deviceCount + k) config |})
         configs.
Proof.
  revert deviceCount hm.
  induction configs as [| config rest IH]; intros deviceCount hm Hcount; simpl.
  - intros [= <-]. by rewrite app_nil_r.
  - destruct (dev_init env deviceCount _); [| done]. intros Hrest.
    apply IH in Hrest.
    + rewrite Hrest. simpl. unfold assign_device.
      rewrite decide_False by lia. rewrite <- app_assoc. simpl.
      rewrite Nat.add_0_r. do 2 f_equal.
      apply imap_ext. intros k c _. simpl. do 2 f_equal. lia.
    + simpl. unfold assign_device. rewrite decide_False by lia.
      rewrite length_app. simpl. lia.
Qed.

Lemma init_devices_failure (env : Collaborators) (hasName : DeviceConfig -> bool)
    (configs : list DeviceConfig) (deviceCount : nat) (hm hm1 : HostManager)
    (c : ErrorCode) (m : string) :
  deviceCount = length (devices_ hm) ->
  init_devices env hasName deviceCount configs hm = (Failure c m, hm1) ->
  exists k config,
    configs !! k = Some config /\
    dev_init env (deviceCount + k) (name_config hasName (deviceCount + k) config)
      = Failure c m /\
    length (devices_ hm1) = S (deviceCount + k) /\
    forall j cj, (j < k)%nat -> configs !! j = Some cj ->
      dev_init env (deviceCount + j) (name_config hasName (deviceCount + j) cj)
        = Success.
Proof.
  revert deviceCount hm.
  induction configs as [| config rest IH]; intros deviceCount hm Hcount; simpl;
    [done |].
  destruct (dev_init env deviceCount _) as [| c0 m0] eqn:Hinit.
  - intros Hrest. apply IH in Hrest.
    + destruct Hrest as (k & cfg & Hk & Hfail & Hlen & Hbefore).
      exists (S k), cfg. replace (deviceCount + S k)%nat with (S deviceCount + k)%nat by lia.
      repeat split; try done.
      intros [| j] cj Hj Hcj.
      * simpl in Hcj. injection Hcj as <-. by rewrite Nat.add_0_r.
      * replace (deviceCount + S j)%nat with (S deviceCount + j)%nat by lia.
        apply Hbefore; [lia | done].
    + simpl. unfold assign_device. rewrite decide_False by lia.
      rewrite length_app. simpl. lia.
  - intros [= <- <- <-]. exists 0%nat, config. rewrite Nat.add_0_r.
    repeat split; try done.
    + simpl. unfold assign_device. rewrite decide_False by lia.
      rewrite length_app. simpl. lia.
    + intros j cj Hj. lia.
Qed.

(** X12: a successful init of a HostManager that has no device yet creates
    one device per configuration, in order, device [k] carrying configuration
    [k] (named after its id when it had no name); the Provisioner is built on
    exactly these devices, the Executor is new with the configured number of
    threads and nothing pending, and the registry is left as it was. *)
Theorem init_creates_devices (env : Collaborators)
    (hasName : DeviceConfig -> bool) (configs : list DeviceConfig)
    (hm hm1 : HostManager) :
  devices_ hm = [] ->
  init env hasName configs hm = (Success, hm1) ->
  devices_ hm1 =
    imap (fun k config => {| getDeviceConfig := name_config hasName k config |})
      configs /\
  prov_devices (provisioner_ hm1) = devices_ hm1 /\
  exec_threads (executor_ hm1) = executorThreads (config_ hm) /\
  pending (executor_ hm1) = [] /\
  networks_ hm1 = networks_ hm.
Proof.
  intros Hnone. unfold init.
  destruct (init_devices env hasName 0 configs hm) as [[| c m] hm2] eqn:Hdev;
    [| done].
  intros [= <-]. simpl.
  pose proof (init_devices_networks env hasName configs 0 hm) as Hkeep.
  rewrite Hdev in Hkeep. simpl in Hkeep. destruct Hkeep as (Hn & _ & _ & Hc).
  apply init_devices_ok in Hdev; [| by rewrite Hnone].
  rewrite Hdev, Hnone, Hn, Hc. done.
Qed.

Lemma init_creates_devices_witness :
  devices_ (init Scenario.obliging Samples.named Samples.two_configs
              Samples.bare_host).2 =
  [ {| getDeviceConfig := {| backendName := "CPU"; configName := "config0" |} |};
    {| getDeviceConfig := {| backendName := "CPU"; configName := "aux" |} |} ].
Proof.
  destruct (init_creates_devices Scenario.obliging Samples.named
              Samples.two_configs Samples.bare_host
              (init Scenario.obliging Samples.named Samples.two_configs
                 Samples.bare_host).2)
    as (Hdev & _); [reflexivity | reflexivity |].
  rewrite Hdev. reflexivity.
Defined.

(** X13: when no configuration has a name, a successful init gives the
    devices pairwise distinct names: the names derived from the device ids
    never coincide. *)
Theorem init_default_names_distinct (env : Collaborators)
    (hasName : DeviceConfig -> bool) (configs : list DeviceConfig)
    (hm hm1 : HostManager) :
  devices_ hm = [] ->
  Forall (fun config => hasName config = false) configs ->
  init env hasName configs hm = (Success, hm1) ->
  NoDup ((fun d => configName (getDeviceConfig d)) <$> devices_ hm1).
Proof.
  intros Hnone Hunnamed. unfold init.
  destruct (init_devices env hasName 0 configs hm) as [[| c m] hm2] eqn:Hdev;
    [| done].
  intros [= <-]. simpl.
  apply init_devices_ok in Hdev; [| by rewrite Hnone].
  rewrite Hdev, Hnone. simpl.
  apply NoDup_alt. intros i j x Hi Hj.
  rewrite list_lookup_fmap, list_lookup_imap in Hi, Hj.
  destruct (configs !! i) as [ci |] eqn:Hci; [| done].
  destruct (configs !! j) as [cj |] eqn:Hcj; [| done].
  simpl in Hi, Hj.
  pose proof (proj1 (Forall_lookup _ _) Hunnamed _ _ Hci) as Hni.
  pose proof (proj1 (Forall_lookup _ _) Hunnamed _ _ Hcj) as Hnj.
  unfold name_config in Hi, Hj. simpl in Hni, Hnj.
  rewrite Hni in Hi. rewrite Hnj in Hj. simpl in Hi, Hj.
  injection Hi as Hi. injection Hj as Hj. rewrite <- Hj in Hi.
  apply (inj (String.app "config")) in Hi.
  by apply (inj pretty) in Hi.
Qed.

Lemma init_default_names_distinct_witness :
  NoDup ((fun d => configName (getDeviceConfig d)) <$>
         devices_ (init Scenario.obliging (fun _ => false) Samples.two_configs
                     Samples.bare_host).2).
Proof.
  apply (init_default_names_distinct Scenario.obliging (fun _ => false)
           Samples.two_configs Samples.bare_host).
  - reflexivity.
  - by repeat constructor.
  - reflexivity.
Defined.

(** X14: init stops at the first device whose initialisation fails: it
    returns that device's error, the failed device is the last one created,
    every earlier device was initialised successfully, and the Provisioner
    and the Executor are not rebuilt. *)
Theorem init_stops_at_first_failure (env : Collaborators)
    (hasName : DeviceConfig -> bool) (configs : list DeviceConfig)
    (hm hm1 : HostManager) (c : ErrorCode) (m : string) :
  devices_ hm = [] ->
  init env hasName configs hm = (Failure c m, hm1) ->
  provisioner_ hm1 = provisioner_ hm /\
  executor_ hm1 = executor_ hm /\
  exists k config,
    configs !! k = Some config /\
    dev_init env k (name_config hasName k config) = Failure c m /\
    length (devices_ hm1) = S k /\
    forall j cj, (j < k)%nat -> configs !! j = Some cj ->
      dev_init env j (name_config hasName j cj) = Success.
Proof.
  intros Hnone. unfold init.
  destruct (init_devices env hasName 0 configs hm) as [[| c0 m0] hm2] eqn:Hdev;
    [done |].
  intros [= <- <- <-].
  pose proof (init_devices_networks env hasName configs 0 hm) as Hkeep.
  rewrite Hdev in Hkeep. simpl in Hkeep. destruct Hkeep as (_ & Hp & He & _).
  split; [done |]. split; [done |].
  apply init_devices_failure in Hdev; [| by rewrite Hnone].
  exact Hdev.
Qed.

Lemma init_stops_at_first_failure_witness :
  length (devices_ (init Samples.second_device_fails Samples.named
                      Samples.three_configs Samples.bare_host).2) = 2%nat /\
  executor_ (init Samples.second_device_fails Samples.named
               Samples.three_configs Samples.bare_host).2
    = executor_ Samples.bare_host.
Proof.
  destruct (init_stops_at_first_failure Samples.second_device_fails
              Samples.named Samples.three_configs Samples.bare_host
              (init Samples.second_device_fails Samples.named
                 Samples.three_configs Samples.bare_host).2
              (OTHER_CODE 3) "no such device")
    as (_ & Hexec & _); [reflexivity | reflexivity |].
  split; [reflexivity | exact Hexec].
Defined.

(** *** clearHost *)

Lemma removal_calls_are_removals (nodeList : list DAGNode) :
  Forall removal_event
    (nodeList ≫=
       (fun node =>
          ((fun device => EvEvictNetwork device (name node)) <$> deviceIDs node)
          ++ [EvRemoveFunction (name node)])).
Proof.
  induction nodeList as [| node rest IH]; [constructor |].
  rewrite bind_cons. apply Forall_app. split; [| done].
  apply Forall_app. split; [| by repeat constructor].
  apply Forall_fmap, Forall_forall. by intros.
Qed.

Lemma removeNetwork_shape (env : Collaborators) (networkName : string)
    (hm : HostManager) :
  devices_ (removeNetwork env networkName hm).2 = devices_ hm /\
  executor_ (removeNetwork env networkName hm).2 = executor_ hm /\
  activeRequestCount_ (removeNetwork env networkName hm).2 = activeRequestCount_ hm /\
  totalRequestCount_ (removeNetwork env networkName hm).2 = totalRequestCount_ hm /\
  exists evs : list Event,
    trace_ (removeNetwork env networkName hm).2 = trace_ hm ++ evs /\
    Forall removal_event evs.
Proof.
  unfold removeNetwork.
  destruct (networks_ hm !! networkName) as [nd |].
  - case_bool_decide.
    + repeat split. exists []. by rewrite app_nil_r.
    + rewrite evict_nodes_fold. simpl. repeat split.
      eexists. split; [done |]. apply removal_calls_are_removals.
  - repeat split. exists []. by rewrite app_nil_r.
Qed.

Lemma remove_all_shape (env : Collaborators) (fuel : nat) (hm hm1 : HostManager)
    (e : Error) :
  remove_all env fuel hm = Some (e, hm1) ->
  devices_ hm1 = devices_ hm /\
  executor_ hm1 = executor_ hm /\
  activeRequestCount_ hm1 = activeRequestCount_ hm /\
  (e = Success -> networks_ hm1 = ∅) /\
  exists evs : list Event,
    trace_ hm1 = trace_ hm ++ evs /\ Forall removal_event evs.
Proof.
  revert hm. induction fuel as [| fuel IH]; intros hm; simpl.
  - destruct (begin_key (networks_ hm)) as [first |] eqn:E; [done |].
    intros [= <- <-]. apply ShutdownFacts.begin_key_None in E.
    repeat split; [done |]. exists []. by rewrite app_nil_r.
  - destruct (begin_key (networks_ hm)) as [first |] eqn:E.
    + destruct (removeNetwork_shape env first hm)
        as (Hd & Hx & Ha & _ & evs & Htr & Hevs).
      destruct (removeNetwork env first hm) as [[| c m] hm2]; simpl in *.
      * intros Hrest. apply IH in Hrest.
        destruct Hrest as (Hd2 & Hx2 & Ha2 & Hempty & evs2 & Htr2 & Hevs2).
        rewrite Hd2, Hx2, Ha2, Htr2, Htr. repeat split; try done.
        exists (evs ++ evs2). rewrite app_assoc. split; [done |].
        by apply Forall_app.
      * intros [= <- <-]. repeat split; try done. by exists evs.
    + intros [= <- <-]. apply ShutdownFacts.begin_key_None in E.
      repeat split; [done |]. exists []. by rewrite app_nil_r.
Qed.

Lemma finish_all_shape (env : Collaborators) (runs : list ScheduledRun)
    (hm : HostManager) :
  devices_ (foldl (executor_finish env) hm runs) = devices_ hm /\
  exists cbs : list Event,
    trace_ (foldl (executor_finish env) hm runs) = trace_ hm ++ cbs /\
    Forall callback_event cbs /\
    length cbs = length runs.
Proof.
  revert hm. induction runs as [| r rest IH]; intros hm; simpl.
  - split; [done |]. exists []. by rewrite app_nil_r.
  - destruct (IH (executor_finish env hm r)) as (Hd & cbs & Htr & Hcbs & Hlen).
    destruct (ShutdownFacts.executor_finish_trace env hm r) as [call Hcall].
    split; [by rewrite Hd |]. exists (EvCallback call :: cbs).
    rewrite Htr, Hcall, <- app_assoc. split; [done |].
    split; [by constructor | simpl; lia].
Qed.

Lemma executor_shutdown_shape (env : Collaborators) (hm : HostManager) :
  devices_ (executor_shutdown env hm) = devices_ hm /\
  exists cbs : list Event,
    trace_ (executor_shutdown env hm) = trace_ hm ++ [EvExecutorShutdown] ++ cbs /\
    Forall callback_event cbs /\
    length cbs = length (pending (executor_ hm)).
Proof.
  unfold executor_shutdown. simpl.
  destruct (finish_all_shape env (pending (executor_ hm))
              (emit [EvExecutorShutdown] hm)) as (Hd & cbs & Htr & Hcbs & Hlen).
  split; [done |]. exists cbs. rewrite Htr. simpl.
  by rewrite <- app_assoc.
Qed.

Lemma first_error_success (held : OneErrOnly) (errs : list Error) :
  foldl OneErrOnly_set held errs = Success ->
  held = Success /\ Forall (fun e => e = Success) errs.
Proof.
  revert held. induction errs as [| e rest IH]; intros held; simpl; [done |].
  intros Hall. apply IH in Hall as [Hset Hrest].
  destruct held; [| done]. simpl in Hset. split; [done |]. by constructor.
Qed.

Lemma not_stop_event_removal (evs : list Event) :
  Forall removal_event evs -> Forall (fun ev => ~ stop_event ev) evs.
Proof. intros Hall. eapply Forall_impl; [exact Hall | intros []; simpl; tauto]. Qed.

Lemma not_stop_event_callback (evs : list Event) :
  Forall callback_event evs -> Forall (fun ev => ~ stop_event ev) evs.
Proof. intros Hall. eapply Forall_impl; [exact Hall | intros []; simpl; tauto]. Qed.

(** X15: clearHost reports success only when everything was torn down: the
    registry is empty, every device was asked to stop, once and in order,
    after all other calls, and every one of those stops succeeded. *)
Theorem clearHost_success (env : Collaborators) (hm hm1 : HostManager) :
  clearHost env hm = Some (Success, hm1) ->
  networks_ hm1 = ∅ /\
  Forall (fun device => dev_stop env device = Success)
    (seq 0 (length (devices_ hm))) /\
  exists before : list Event,
    trace_ hm1 =
      trace_ hm ++ before ++ (EvDeviceStop <$> seq 0 (length (devices_ hm))) /\
    Forall (fun ev => ~ stop_event ev) before.
Proof.
  unfold clearHost.
  destruct (executor_shutdown_shape env hm) as (Hd & cbs & Htr & Hcbs & _).
  destruct (remove_all env _ (executor_shutdown env hm)) as [[[| c m] hm2] |]
    eqn:Hloop; [| done | done].
  apply remove_all_shape in Hloop.
  destruct Hloop as (Hd2 & _ & _ & Hempty & evs & Htr2 & Hevs).
  unfold stop_all. rewrite ShutdownFacts.stop_device_fold. simpl.
  intros [= Herr <-]. simpl.
  apply first_error_success in Herr as [_ Hstops].
  rewrite Hd2, Hd in *.
  split; [by apply Hempty |]. split.
  - apply Forall_fmap in Hstops. exact Hstops.
  - exists ([EvExecutorShutdown] ++ cbs ++ evs).
    rewrite Htr2, Htr. split; [by rewrite <- !app_assoc |].
    apply Forall_app. split; [apply Forall_singleton; simpl; tauto |].
    apply Forall_app. split;
      [by apply not_stop_event_callback | by apply not_stop_event_removal].
Qed.

Lemma clearHost_success_witness :
  networks_ (default (Success, Scenario.host_f_busy)
               (clearHost Scenario.obliging Scenario.host_f_busy)).2 = ∅.
Proof.
  destruct (clearHost_success Scenario.obliging Scenario.host_f_busy
              (default (Success, Scenario.host_f_busy)
                 (clearHost Scenario.obliging Scenario.host_f_busy)).2)
    as (Hempty & _); [vm_compute; reflexivity | exact Hempty].
Defined.

(** X16: clearHost never stops a device while a network is still registered:
    if the registry is not empty when it returns, it returns an error and no
    device has been asked to stop. *)
Theorem clearHost_keeps_devices_running (env : Collaborators)
    (hm hm1 : HostManager) (e : Error) :
  clearHost env hm = Some (e, hm1) ->
  networks_ hm1 <> ∅ ->
  is_success e = false /\
  exists evs : list Event,
    trace_ hm1 = trace_ hm ++ evs /\ Forall (fun ev => ~ stop_event ev) evs.
Proof.
  unfold clearHost.
  destruct (executor_shutdown_shape env hm) as (Hd & cbs & Htr & Hcbs & _).
  destruct (remove_all env _ (executor_shutdown env hm)) as [[[| c m] hm2] |]
    eqn:Hloop; [| | done];
    apply remove_all_shape in Hloop;
    destruct Hloop as (Hd2 & _ & _ & Hempty & evs & Htr2 & Hevs).
  - unfold stop_all. intros [= _ <-] Hleft. simpl in Hleft.
    by destruct Hleft; apply Hempty.
  - intros [= <- <-] _. split; [done |].
    exists ([EvExecutorShutdown] ++ cbs ++ evs).
    rewrite Htr2, Htr. split; [by rewrite <- !app_assoc |].
    apply Forall_app. split; [apply Forall_singleton; simpl; tauto |].
    apply Forall_app. split;
      [by apply not_stop_event_callback | by apply not_stop_event_removal].
Qed.

Lemma clearHost_keeps_devices_running_witness :
  is_success (default (Success, Scenario.host_fg)
                (clearHost Scenario.failing_eviction Scenario.host_fg)).1 = false.
Proof.
  destruct (clearHost_keeps_devices_running Scenario.failing_eviction
              Scenario.host_fg
              (default (Success, Scenario.host_fg)
                 (clearHost Scenario.failing_eviction Scenario.host_fg)).2
              (default (Success, Scenario.host_fg)
                 (clearHost Scenario.failing_eviction Scenario.host_fg)).1)
    as (Hfail & _); [vm_compute; reflexivity | | exact Hfail].
  intros Hempty. apply (f_equal (fun m => m !! "f")) in Hempty.
  vm_compute in Hempty. discriminate.
Defined.

(** *** The state between operations *)

Lemma distinct_ids_bound (ids : list Z) (t : Z) :
  0 <= t -> NoDup ids -> Forall (fun i => 0 <= i < t) ids ->
  Z.of_nat (length ids) <= t.
Proof.
  intros Ht Hnd Hall.
  assert (Hsub : ids ⊆+ seqZ 0 t).
  { apply NoDup_submseteq; [done |]. intros x Hx. apply elem_of_seqZ.
    rewrite Forall_forall in Hall. specialize (Hall x Hx). lia. }
  apply submseteq_length in Hsub. rewrite length_seqZ in Hsub. lia.
Qed.

Lemma pending_bound (hm : HostManager) :
  wellformed hm ->
  Z.of_nat (length (pending (executor_ hm))) <= totalRequestCount_ hm.
Proof.
  intros Hwf. rewrite <- (length_fmap run_id).
  apply distinct_ids_bound; [apply Hwf | apply Hwf |].
  apply Forall_fmap. exact (wf_issued _ Hwf).
Qed.

Lemma outstanding_app (networkName : string) (l1 l2 : list ScheduledRun) :
  outstanding networkName (l1 ++ l2)
    = outstanding networkName l1 + outstanding networkName l2.
Proof. unfold outstanding. rewrite filter_app, length_app. lia. Qed.

Lemma outstanding_le (networkName : string) (l : list ScheduledRun) :
  outstanding networkName l <= Z.of_nat (length l).
Proof.
  unfold outstanding.
  pose proof (length_filter (fun r => captured_name (run_cb r) = networkName) l).
  lia.
Qed.

Lemma outstanding_none (networkName : string) (l : list ScheduledRun) :
  Forall (fun r => captured_name (run_cb r) <> networkName) l ->
  outstanding networkName l = 0.
Proof.
  intros Hall. unfold outstanding.
  rewrite ShutdownFacts.filter_drops_all; [done |].
  intros x Hx. by apply (proj1 (Forall_forall _ _) Hall).
Qed.

Lemma outstanding_pos (networkName : string) (r : ScheduledRun)
    (l : list ScheduledRun) :
  r ∈ l -> captured_name (run_cb r) = networkName ->
  1 <= outstanding networkName l.
Proof.
  intros Hin Hname. apply list_elem_of_split in Hin as (l1 & l2 & ->).
  rewrite outstanding_app, ShutdownFacts.outstanding_cons,
    bool_decide_eq_true_2 by done.
  pose proof (ShutdownFacts.outstanding_nonneg networkName l1).
  pose proof (ShutdownFacts.outstanding_nonneg networkName l2). lia.
Qed.

Lemma filter_other_ids (runID : RunIdentifierTy) (l : list ScheduledRun) :
  runID ∉ run_id <$> l -> filter (fun r => run_id r <> runID) l = l.
Proof.
  induction l as [| x l IH]; [done |].
  rewrite fmap_cons, not_elem_of_cons. intros [Hne Hrest].
  rewrite filter_cons_True by done. by rewrite IH.
Qed.

Lemma finish_splits (r : ScheduledRun) (l : list ScheduledRun) :
  NoDup (run_id <$> l) -> r ∈ l ->
  exists l1 l2,
    l = l1 ++ r :: l2 /\
    filter (fun r' => run_id r' <> run_id r) l = l1 ++ l2.
Proof.
  intros Hnd Hin. apply list_elem_of_split in Hin as (l1 & l2 & ->).
  exists l1, l2. split; [done |].
  rewrite fmap_app, fmap_cons in Hnd.
  apply NoDup_app in Hnd as (_ & Hdisj & Hnd2).
  apply NoDup_cons in Hnd2 as [Hnot2 _].
  rewrite filter_app, filter_cons_False by (intros Hne; by apply Hne).
  rewrite !filter_other_ids; [done | done |].
  intros Hin1. apply (Hdisj _ Hin1). left.
Qed.

Lemma awaited_Some (runID : RunIdentifierTy) (hm : HostManager)
    (r : ScheduledRun) :
  awaited runID hm = Some r -> r ∈ pending (executor_ hm) /\ run_id r = runID.
Proof.
  unfold awaited. intros Hhead. apply head_Some_elem_of in Hhead.
  apply list_elem_of_filter in Hhead. tauto.
Qed.

Lemma wellformed_frame (hm hm' : HostManager) :
  networks_ hm' = networks_ hm ->
  pending (executor_ hm') = pending (executor_ hm) ->
  activeRequestCount_ hm' = activeRequestCount_ hm ->
  totalRequestCount_ hm <= totalRequestCount_ hm' < size_t_modulus ->
  wellformed hm -> wellformed hm'.
Proof.
  intros Hn Hp Ha Ht [Hset Hact Hnd Hiss Hreg Htot].
  split; unfold settled in *; rewrite ?Hn, ?Hp, ?Ha; try done.
  - eapply Forall_impl; [exact Hiss |]. simpl. intros r Hr. lia.
  - lia.
Qed.

Lemma executor_finish_counters (env : Collaborators) (hm : HostManager)
    (r : ScheduledRun) :
  activeRequestCount_ (executor_finish env hm r) = decr (activeRequestCount_ hm) /\
  totalRequestCount_ (executor_finish env hm r) = totalRequestCount_ hm.
Proof. split; reflexivity. Qed.

Lemma wellformed_finish (env : Collaborators) (hm : HostManager)
    (r : ScheduledRun) :
  wellformed hm -> r ∈ pending (executor_ hm) ->
  wellformed (executor_finish env hm r).
Proof.
  intros Hwf Hin. pose proof (pending_bound hm Hwf) as Hbound.
  destruct Hwf as [Hset Hact Hnd Hiss Hreg Htot].
  destruct (finish_splits r _ Hnd Hin) as (l1 & l2 & Hl & Hfil).
  destruct (executor_finish_counters env hm r) as [Ha Ht].
  split; unfold settled;
    rewrite ?ShutdownFacts.executor_finish_networks,
      ?ShutdownFacts.executor_finish_pending, ?Hfil, ?Ha, ?Ht; try done.
  - intros k nd' Hk.
    pose proof (ShutdownFacts.outstanding_nonneg k l1).
    pose proof (ShutdownFacts.outstanding_nonneg k l2).
    destruct (decide (captured_name (run_cb r) = k)) as [<- | Hne];
      [rewrite lookup_alter_eq in Hk | rewrite lookup_alter_ne in Hk by done].
    + destruct (networks_ hm !! captured_name (run_cb r)) as [nd |] eqn:E;
        [| done].
      simpl in Hk. injection Hk as <-. destruct (Hset _ _ E) as [Hc Hlt].
      rewrite Hl, outstanding_app, ShutdownFacts.outstanding_cons,
        bool_decide_eq_true_2 in Hc by done.
      rewrite outstanding_app. simpl. unfold decr.
      rewrite ShutdownFacts.wrap_small by lia. lia.
    + destruct (Hset _ _ Hk) as [Hc Hlt].
      rewrite Hl, outstanding_app, ShutdownFacts.outstanding_cons,
        bool_decide_eq_false_2 in Hc by done.
      rewrite outstanding_app. split; [lia | done].
  - rewrite Hact, Hl, !length_app. simpl. unfold decr.
    rewrite Hl, length_app in Hbound. simpl in Hbound.
    rewrite ShutdownFacts.wrap_small by lia. lia.
  - rewrite Hl, fmap_app, fmap_cons in Hnd. rewrite fmap_app.
    apply NoDup_app in Hnd as (Hn1 & Hd & Hn2).
    apply NoDup_cons in Hn2 as [Hx Hn2].
    apply NoDup_app. split; [done |]. split; [| done].
    intros x Hx1 Hx2. apply (Hd x Hx1). by right.
  - rewrite Hl in Hiss. apply Forall_app in Hiss as [Hi1 Hi2].
    apply Forall_cons in Hi2 as [_ Hi2]. by apply Forall_app.
  - rewrite Hl in Hreg. apply Forall_app in Hreg as [Hr1 Hr2].
    apply Forall_cons in Hr2 as [_ Hr2].
    apply Forall_app. split.
    + eapply Forall_impl; [exact Hr1 |]. intros x Hx.
      by apply lookup_alter_is_Some.
    + eapply Forall_impl; [exact Hr2 |]. intros x Hx.
      by apply lookup_alter_is_Some.
Qed.

(** runNetwork, sequentially, in its three outcomes. *)

Lemma runNetwork_not_found (networkName : string) (context : ExecutionContext)
    (callback : ResultCBTy) (hm : HostManager) :
  networks_ hm !! networkName = None ->
  runNetwork networkName context callback hm =
    (totalRequestCount_ hm,
     invoke callback (totalRequestCount_ hm) (not_found_error networkName)
       context networkName (with_total (incr (totalRequestCount_ hm)) hm)).
Proof.
  intros Hnone. unfold runNetwork, next_run_id, retain. simpl.
  by rewrite Hnone.
Qed.

Lemma incr_decr (z : Z) : 0 <= z < size_t_modulus - 1 -> decr (incr z) = z.
Proof.
  intros Hz. unfold decr, incr.
  rewrite (ShutdownFacts.wrap_small (z + 1)) by lia.
  rewrite ShutdownFacts.wrap_small by lia. lia.
Qed.

Lemma release_retain (networkName : string) (nd : NetworkData)
    (networks : gmap string NetworkData) :
  networks !! networkName = Some nd ->
  0 <= refcount nd < size_t_modulus - 1 ->
  alter release_entry networkName (<[networkName := retain_entry nd]> networks)
    = networks.
Proof.
  intros Hnd Hrc. rewrite alter_insert_eq.
  unfold release_entry, retain_entry. simpl. rewrite incr_decr by done.
  rewrite <- (insert_id networks networkName nd) at 2 by done.
  by destruct nd.
Qed.

Lemma runNetwork_declined (networkName : string) (context : ExecutionContext)
    (callback : ResultCBTy) (hm : HostManager) (nd : NetworkData) :
  networks_ hm !! networkName = Some nd ->
  0 <= refcount nd < size_t_modulus - 1 ->
  0 <= activeRequestCount_ hm < size_t_modulus - 1 ->
  maxActiveRequests (config_ hm) <= activeRequestCount_ hm ->
  runNetwork networkName context callback hm =
    (totalRequestCount_ hm,
     invoke callback (totalRequestCount_ hm)
       (refused_error (activeRequestCount_ hm) (maxActiveRequests (config_ hm)))
       context networkName (with_total (incr (totalRequestCount_ hm)) hm)).
Proof.
  intros Hnd Hrc Hact Hfull.
  unfold runNetwork, next_run_id, retain, enter. simpl. rewrite Hnd. simpl.
  rewrite bool_decide_eq_true_2 by done.
  unfold invoke, release, leave, emit, with_networks, with_active, with_total.
  simpl. rewrite (release_retain _ _ _ Hnd Hrc), (incr_decr _ Hact).
  done.
Qed.

Lemma runNetwork_scheduled (networkName : string) (context : ExecutionContext)
    (callback : ResultCBTy) (hm : HostManager) (nd : NetworkData) :
  networks_ hm !! networkName = Some nd ->
  ~ maxActiveRequests (config_ hm) <= activeRequestCount_ hm ->
  runNetwork networkName context callback hm =
    (totalRequestCount_ hm,
     executor_run
       {| run_root := root (dag nd); run_context := context;
          run_id := totalRequestCount_ hm;
          run_cb := {| captured_callback := callback;
                       captured_name := networkName |} |}
       (with_active (incr (activeRequestCount_ hm))
          (with_networks (<[networkName := retain_entry nd]>)
             (with_total (incr (totalRequestCount_ hm)) hm)))).
Proof.
  intros Hnd Hfree.
  unfold runNetwork, next_run_id, retain, enter, schedule. simpl.
  rewrite Hnd. simpl. rewrite bool_decide_eq_false_2 by done.
  simpl. rewrite lookup_insert_eq. simpl. rewrite lookup_insert_eq. done.
Qed.

Lemma wellformed_refcount (hm : HostManager) (networkName : string)
    (nd : NetworkData) :
  wellformed hm -> networks_ hm !! networkName = Some nd ->
  0 <= refcount nd <= totalRequestCount_ hm.
Proof.
  intros Hwf Hnd. pose proof (pending_bound hm Hwf) as Hbound.
  destruct (wf_settled _ Hwf _ _ Hnd) as [Hc _].
  pose proof (ShutdownFacts.outstanding_nonneg networkName
                (pending (executor_ hm))).
  pose proof (outstanding_le networkName (pending (executor_ hm))). lia.
Qed.

Lemma wellformed_run (networkName : string) (context : ExecutionContext)
    (callback : ResultCBTy) (hm : HostManager) :
  wellformed hm -> has_room hm ->
  wellformed (runNetwork networkName context callback hm).2.
Proof.
  intros Hwf Hroom. unfold has_room in Hroom.
  pose proof (pending_bound hm Hwf) as Hbound.
  pose proof (wf_total _ Hwf) as Htot.
  pose proof (wf_active _ Hwf) as Hact.
  assert (Hincr : incr (totalRequestCount_ hm) = totalRequestCount_ hm + 1).
  { unfold incr. by rewrite ShutdownFacts.wrap_small by lia. }
  destruct (networks_ hm !! networkName) as [nd |] eqn:Hnd.
  - pose proof (wellformed_refcount hm networkName nd Hwf Hnd) as Hrc.
    destruct (decide (maxActiveRequests (config_ hm) <= activeRequestCount_ hm))
      as [Hfull | Hfree].
    + rewrite (runNetwork_declined _ _ _ _ nd) by (done || lia).
      apply (wellformed_frame hm); try done. simpl. lia.
    + rewrite (runNetwork_scheduled _ _ _ _ nd) by done.
      destruct Hwf as [Hset _ Hdist Hiss Hreg _].
      split; unfold settled; simpl.
      * intros k nd' Hk. rewrite outstanding_app.
        unfold outstanding at 2. simpl.
        destruct (decide (networkName = k)) as [<- | Hne].
        -- rewrite lookup_insert_eq in Hk. injection Hk as <-.
           destruct (Hset _ _ Hnd) as [Hc Hlt]. simpl.
           rewrite filter_cons_True by done. simpl.
           unfold incr. rewrite ShutdownFacts.wrap_small by lia. lia.
        -- rewrite lookup_insert_ne in Hk by done.
           destruct (Hset _ _ Hk) as [Hc Hlt].
           rewrite filter_cons_False by done. simpl. split; [lia | done].
      * rewrite length_app. simpl. unfold incr.
        rewrite ShutdownFacts.wrap_small by lia. lia.
      * rewrite fmap_app. simpl. apply NoDup_app. split; [done |].
        split; [| apply NoDup_singleton].
        intros x Hx Hx'. apply list_elem_of_singleton in Hx'. subst x.
        apply list_elem_of_fmap in Hx as (r & Hid & Hr).
        rewrite Forall_forall in Hiss. specialize (Hiss r Hr). lia.
      * apply Forall_app. split.
        -- eapply Forall_impl; [exact Hiss |]. simpl. intros r Hr. lia.
        -- apply Forall_singleton. simpl. lia.
      * apply Forall_app. split.
        -- eapply Forall_impl; [exact Hreg |]. simpl. intros r Hr.
           apply lookup_insert_is_Some'. by right.
        -- apply Forall_singleton. simpl. by rewrite lookup_insert_eq.
      * lia.
  - rewrite runNetwork_not_found by done.
    apply (wellformed_frame hm); try done. simpl. lia.
Qed.

Lemma wellformed_remove (env : Collaborators) (networkName : string)
    (hm : HostManager) :
  wellformed hm -> wellformed (removeNetwork env networkName hm).2.
Proof.
  intros Hwf. unfold removeNetwork.
  destruct (networks_ hm !! networkName) as [nd |] eqn:Hnd; [| done].
  case_bool_decide as Hbusy; [done |].
  assert (Hidle : refcount nd = 0).
  { destruct (decide (refcount nd = 0)); [done | by destruct Hbusy]. }
  destruct (wf_settled _ Hwf _ _ Hnd) as [Hc _].
  destruct Hwf as [Hset Hact Hdist Hiss Hreg Htot].
  split; unfold settled; simpl; try done.
  - by apply map_Forall_delete.
  - apply Forall_forall. intros r Hr.
    rewrite Forall_forall in Hreg. specialize (Hreg r Hr).
    rewrite lookup_delete_ne; [done |]. intros Hname.
    pose proof (outstanding_pos networkName r _ Hr (eq_sym Hname)). lia.
Qed.

Lemma recreate_devices_frame (env : Collaborators) (todo i : nat)
    (hm : HostManager) :
  executor_ (recreate_devices env i todo hm).2 = executor_ hm /\
  activeRequestCount_ (recreate_devices env i todo hm).2 = activeRequestCount_ hm /\
  totalRequestCount_ (recreate_devices env i todo hm).2 = totalRequestCount_ hm.
Proof.
  revert i hm. induction todo as [| k IH]; intros i hm; simpl; [done |].
  destruct (dev_init env i _); simpl; [| done].
  destruct (IH (S i)
              (emit [EvDeviceInit i
                       {| backendName := profilingBackend env;
                          configName :=
                            match devices_ hm !! i with
                            | Some d => configName (getDeviceConfig d)
                            | None => ""
                            end |}]
                 (with_devices
                    (<[i := {| getDeviceConfig :=
                                 {| backendName := profilingBackend env;
                                    configName :=
                                      match devices_ hm !! i with
                                      | Some d => configName (getDeviceConfig d)
                                      | None => ""
                                      end |} |}]> (devices_ hm)) hm)))
    as (-> & -> & ->).
  done.
Qed.

Lemma nothing_pending_without_networks (hm : HostManager) :
  wellformed hm -> size (networks_ hm) = 0%nat -> pending (executor_ hm) = [].
Proof.
  intros Hwf Hsize. apply map_size_empty_iff in Hsize.
  pose proof (wf_registered _ Hwf) as Hreg. rewrite Hsize in Hreg.
  destruct (pending (executor_ hm)) as [| r rest]; [done |].
  apply Forall_cons in Hreg as [[nd Hnd] _]. by rewrite lookup_empty in Hnd.
Qed.

Lemma wellformed_enter_profiling (env : Collaborators)
    (cctx : CompilationContext) (hm : HostManager) :
  wellformed hm -> wellformed (enter_profiling env cctx hm).2.
Proof.
  intros Hwf. unfold enter_profiling. destruct (quantMode cctx); try done.
  case_bool_decide as Hsize; [| done].
  pose proof (nothing_pending_without_networks hm Hwf Hsize) as Hnone.
  pose proof (RegistryFacts.recreate_devices_networks env
                (length (devices_ hm)) 0 hm) as Hn.
  destruct (recreate_devices_frame env (length (devices_ hm)) 0 hm)
    as (Hx & Ha & Ht).
  pose proof (wf_total _ Hwf) as Htot.
  destruct (recreate_devices env 0 (length (devices_ hm)) hm) as [[| c m] hm1];
    simpl in *; apply (wellformed_frame hm); simpl;
    rewrite ?Hn, ?Hx, ?Ha, ?Ht; try done; lia.
Qed.

Lemma wellformed_install (sharedModule : GlowModule) (nodeList : DAGListTy)
    (pend : list ScheduledRun) (networks : gmap string NetworkData) :
  map_Forall
    (fun networkName nd =>
       refcount nd = outstanding networkName pend /\
       refcount nd < size_t_modulus) networks ->
  Forall (fun r => is_Some (networks !! captured_name (run_cb r))) pend ->
  map_Forall
    (fun networkName nd =>
       refcount nd = outstanding networkName pend /\
       refcount nd < size_t_modulus)
    (foldl (install sharedModule) networks nodeList) /\
  Forall (fun r => is_Some (foldl (install sharedModule) networks nodeList
                              !! captured_name (run_cb r))) pend.
Proof.
  revert networks. induction nodeList as [| node rest IH];
    intros networks Hset Hreg; [done |].
  simpl. apply IH.
  - unfold install. apply map_Forall_insert_2; [| done]. simpl.
    destruct (networks !! root_name node) as [nd |] eqn:Hnd; simpl.
    + by apply (Hset _ _ Hnd).
    + split; [| done]. symmetry. apply outstanding_none.
      eapply Forall_impl; [exact Hreg |]. simpl. intros r [nd Hr] Hname.
      by rewrite Hname, Hnd in Hr.
  - eapply Forall_impl; [exact Hreg |]. simpl. intros r Hr.
    unfold install. apply lookup_insert_is_Some'. by right.
Qed.

Lemma wellformed_add (env : Collaborators) (module : GlowModule)
    (cctx : CompilationContext) (saturateHost : bool) (hm : HostManager) :
  wellformed hm -> wellformed (addNetwork env module cctx saturateHost hm).2.
Proof.
  intros Hwf. unfold addNetwork, addNetwork_prepare.
  destruct (first_registered _ _); [done |].
  destruct (optimize_all _ _ _); [| done].
  destruct (partition _ _ _ _ _) as [nodeList | c m]; [| done].
  pose proof (wellformed_enter_profiling env (load_backend_options env cctx)
                hm Hwf) as Hwf1.
  destruct (enter_profiling _ _ _) as [[| c m] hm1]; simpl in *; [| done].
  unfold addNetwork_commit.
  pose proof (wf_total _ Hwf1) as Htot.
  destruct (provision _ _ _ _ _); simpl.
  - destruct Hwf1 as [Hset Hact Hdist Hiss Hreg _].
    destruct (wellformed_install (strip module) nodeList _ _ Hset Hreg)
      as [Hset' Hreg'].
    by split.
  - apply (wellformed_frame hm1); try done. simpl. lia.
Qed.

(** X17: between operations the bookkeeping of the HostManager is
    consistent, and every operation keeps it so: after adding or removing a
    network, after a runNetwork call that does not exhaust the request
    counter, and after the completion of a pending run, every refcount is the
    number of pending runs on its entry, the in-flight counter is the number
    of pending runs, and the pending runs carry distinct identifiers that
    have been issued and name registered networks. *)
Theorem operations_keep_wellformed (env : Collaborators) (ops : list Operation)
    (hm : HostManager) :
  wellformed hm ->
  totalRequestCount_ hm + Z.of_nat (length ops) < size_t_modulus ->
  wellformed (perform_all env ops hm) /\
  totalRequestCount_ (perform_all env ops hm)
    <= totalRequestCount_ hm + Z.of_nat (length ops).
Proof.
  unfold perform_all. revert hm.
  induction ops as [| op rest IH]; intros hm Hwf Hroom; simpl;
    [split; [done | lia] |].
  change (length (op :: rest)) with (S (length rest)) in Hroom.
  assert (Hstep : wellformed (perform env op hm) /\
                  totalRequestCount_ (perform env op hm)
                    <= totalRequestCount_ hm + 1).
  { pose proof (wf_total _ Hwf) as Htot.
    destruct op as [module cctx saturateHost | networkName
                   | networkName context callback | runID]; simpl.
    - split; [by apply wellformed_add |].
      unfold addNetwork, addNetwork_prepare.
      destruct (first_registered _ _); [simpl; lia |].
      destruct (optimize_all _ _ _); [| simpl; lia].
      destruct (partition _ _ _ _ _) as [nodeList | c m]; [| simpl; lia].
      assert (Ht : totalRequestCount_
                     (enter_profiling env (load_backend_options env cctx) hm).2
                   = totalRequestCount_ hm).
      { unfold enter_profiling. destruct (quantMode _); try done.
        case_bool_decide; [| done].
        destruct (recreate_devices_frame env (length (devices_ hm)) 0 hm)
          as (_ & _ & Ht).
        destruct (recreate_devices env 0 (length (devices_ hm)) hm)
          as [[| c m] hm1]; simpl in *; done. }
      destruct (enter_profiling _ _ _) as [[| c m] hm1]; simpl in *; [| lia].
      unfold addNetwork_commit. destruct (provision _ _ _ _ _); simpl; lia.
    - split; [by apply wellformed_remove |].
      destruct (removeNetwork_shape env networkName hm) as (_ & _ & _ & -> & _).
      lia.
    - split; [apply wellformed_run; [done | unfold has_room; lia] |].
      unfold runNetwork, next_run_id, retain, enter. simpl.
      assert (Hincr : incr (totalRequestCount_ hm) = totalRequestCount_ hm + 1).
      { unfold incr. by rewrite ShutdownFacts.wrap_small by lia. }
      destruct (networks_ hm !! networkName); simpl; [| lia].
      case_bool_decide; simpl; [lia |].
      unfold schedule. simpl. rewrite lookup_insert_eq. simpl. lia.
    - destruct (awaited runID hm) as [r |] eqn:Hr; [| split; [done | lia]].
      apply awaited_Some in Hr as [Hin _].
      split; [by apply wellformed_finish |].
      destruct (executor_finish_counters env hm r) as [_ ->]. lia. }
  destruct Hstep as [Hwf1 Hle].
  destruct (IH (perform env op hm) Hwf1) as [Hwf2 Hle2]; [lia |].
  split; [done | lia].
Qed.

Lemma operations_keep_wellformed_witness :
  wellformed
    (perform_all Scenario.obliging
       [OpComplete 0; OpRunNetwork "f" 1%nat 8%nat; OpRemoveNetwork "f"]
       Scenario.host_f_busy) /\
  totalRequestCount_
    (perform_all Scenario.obliging
       [OpComplete 0; OpRunNetwork "f" 1%nat 8%nat; OpRemoveNetwork "f"]
       Scenario.host_f_busy)
    <= totalRequestCount_ Scenario.host_f_busy + Z.of_nat 3.
Proof.
  apply (operations_keep_wellformed Scenario.obliging
           [OpComplete 0; OpRunNetwork "f" 1%nat 8%nat; OpRemoveNetwork "f"]
           Scenario.host_f_busy).
  - split.
    + unfold settled.
      replace (networks_ Scenario.host_f_busy)
        with ({[ "f" := Scenario.entry "f" 1 ]} : gmap string NetworkData)
        by reflexivity.
      apply map_Forall_singleton. vm_compute. split; reflexivity.
    + reflexivity.
    + simpl. apply NoDup_singleton.
    + simpl. apply Forall_singleton. vm_compute. split; [discriminate | reflexivity].
    + simpl. apply Forall_singleton. simpl. by eexists.
    + vm_compute. split; [discriminate | reflexivity].
  - vm_compute. reflexivity.
Defined.

(** *** Shutting the Executor down *)

Lemma finish_all_wellformed (env : Collaborators) (runs : list ScheduledRun)
    (hm : HostManager) :
  wellformed hm -> pending (executor_ hm) = runs ->
  wellformed (foldl (executor_finish env) hm runs) /\
  pending (executor_ (foldl (executor_finish env) hm runs)) = [].
Proof.
  revert hm. induction runs as [| r rest IH]; intros hm Hwf Hp; simpl; [done |].
  apply IH.
  - apply wellformed_finish; [done |]. rewrite Hp. left.
  - rewrite ShutdownFacts.executor_finish_pending, Hp.
    rewrite filter_cons_False by (intros Hne; by apply Hne).
    apply filter_other_ids.
    pose proof (wf_distinct _ Hwf) as Hnd. rewrite Hp, fmap_cons in Hnd.
    by apply NoDup_cons in Hnd as [Hnot _].
Qed.

(** X18: the assertion of line 226 holds whenever clearHost is called
    between operations: once the Executor has shut down the in-flight
    counter is 0, nothing is pending, every refcount is 0, and the registry
    holds the same names as before. *)
Theorem shutdown_leaves_nothing_in_flight (env : Collaborators)
    (hm : HostManager) :
  wellformed hm ->
  activeRequestCount_ (executor_shutdown env hm) = 0 /\
  pending (executor_ (executor_shutdown env hm)) = [] /\
  map_Forall (fun _ nd => refcount nd = 0) (networks_ (executor_shutdown env hm)) /\
  dom (networks_ (executor_shutdown env hm)) = dom (networks_ hm).
Proof.
  intros Hwf. unfold executor_shutdown. simpl.
  assert (Hwf0 : wellformed (emit [EvExecutorShutdown] hm)).
  { apply (wellformed_frame hm); try done. simpl.
    pose proof (wf_total _ Hwf). lia. }
  destruct (finish_all_wellformed env (pending (executor_ hm))
              (emit [EvExecutorShutdown] hm) Hwf0 eq_refl) as [Hwf1 Hnone].
  destruct (ShutdownFacts.drain env (pending (executor_ hm))
              (emit [EvExecutorShutdown] hm) (wf_settled _ Hwf))
    as (_ & Hzero & Hdom & _).
  split; [| split; [done | split; [done | exact Hdom]]].
  rewrite (wf_active _ Hwf1), Hnone. done.
Qed.

Lemma shutdown_leaves_nothing_in_flight_witness :
  activeRequestCount_ (executor_shutdown Scenario.obliging Scenario.host_f_busy)
    = 0.
Proof.
  destruct (shutdown_leaves_nothing_in_flight Scenario.obliging
              Scenario.host_f_busy) as (Hzero & _); [| exact Hzero].
  split.
  - unfold settled.
    replace (networks_ Scenario.host_f_busy)
      with ({[ "f" := Scenario.entry "f" 1 ]} : gmap string NetworkData)
      by reflexivity.
    apply map_Forall_singleton. vm_compute. split; reflexivity.
  - reflexivity.
  - simpl. apply NoDup_singleton.
  - simpl. apply Forall_singleton. vm_compute.
    split; [discriminate | reflexivity].
  - simpl. apply Forall_singleton. simpl. by eexists.
  - vm_compute. split; [discriminate | reflexivity].
Defined.

(** *** runNetworkBlocking *)

Lemma awaited_fresh (runID : RunIdentifierTy) (l : list ScheduledRun) :
  Forall (fun r => run_id r < runID) l ->
  filter (fun r => run_id r = runID) l = [].
Proof.
  intros Hall. apply ShutdownFacts.filter_drops_all. intros r Hr.
  rewrite Forall_forall in Hall. specialize (Hall r Hr). lia.
Qed.

Lemma stored_after_invoke (waiter : ResultCBTy) (runID : RunIdentifierTy)
    (err : Error) (context : ExecutionContext) (networkName : string)
    (hm : HostManager) :
  stored_error waiter (invoke waiter runID err context networkName hm) = Some err.
Proof.
  unfold stored_error, invoke, calls_to. simpl. rewrite omap_app. simpl.
  rewrite bool_decide_eq_true_2 by done. by rewrite last_snoc.
Qed.

(** X19: runNetworkBlocking, called between operations, always returns an
    error value, the one its callback was given: NOT_FOUND for an
    unregistered name, REQUEST_REFUSED when the in-flight counter is at the
    limit, and otherwise the result of executing the run it scheduled.  When
    it returns, the registry (hence every refcount) and the pending runs are
    as before the call and one identifier has been used; in the scheduled
    case the in-flight counter is still one above its old value, and is back
    to it once line 328 has run. *)
Theorem runNetworkBlocking_outcome (env : Collaborators) (networkName : string)
    (bindings : ExecutionContext) (waiter : ResultCBTy) (hm : HostManager) :
  wellformed hm -> has_room hm ->
  let result := runNetworkBlocking env networkName bindings waiter hm in
  networks_ result.2 = networks_ hm /\
  pending (executor_ result.2) = pending (executor_ hm) /\
  totalRequestCount_ result.2 = totalRequestCount_ hm + 1 /\
  match networks_ hm !! networkName with
  | None =>
      result.1 =
        Some (Failure RUNTIME_NET_NOT_FOUND
                ("Function " +:+ networkName +:+ " not found")) /\
      activeRequestCount_ result.2 = activeRequestCount_ hm
  | Some nd =>
      if bool_decide (maxActiveRequests (config_ hm) <= activeRequestCount_ hm)
      then
        result.1 =
          Some (Failure RUNTIME_REQUEST_REFUSED
                  ("The number of allowed requests has been exceeded. " +:+
                   "active requests: " +:+ pretty (activeRequestCount_ hm) +:+
                   " allowed requests: " +:+
                   pretty (maxActiveRequests (config_ hm)))) /\
        activeRequestCount_ result.2 = activeRequestCount_ hm
      else
        result.1 =
          Some (run_result env
                  {| run_root := root (dag nd); run_context := bindings;
                     run_id := totalRequestCount_ hm;
                     run_cb := {| captured_callback := waiter;
                                  captured_name := networkName |} |}) /\
        activeRequestCount_ result.2 = activeRequestCount_ hm + 1 /\
        activeRequestCount_ (completion_leave result.2) = activeRequestCount_ hm
  end.
Proof.
  intros Hwf Hroom. unfold has_room in Hroom. unfold runNetworkBlocking.
  pose proof (pending_bound hm Hwf) as Hbound.
  pose proof (wf_total _ Hwf) as Htot.
  pose proof (wf_active _ Hwf) as Hact.
  assert (Hincr : incr (totalRequestCount_ hm) = totalRequestCount_ hm + 1).
  { unfold incr. by rewrite ShutdownFacts.wrap_small by lia. }
  assert (Hnew : filter (fun r => run_id r = totalRequestCount_ hm)
                   (pending (executor_ hm)) = []).
  { apply awaited_fresh. eapply Forall_impl; [exact (wf_issued _ Hwf) |].
    simpl. intros r Hr. lia. }
  destruct (networks_ hm !! networkName) as [nd |] eqn:Hnd.
  - pose proof (wellformed_refcount hm networkName nd Hwf Hnd) as Hrc.
    case_bool_decide as Hfull.
    + rewrite (runNetwork_declined _ _ _ _ nd) by (done || lia).
      unfold awaited. simpl. rewrite Hnew. simpl.
      rewrite stored_after_invoke. by rewrite Hincr.
    + rewrite (runNetwork_scheduled _ _ _ _ nd) by done.
      unfold awaited. simpl. rewrite filter_app, Hnew. simpl.
      rewrite filter_cons_True by done. simpl.
      unfold executor_notify, completion_notify. simpl.
      rewrite stored_after_invoke. simpl.
      rewrite filter_app, filter_cons_False by (intros Hne; by apply Hne).
      rewrite filter_nil, app_nil_r.
      rewrite (release_retain _ _ _ Hnd) by lia.
      rewrite Hincr.
      assert (Hup : incr (activeRequestCount_ hm) = activeRequestCount_ hm + 1).
      { unfold incr. by rewrite ShutdownFacts.wrap_small by lia. }
      rewrite Hup. unfold decr.
      rewrite ShutdownFacts.wrap_small by lia.
      repeat split; try done; try lia.
      apply filter_other_ids. intros Hin.
      apply list_elem_of_fmap in Hin as (r & Hid & Hr).
      pose proof (proj1 (Forall_forall _ _) (wf_issued _ Hwf) r Hr) as Hlt.
      simpl in Hlt. lia.
  - rewrite runNetwork_not_found by done.
    unfold awaited. simpl. rewrite Hnew. simpl.
    rewrite stored_after_invoke. by rewrite Hincr.
Qed.

Lemma runNetworkBlocking_outcome_witness :
  ((runNetworkBlocking Scenario.obliging "f" 4%nat 9%nat Scenario.host_f).1
     = Some Success /\
   activeRequestCount_
     (runNetworkBlocking Scenario.obliging "f" 4%nat 9%nat Scenario.host_f).2
     = 1) /\
  (runNetworkBlocking Scenario.obliging "zz" 4%nat 9%nat Scenario.host_f).1
    = Some (Failure RUNTIME_NET_NOT_FOUND "Function zz not found") /\
  (runNetworkBlocking Scenario.obliging "f" 4%nat 9%nat Scenario.host_f_busy).1
    = Some (Failure RUNTIME_REQUEST_REFUSED
              ("The number of allowed requests has been exceeded. " +:+
               "active requests: 1 allowed requests: 1")).
Proof.
  assert (Hidle : wellformed Scenario.host_f).
  { split.
    - unfold settled.
      replace (networks_ Scenario.host_f)
        with ({[ "f" := Scenario.entry "f" 0 ]} : gmap string NetworkData)
        by reflexivity.
      apply map_Forall_singleton. vm_compute. split; reflexivity.
    - reflexivity.
    - simpl. apply NoDup_nil_2.
    - simpl. apply Forall_nil_2.
    - simpl. apply Forall_nil_2.
    - vm_compute. split; [discriminate | reflexivity]. }
  assert (Hbusy : wellformed Scenario.host_f_busy).
  { split.
    - unfold settled.
      replace (networks_ Scenario.host_f_busy)
        with ({[ "f" := Scenario.entry "f" 1 ]} : gmap string NetworkData)
        by reflexivity.
      apply map_Forall_singleton. vm_compute. split; reflexivity.
    - reflexivity.
    - simpl. apply NoDup_singleton.
    - simpl. apply Forall_singleton. vm_compute.
      split; [discriminate | reflexivity].
    - simpl. apply Forall_singleton. simpl. by eexists.
    - vm_compute. split; [discriminate | reflexivity]. }
  destruct (runNetworkBlocking_outcome Scenario.obliging "f" 4%nat 9%nat
              Scenario.host_f Hidle) as (_ & _ & _ & Hrun);
    [vm_compute; reflexivity |].
  destruct (runNetworkBlocking_outcome Scenario.obliging "zz" 4%nat 9%nat
              Scenario.host_f Hidle) as (_ & _ & _ & Hmissing);
    [vm_compute; reflexivity |].
  destruct (runNetworkBlocking_outcome Scenario.obliging "f" 4%nat 9%nat
              Scenario.host_f_busy Hbusy) as (_ & _ & _ & Hfull);
    [vm_compute; reflexivity |].
  replace (networks_ Scenario.host_f !! "f")
    with (Some (Scenario.entry "f" 0)) in Hrun by reflexivity.
  replace (networks_ Scenario.host_f !! "zz")
    with (@None NetworkData) in Hmissing by reflexivity.
  replace (networks_ Scenario.host_f_busy !! "f")
    with (Some (Scenario.entry "f" 1)) in Hfull by reflexivity.
  simpl in Hrun, Hmissing, Hfull.
  destruct Hrun as (Herr & Hactive & _).
  destruct Hmissing as (Hnone & _). destruct Hfull as (Hrefused & _).
  split; [split; [exact Herr | exact Hactive] |].
  split; [exact Hnone | exact Hrefused].
Defined.

End LifecycleFacts.

(** ** More on concurrent runNetwork calls *)

Module InterleavingFacts.
Import Runtime.

Lemma tally_member (f : Request -> Z) (pool : list Request) (i : nat)
    (rq : Request) :
  (forall x, 0 <= f x) -> pool !! i = Some rq -> f rq <= tally f pool.
Proof.
  intros Hf. revert i. induction pool as [| x pool IH]; intros i Hi; [done |].
  destruct i as [| i]; simpl in *.
  - injection Hi as ->.
    assert (0 <= tally f pool); [| lia].
    clear IH. induction pool as [| y pool IH]; simpl; [lia |].
    specialize (Hf y). lia.
  - specialize (IH i Hi). specialize (Hf x). lia.
Qed.

Lemma tally_all_one (f : Request -> Z) (pool : list Request) :
  Forall (fun rq => f rq = 1) pool -> tally f pool = Z.of_nat (length pool).
Proof.
  induction 1 as [| x pool Hx _ IH]; simpl; [done | lia].
Qed.

Lemma release_keeps_shape (networkName key : string)
    (networks : gmap string NetworkData) :
  (fun nd => (dag nd, module nd)) <$> (alter release_entry key networks !! networkName)
    = (fun nd => (dag nd, module nd)) <$> (networks !! networkName).
Proof.
  destruct (decide (key = networkName)) as [<- | Hne].
  - rewrite lookup_alter_eq. by destruct (networks !! key).
  - by rewrite lookup_alter_ne.
Qed.

(** X20: concurrent runNetwork calls never add an entry to the registry,
    never remove one and never change the DAG or the module of one; in
    particular [networks_[networkName]] at line 313 always finds the entry
    the call retained, and never creates a default one. *)
Theorem runs_keep_registry (env : Collaborators) (c0 c : Config) :
  starting c0 -> rtc (step env) c0 c ->
  forall networkName,
    (fun nd => (dag nd, module nd)) <$> (networks_ (host c) !! networkName)
      = (fun nd => (dag nd, module nd)) <$> (networks_ (host c0) !! networkName).
Proof.
  intros Hstart Hreach. pattern c. revert c Hreach.
  apply rtc_ind_r; [done | intros y z Hy Hstep IH networkName].
  rewrite <- IH.
  destruct (ConcurrencyFacts.reach_refs env c0 y Hstart Hy) as (_ & Hheld).
  inversion Hstep as [hm pool i rq Hi Hfin Hready]; subst; simpl in *.
  specialize (Hheld i rq Hi).
  rewrite ConcurrencyFacts.step_networks.
  destruct (req_stage rq) eqn:Hs; try done.
  - destruct (networks_ hm !! req_name rq) as [nd |] eqn:Hnd; [| done].
    destruct (decide (req_name rq = networkName)) as [<- | Hne].
    + by rewrite lookup_insert_eq, Hnd.
    + by rewrite lookup_insert_ne.
  - apply release_keeps_shape.
  - destruct Hheld as [nd Hnd].
    + unfold holds_ref. rewrite bool_decide_eq_true_2 by done. by rewrite Hs.
    + by rewrite Hnd.
  - apply release_keeps_shape.
Qed.

Lemma runs_keep_registry_witness :
  (fun nd => (dag nd, module nd))
    <$> (networks_ (host Scenario.three_calls_midway) !! "zz") = None.
Proof.
  etrans;
    [apply (runs_keep_registry Scenario.obliging Scenario.three_calls
              Scenario.three_calls_midway) | reflexivity].
  - split; simpl; try done.
    + by apply map_Forall_singleton.
    + by repeat constructor.
    + compute_done.
  - apply ConcurrencyFacts.run_schedule_reach.
Defined.

(** X21: while a runNetwork call holds a reference on a network (from line
    286 to line 302, or to line 322 in the completion), removeNetwork on that
    network returns RUNTIME_NET_BUSY and changes nothing: the entry a call
    has retained cannot disappear under it. *)
Theorem removal_refused_while_referenced (env : Collaborators) (c0 c : Config)
    (i : nat) (rq : Request) :
  starting c0 -> rtc (step env) c0 c ->
  calls c !! i = Some rq ->
  holds_ref (req_name rq) rq = 1 ->
  removeNetwork env (req_name rq) (host c) =
    (Failure RUNTIME_NET_BUSY
       ("Cannot remove the network " +:+ req_name rq +:+
        ", as there are still outstanding runs"), host c).
Proof.
  intros Hstart Hreach Hi Hholds.
  destruct (ConcurrencyFacts.reach_refs env c0 c Hstart Hreach) as (Hcount & Hheld).
  destruct (Hheld i rq Hi Hholds) as [nd Hnd].
  pose proof (Hcount _ _ Hnd) as Hrc.
  pose proof (tally_member (holds_ref (req_name rq)) (calls c) i rq
                (fun x => proj1 (ConcurrencyFacts.holds_ref_bounds _ x)) Hi) as Hle.
  unfold removeNetwork. rewrite Hnd.
  rewrite bool_decide_eq_true_2 by lia. done.
Qed.

Lemma removal_refused_while_referenced_witness :
  (removeNetwork Scenario.obliging "f" (host Scenario.three_calls_midway)).2
    = host Scenario.three_calls_midway.
Proof.
  refine (f_equal snd
            (removal_refused_while_referenced Scenario.obliging
               Scenario.three_calls Scenario.three_calls_midway 1
               {| req_name := "f"; req_context := 1%nat; req_callback := 11%nat;
                  req_stage := Retained 1 |} _ _ _ _)).
  - split; simpl; try done.
    + by apply map_Forall_singleton.
    + by repeat constructor.
    + compute_done.
  - apply ConcurrencyFacts.run_schedule_reach.
  - reflexivity.
  - reflexivity.
Defined.

(** X22: once every call has finished the HostManager is quiescent again:
    the in-flight counter is 0, every refcount is 0, and the request counter
    has advanced by exactly the number of calls. *)
Theorem finished_calls_leave_nothing (env : Collaborators) (c0 c : Config) :
  starting c0 -> rtc (step env) c0 c ->
  Forall (fun rq => finished rq = true) (calls c) ->
  activeRequestCount_ (host c) = 0 /\
  map_Forall (fun _ nd => refcount nd = 0) (networks_ (host c)) /\
  totalRequestCount_ (host c)
    = totalRequestCount_ (host c0) + Z.of_nat (length (calls c0)).
Proof.
  intros Hstart Hreach Hall.
  destruct (ConcurrencyFacts.reach_slots env c0 c Hstart Hreach) as (Hact & _).
  destruct (ConcurrencyFacts.reach_refs env c0 c Hstart Hreach) as (Hcount & _).
  destruct (ConcurrencyFacts.reach_ids env c0 c Hstart Hreach) as (Htot & _).
  destruct (ConcurrencyFacts.reach_structure env c0 c Hstart Hreach)
    as (_ & Htok & _).
  apply (f_equal length) in Htok. rewrite !length_fmap in Htok.
  split; [| split].
  - rewrite Hact. apply ConcurrencyFacts.tally_zero.
    eapply Forall_impl; [exact Hall |]. intros rq Hrq. simpl in *.
    unfold finished in Hrq. by destruct (req_stage rq).
  - intros networkName nd Hnd. rewrite (Hcount _ _ Hnd).
    apply ConcurrencyFacts.tally_zero.
    eapply Forall_impl; [exact Hall |]. intros rq Hrq. simpl in *.
    unfold finished in Hrq. unfold holds_ref.
    case_bool_decide; [| done]. by destruct (req_stage rq).
  - rewrite Htot, <- Htok. f_equal. apply tally_all_one.
    eapply Forall_impl; [exact Hall |]. intros rq Hrq. simpl in *.
    unfold finished in Hrq. by destruct (req_stage rq).
Qed.

Lemma finished_calls_leave_nothing_witness :
  activeRequestCount_ (host Scenario.three_calls_done) = 0 /\
  totalRequestCount_ (host Scenario.three_calls_done) = 3.
Proof.
  destruct (finished_calls_leave_nothing Scenario.obliging Scenario.three_calls
              Scenario.three_calls_done) as (Hzero & _ & Htotal).
  - split; simpl; try done.
    + by apply map_Forall_singleton.
    + by repeat constructor.
    + compute_done.
  - apply ConcurrencyFacts.run_schedule_reach.
  - vm_compute. repeat constructor.
  - split; [exact Hzero | exact Htotal].
Defined.

End InterleavingFacts.
